(** * PDFViewer: the view-state machine of [src/app/page.tsx]

    The component is a bag of React state cells ([useState]), a few refs
    ([useRef]), event handlers and effects.  Each state cell is a field of
    [State]; a handler is a function on [State] that applies the handler's
    [setX] calls in source order; the asynchronous render effect is cut at
    its [await]s and run by a small-step scheduler ([sysStep]).

    Numbers: JavaScript numbers that hold pixel or page counts are [Z];
    the zoom scale and page dimensions are exact rationals [Q] (the
    constants 0.25, 0.5 and 5 are dyadic).  Where a result depends on
    rounding, the arithmetic of zoom and fit is read in IEEE 754 doubles
    as well (module [Doubles]).  The PDF library and the JSON codec are
    external collaborators and appear as small interfaces. *)

From Stdlib Require Import Ascii String QArith Qminmax Lqa.
From Stdlib Require Floats.PrimFloat.
From stdpp Require Import gmap strings list fin_maps pretty.

Local Open Scope string_scope.
Local Open Scope Z_scope.

(** ** External collaborators *)

(** [File] as delivered by the file input: only [name] and [type] are read. *)
Record File := mkFile { file_name : string; file_type : string }.

(** A parsed document.  Of pdf.js only this much is used: the page count,
    [getPage(n)] (rejects outside [1..numPages]) and the page's natural
    viewport [getViewport({scale: 1.0})], a width and a height.  [doc_id]
    is the identity of the object, which React compares in dependency
    lists. *)
Record PDFDocumentProxy := mkDoc { doc_id : nat; pageSizes : list (Q * Q) }.

Definition doc_numPages (d : PDFDocumentProxy) : Z :=
  Z.of_nat (length (pageSizes d)).

Definition getPage (d : PDFDocumentProxy) (n : Z) : option (Q * Q) :=
  if 1 <=? n then pageSizes d !! Z.to_nat (n - 1) else None.

(** [page.getViewport({scale})] of a page of natural size [(w, h)]. *)
Definition getViewport (page : Q * Q) (sc : Q) : Q * Q :=
  ((fst page * sc)%Q, (snd page * sc)%Q).

(** A value caught by [catch (error)]: an [Error] object with its [name]
    and [message], or anything else. *)
Inductive Thrown :=
  | ErrorObject (name message : string)
  | NotAnError.

(** What [getPage] rejects with for a page outside the document. *)
Definition invalidPageRequest : Thrown :=
  ErrorObject "Error" "Invalid page request.".

(** ** Data model *)

Record Point := mkPoint { x : Z; y : Z }.

Inductive LoadSource := SrcDefault | SrcFile.

(** [renderTaskRef.current]: the stored task (identified by [task_id]) and
    the [pageNumber] the effect writes onto it. *)
Record RenderTask := mkRenderTask { task_id : nat; pageNumber : Z }.

(** [containerRef.current]: [clientWidth] and [clientHeight]. *)
Record Container := mkContainer { clientWidth : Z; clientHeight : Z }.

(** [canvasRef.current]; [has2d] tells whether [getContext('2d')] is
    non-null. *)
Record Canvas := mkCanvas { has2d : bool }.

Record State := mkState {
  isLoading : bool;
  error : option string;
  scale : Q;
  pageNum : Z;
  numPages : option Z;
  pdfDoc : option PDFDocumentProxy;
  isPanning : bool;
  panPosition : Point;
  startPanPos : Point;
  pdfFile : option File;
  fileName : string;
  isPageRendering : bool;
  pdfLoadSource : option LoadSource;
  isEditingPage : bool;
  pageInputValue : string;
  notes : gmap Z string;
  currentNote : string;
  renderTaskRef : option RenderTask;
  containerRef : option Container;
  canvasRef : option Canvas;
  sessionStorage : gmap string string;
}.

(** The first render: the [useState] initial values and empty refs, in a
    tab whose session storage is empty. *)
Definition initialState : State :=
  {| isLoading := true; error := None; scale := 1%Q; pageNum := 1;
     numPages := None; pdfDoc := None; isPanning := false;
     panPosition := mkPoint 0 0; startPanPos := mkPoint 0 0;
     pdfFile := None; fileName := "No file selected";
     isPageRendering := false; pdfLoadSource := None;
     isEditingPage := false; pageInputValue := "";
     notes := ∅; currentNote := "";
     renderTaskRef := None; containerRef := None; canvasRef := None;
     sessionStorage := ∅ |}.

(** The state setters, one per cell. *)
Definition setIsLoading (v : bool) (s : State) : State :=
  mkState v (s.(error)) (s.(scale)) (s.(pageNum)) (s.(numPages)) (s.(pdfDoc))
    (s.(isPanning)) (s.(panPosition)) (s.(startPanPos)) (s.(pdfFile))
    (s.(fileName)) (s.(isPageRendering)) (s.(pdfLoadSource))
    (s.(isEditingPage)) (s.(pageInputValue)) (s.(notes)) (s.(currentNote))
    (s.(renderTaskRef)) (s.(containerRef)) (s.(canvasRef))
    (s.(sessionStorage)).

Definition setError (v : option string) (s : State) : State :=
  mkState (s.(isLoading)) v (s.(scale)) (s.(pageNum)) (s.(numPages))
    (s.(pdfDoc)) (s.(isPanning)) (s.(panPosition)) (s.(startPanPos))
    (s.(pdfFile)) (s.(fileName)) (s.(isPageRendering)) (s.(pdfLoadSource))
    (s.(isEditingPage)) (s.(pageInputValue)) (s.(notes)) (s.(currentNote))
    (s.(renderTaskRef)) (s.(containerRef)) (s.(canvasRef))
    (s.(sessionStorage)).

Definition setScale (v : Q) (s : State) : State :=
  mkState (s.(isLoading)) (s.(error)) v (s.(pageNum)) (s.(numPages))
    (s.(pdfDoc)) (s.(isPanning)) (s.(panPosition)) (s.(startPanPos))
    (s.(pdfFile)) (s.(fileName)) (s.(isPageRendering)) (s.(pdfLoadSource))
    (s.(isEditingPage)) (s.(pageInputValue)) (s.(notes)) (s.(currentNote))
    (s.(renderTaskRef)) (s.(containerRef)) (s.(canvasRef))
    (s.(sessionStorage)).

Definition setPageNum (v : Z) (s : State) : State :=
  mkState (s.(isLoading)) (s.(error)) (s.(scale)) v (s.(numPages))
    (s.(pdfDoc)) (s.(isPanning)) (s.(panPosition)) (s.(startPanPos))
    (s.(pdfFile)) (s.(fileName)) (s.(isPageRendering)) (s.(pdfLoadSource))
    (s.(isEditingPage)) (s.(pageInputValue)) (s.(notes)) (s.(currentNote))
    (s.(renderTaskRef)) (s.(containerRef)) (s.(canvasRef))
    (s.(sessionStorage)).

Definition setNumPages (v : option Z) (s : State) : State :=
  mkState (s.(isLoading)) (s.(error)) (s.(scale)) (s.(pageNum)) v (s.(pdfDoc))
    (s.(isPanning)) (s.(panPosition)) (s.(startPanPos)) (s.(pdfFile))
    (s.(fileName)) (s.(isPageRendering)) (s.(pdfLoadSource))
    (s.(isEditingPage)) (s.(pageInputValue)) (s.(notes)) (s.(currentNote))
    (s.(renderTaskRef)) (s.(containerRef)) (s.(canvasRef))
    (s.(sessionStorage)).

Definition setPdfDoc (v : option PDFDocumentProxy) (s : State) : State :=
  mkState (s.(isLoading)) (s.(error)) (s.(scale)) (s.(pageNum)) (s.(numPages))
    v (s.(isPanning)) (s.(panPosition)) (s.(startPanPos)) (s.(pdfFile))
    (s.(fileName)) (s.(isPageRendering)) (s.(pdfLoadSource))
    (s.(isEditingPage)) (s.(pageInputValue)) (s.(notes)) (s.(currentNote))
    (s.(renderTaskRef)) (s.(containerRef)) (s.(canvasRef))
    (s.(sessionStorage)).

Definition setIsPanning (v : bool) (s : State) : State :=
  mkState (s.(isLoading)) (s.(error)) (s.(scale)) (s.(pageNum)) (s.(numPages))
    (s.(pdfDoc)) v (s.(panPosition)) (s.(startPanPos)) (s.(pdfFile))
    (s.(fileName)) (s.(isPageRendering)) (s.(pdfLoadSource))
    (s.(isEditingPage)) (s.(pageInputValue)) (s.(notes)) (s.(currentNote))
    (s.(renderTaskRef)) (s.(containerRef)) (s.(canvasRef))
    (s.(sessionStorage)).

Definition setPanPosition (v : Point) (s : State) : State :=
  mkState (s.(isLoading)) (s.(error)) (s.(scale)) (s.(pageNum)) (s.(numPages))
    (s.(pdfDoc)) (s.(isPanning)) v (s.(startPanPos)) (s.(pdfFile))
    (s.(fileName)) (s.(isPageRendering)) (s.(pdfLoadSource))
    (s.(isEditingPage)) (s.(pageInputValue)) (s.(notes)) (s.(currentNote))
    (s.(renderTaskRef)) (s.(containerRef)) (s.(canvasRef))
    (s.(sessionStorage)).

Definition setStartPanPos (v : Point) (s : State) : State :=
  mkState (s.(isLoading)) (s.(error)) (s.(scale)) (s.(pageNum)) (s.(numPages))
    (s.(pdfDoc)) (s.(isPanning)) (s.(panPosition)) v (s.(pdfFile))
    (s.(fileName)) (s.(isPageRendering)) (s.(pdfLoadSource))
    (s.(isEditingPage)) (s.(pageInputValue)) (s.(notes)) (s.(currentNote))
    (s.(renderTaskRef)) (s.(containerRef)) (s.(canvasRef))
    (s.(sessionStorage)).

Definition setPdfFile (v : option File) (s : State) : State :=
  mkState (s.(isLoading)) (s.(error)) (s.(scale)) (s.(pageNum)) (s.(numPages))
    (s.(pdfDoc)) (s.(isPanning)) (s.(panPosition)) (s.(startPanPos)) v
    (s.(fileName)) (s.(isPageRendering)) (s.(pdfLoadSource))
    (s.(isEditingPage)) (s.(pageInputValue)) (s.(notes)) (s.(currentNote))
    (s.(renderTaskRef)) (s.(containerRef)) (s.(canvasRef))
    (s.(sessionStorage)).

Definition setFileName (v : string) (s : State) : State :=
  mkState (s.(isLoading)) (s.(error)) (s.(scale)) (s.(pageNum)) (s.(numPages))
    (s.(pdfDoc)) (s.(isPanning)) (s.(panPosition)) (s.(startPanPos))
    (s.(pdfFile)) v (s.(isPageRendering)) (s.(pdfLoadSource))
    (s.(isEditingPage)) (s.(pageInputValue)) (s.(notes)) (s.(currentNote))
    (s.(renderTaskRef)) (s.(containerRef)) (s.(canvasRef))
    (s.(sessionStorage)).

Definition setIsPageRendering (v : bool) (s : State) : State :=
  mkState (s.(isLoading)) (s.(error)) (s.(scale)) (s.(pageNum)) (s.(numPages))
    (s.(pdfDoc)) (s.(isPanning)) (s.(panPosition)) (s.(startPanPos))
    (s.(pdfFile)) (s.(fileName)) v (s.(pdfLoadSource)) (s.(isEditingPage))
    (s.(pageInputValue)) (s.(notes)) (s.(currentNote)) (s.(renderTaskRef))
    (s.(containerRef)) (s.(canvasRef)) (s.(sessionStorage)).

Definition setPdfLoadSource (v : option LoadSource) (s : State) : State :=
  mkState (s.(isLoading)) (s.(error)) (s.(scale)) (s.(pageNum)) (s.(numPages))
    (s.(pdfDoc)) (s.(isPanning)) (s.(panPosition)) (s.(startPanPos))
    (s.(pdfFile)) (s.(fileName)) (s.(isPageRendering)) v (s.(isEditingPage))
    (s.(pageInputValue)) (s.(notes)) (s.(currentNote)) (s.(renderTaskRef))
    (s.(containerRef)) (s.(canvasRef)) (s.(sessionStorage)).

Definition setIsEditingPage (v : bool) (s : State) : State :=
  mkState (s.(isLoading)) (s.(error)) (s.(scale)) (s.(pageNum)) (s.(numPages))
    (s.(pdfDoc)) (s.(isPanning)) (s.(panPosition)) (s.(startPanPos))
    (s.(pdfFile)) (s.(fileName)) (s.(isPageRendering)) (s.(pdfLoadSource)) v
    (s.(pageInputValue)) (s.(notes)) (s.(currentNote)) (s.(renderTaskRef))
    (s.(containerRef)) (s.(canvasRef)) (s.(sessionStorage)).

Definition setPageInputValue (v : string) (s : State) : State :=
  mkState (s.(isLoading)) (s.(error)) (s.(scale)) (s.(pageNum)) (s.(numPages))
    (s.(pdfDoc)) (s.(isPanning)) (s.(panPosition)) (s.(startPanPos))
    (s.(pdfFile)) (s.(fileName)) (s.(isPageRendering)) (s.(pdfLoadSource))
    (s.(isEditingPage)) v (s.(notes)) (s.(currentNote)) (s.(renderTaskRef))
    (s.(containerRef)) (s.(canvasRef)) (s.(sessionStorage)).

Definition setNotes (v : gmap Z string) (s : State) : State :=
  mkState (s.(isLoading)) (s.(error)) (s.(scale)) (s.(pageNum)) (s.(numPages))
    (s.(pdfDoc)) (s.(isPanning)) (s.(panPosition)) (s.(startPanPos))
    (s.(pdfFile)) (s.(fileName)) (s.(isPageRendering)) (s.(pdfLoadSource))
    (s.(isEditingPage)) (s.(pageInputValue)) v (s.(currentNote))
    (s.(renderTaskRef)) (s.(containerRef)) (s.(canvasRef))
    (s.(sessionStorage)).

Definition setCurrentNote (v : string) (s : State) : State :=
  mkState (s.(isLoading)) (s.(error)) (s.(scale)) (s.(pageNum)) (s.(numPages))
    (s.(pdfDoc)) (s.(isPanning)) (s.(panPosition)) (s.(startPanPos))
    (s.(pdfFile)) (s.(fileName)) (s.(isPageRendering)) (s.(pdfLoadSource))
    (s.(isEditingPage)) (s.(pageInputValue)) (s.(notes)) v (s.(renderTaskRef))
    (s.(containerRef)) (s.(canvasRef)) (s.(sessionStorage)).

Definition setRenderTaskRef (v : option RenderTask) (s : State) : State :=
  mkState (s.(isLoading)) (s.(error)) (s.(scale)) (s.(pageNum)) (s.(numPages))
    (s.(pdfDoc)) (s.(isPanning)) (s.(panPosition)) (s.(startPanPos))
    (s.(pdfFile)) (s.(fileName)) (s.(isPageRendering)) (s.(pdfLoadSource))
    (s.(isEditingPage)) (s.(pageInputValue)) (s.(notes)) (s.(currentNote)) v
    (s.(containerRef)) (s.(canvasRef)) (s.(sessionStorage)).

Definition setSessionStorage (v : gmap string string) (s : State) : State :=
  mkState (s.(isLoading)) (s.(error)) (s.(scale)) (s.(pageNum)) (s.(numPages))
    (s.(pdfDoc)) (s.(isPanning)) (s.(panPosition)) (s.(startPanPos))
    (s.(pdfFile)) (s.(fileName)) (s.(isPageRendering)) (s.(pdfLoadSource))
    (s.(isEditingPage)) (s.(pageInputValue)) (s.(notes)) (s.(currentNote))
    (s.(renderTaskRef)) (s.(containerRef)) (s.(canvasRef)) v.
(** The refs React attaches at mount. *)
Definition setContainerRef (v : option Container) (s : State) : State :=
  mkState (s.(isLoading)) (s.(error)) (s.(scale)) (s.(pageNum)) (s.(numPages))
    (s.(pdfDoc)) (s.(isPanning)) (s.(panPosition)) (s.(startPanPos))
    (s.(pdfFile)) (s.(fileName)) (s.(isPageRendering)) (s.(pdfLoadSource))
    (s.(isEditingPage)) (s.(pageInputValue)) (s.(notes)) (s.(currentNote))
    (s.(renderTaskRef)) v (s.(canvasRef)) (s.(sessionStorage)).

Definition setCanvasRef (v : option Canvas) (s : State) : State :=
  mkState (s.(isLoading)) (s.(error)) (s.(scale)) (s.(pageNum)) (s.(numPages))
    (s.(pdfDoc)) (s.(isPanning)) (s.(panPosition)) (s.(startPanPos))
    (s.(pdfFile)) (s.(fileName)) (s.(isPageRendering)) (s.(pdfLoadSource))
    (s.(isEditingPage)) (s.(pageInputValue)) (s.(notes)) (s.(currentNote))
    (s.(renderTaskRef)) (s.(containerRef)) v (s.(sessionStorage)).

Definition MAX_NOTE_LENGTH : Z := 10000.

(** ** Navigation *)

(** [numPages || 1]: [null] and [0] are falsy. *)
Definition numPagesOr1 (s : State) : Z :=
  match numPages s with
  | Some n => if n =? 0 then 1 else n
  | None => 1
  end.

Definition goToNextPage (s : State) : State :=
  if pageNum s <? numPagesOr1 s then setPageNum (pageNum s + 1) s else s.

Definition goToPrevPage (s : State) : State :=
  if 1 <? pageNum s then setPageNum (pageNum s - 1) s else s.

Definition goToPage (page : Z) (s : State) : State :=
  if (1 <=? page) && (page <=? numPagesOr1 s) then setPageNum page s else s.

(** *** [parseInt] on the page input

    Leading white space is skipped, a sign is read, a [0x] prefix selects
    radix 16, and the longest prefix of digits is converted; no digit at
    all gives [NaN], here [None]. *)

Definition isWhiteSpace (c : ascii) : bool :=
  let n := Z.of_N (N_of_ascii c) in
  ((9 <=? n) && (n <=? 13)) || (n =? 32).

Fixpoint trimStart (s : string) : string :=
  match s with
  | String c r => if isWhiteSpace c then trimStart r else s
  | EmptyString => s
  end.

Definition digitValue (c : ascii) : option Z :=
  let n := Z.of_N (N_of_ascii c) in
  if (48 <=? n) && (n <=? 57) then Some (n - 48)
  else if (97 <=? n) && (n <=? 122) then Some (n - 87)
  else if (65 <=? n) && (n <=? 90) then Some (n - 55)
  else None.

Fixpoint parseDigits (radix : Z) (s : string) (acc : option Z) : option Z :=
  match s with
  | String c r =>
      match digitValue c with
      | Some d =>
          if d <? radix
          then parseDigits radix r (Some (radix * default 0 acc + d))
          else acc
      | None => acc
      end
  | EmptyString => acc
  end.

Definition parseInt (s : string) : option Z :=
  let s := trimStart s in
  let '(neg, s) :=
    match s with
    | String "-" r => (true, r)
    | String "+" r => (false, r)
    | _ => (false, s)
    end in
  let '(radix, s) :=
    match s with
    | String "0" (String "x" r) | String "0" (String "X" r) => (16, r)
    | _ => (10, s)
    end in
  (λ v, if neg : bool then - v else v) <$> parseDigits radix s None.

Definition handlePageInputChange (value : string) (s : State) : State :=
  let isDigit (c : ascii) :=
    let n := Z.of_N (N_of_ascii c) in (48 <=? n) && (n <=? 57) in
  setPageInputValue
    (string_of_list_ascii (List.filter isDigit (list_ascii_of_string value))) s.

Definition submitPageChange (s : State) : State :=
  let s :=
    match parseInt (pageInputValue s) with
    | Some newPage => goToPage newPage s
    | None => s
    end in
  setIsEditingPage false s.

Definition cancelPageEdit (s : State) : State := setIsEditingPage false s.

(** [pageNum.toString()] is the decimal numeral, stdpp's [pretty]. *)
Definition startPageEdit (s : State) : State :=
  setIsEditingPage true (setPageInputValue (pretty (pageNum s)) s).

Inductive Key := Enter | Escape | OtherKey.

Definition handlePageInputKeyDown (k : Key) (s : State) : State :=
  match k with
  | Enter => submitPageChange s
  | Escape => cancelPageEdit s
  | OtherKey => s
  end.

(** ** Zoom, fit and pan *)

Definition zoomIn (s : State) : State :=
  setScale (Qmin (scale s + 0.25) 5) s.

Definition zoomOut (s : State) : State :=
  setScale (Qmax (scale s - 0.25) 0.5) s.

(** [fitToPage]: returns at once without a document or a container; a
    rejected [getPage] is caught and only logged. *)
Definition fitToPage (s : State) : State :=
  match pdfDoc s, containerRef s with
  | Some doc, Some container =>
      match getPage doc (pageNum s) with
      | Some page =>
          let viewport := getViewport page 1 in
          let containerWidth := inject_Z (clientWidth container) in
          let containerHeight := inject_Z (clientHeight container) in
          let scaleWidth := (containerWidth / fst viewport)%Q in
          let scaleHeight := (containerHeight / snd viewport)%Q in
          let newScale := Qmin scaleWidth scaleHeight in
          setPanPosition (mkPoint 0 0) (setScale newScale s)
      | None => s
      end
  | _, _ => s
  end.

(** *** Zoom and fit in doubles

    JavaScript numbers are IEEE 754 binary64, and [scale + 0.25] or
    [containerWidth / viewport.width] is rounded to the nearest double.
    These are the expressions of [zoomIn], [zoomOut] and [fitToPage] over
    binary64 floats. *)
Module Doubles.
Import PrimFloat.

(** [Math.min] and [Math.max]: [NaN] when an argument is [NaN], and [-0]
    counts as smaller than [+0]. *)
Definition Math_min (a b : float) : float :=
  if (is_nan a || is_nan b)%bool then nan
  else if ltb a b then a
  else if ltb b a then b
  else if (is_zero a && get_sign a)%bool then a else b.

Definition Math_max (a b : float) : float :=
  if (is_nan a || is_nan b)%bool then nan
  else if ltb a b then b
  else if ltb b a then a
  else if (is_zero a && negb (get_sign a))%bool then a else b.

Definition zoomIn (prevScale : float) : float :=
  Math_min (prevScale + 0.25)%float 5%float.

Definition zoomOut (prevScale : float) : float :=
  Math_max (prevScale - 0.25)%float 0.5%float.

Definition getViewport (page : float * float) (sc : float) : float * float :=
  ((fst page * sc)%float, (snd page * sc)%float).

(** The scale that [fitToPage] stores for a page of the given natural
    size. *)
Definition newScale (containerWidth containerHeight : float)
    (page : float * float) : float :=
  let viewport := getViewport page 1%float in
  let scaleWidth := (containerWidth / fst viewport)%float in
  let scaleHeight := (containerHeight / snd viewport)%float in
  Math_min scaleWidth scaleHeight.

(** The scales from 0.5 to 5 in steps of 0.25, as doubles; the initial
    scale 1 is the third. *)
Definition quarterScales : list float :=
  [0.5; 0.75; 1; 1.25; 1.5; 1.75; 2; 2.25; 2.5; 2.75; 3; 3.25; 3.5; 3.75; 4;
   4.25; 4.5; 4.75; 5]%float.

End Doubles.

(** A mouse event: [clientX], [clientY]. *)
Definition handleMouseDown (e : Point) (s : State) : State :=
  if Qlt_le_dec 1 (scale s)
  then setStartPanPos (mkPoint (x e - x (panPosition s)) (y e - y (panPosition s)))
         (setIsPanning true s)
  else s.

Definition handleMouseMove (e : Point) (s : State) : State :=
  if isPanning s
  then setPanPosition (mkPoint (x e - x (startPanPos s)) (y e - y (startPanPos s))) s
  else s.

Definition handleMouseUp (s : State) : State := setIsPanning false s.
Definition handleMouseLeave (s : State) : State := setIsPanning false s.

(** ** Upload *)

(** [event.target.files] is a [FileList] or [null]; [files[0]] of an empty
    list is [undefined]. *)
Definition handleFileChange (files : option (list File)) (s : State) : State :=
  match files ≫= head with
  | Some file =>
      if String.eqb (file_type file) "application/pdf" then
        let s := setPdfFile (Some file) s in
        let s := setFileName (file_name file) s in
        let s := setPageNum 1 s in
        let s := setPanPosition (mkPoint 0 0) s in
        let s := setError None s in
        let s := setPdfLoadSource (Some SrcFile) s in
        let s := setIsEditingPage false s in
        let s := setNotes ∅ s in
        let s := setCurrentNote "" s in
        let s := setSessionStorage (delete "pdfNotes" (sessionStorage s)) s in
        setPdfDoc None s
      else setError (Some "Please select a valid PDF file") s
  | None => s
  end.

(** ** Notes *)

(** The structured note of the [PageNote] / [DocumentNotes] interfaces.
    The optional [layout] is carried along and never read or written. *)
Record BBox := mkBBox { x0 : Q; y0 : Q; x1 : Q; y1 : Q }.
Record Block := mkBlock { block_type : string; block_text : string; bbox : option BBox }.
Record Layout := mkLayout { blocks : list Block }.
Record PageNote := mkPageNote { number : Z; text : string; layout : option Layout }.
Record Metadata := mkMetadata { total_pages : Z }.
Record Document := mkDocument { pages : list PageNote; metadata : Metadata }.
Record DocumentNotes := mkDocumentNotes { document : Document }.

(** What [JSON.parse] does with a text when the caller expects an [A]:
    it returns a value of that shape, returns a value of another shape, or
    throws [SyntaxError]. *)
Inductive ParseResult (A : Type) :=
  | Parsed (a : A)
  | WrongShape
  | SyntaxError.
Global Arguments Parsed {A} a.
Global Arguments WrongShape {A}.
Global Arguments SyntaxError {A}.

(** The browser's JSON codec, as far as the component relies on it:
    a stringified note parses back to itself and is never the empty
    string.  [stringifyNotes] is [JSON.stringify] on the [PageNotes] map. *)
Class JSON := {
  stringify : DocumentNotes → string;
  parse : string → ParseResult DocumentNotes;
  stringifyNotes : gmap Z string → string;
  parse_stringify : ∀ d, parse (stringify d) = Parsed d;
  stringify_truthy : ∀ d, stringify d ≠ "";
}.

(** Truthiness of a string and of a number. *)
Definition truthy (s : string) : bool := negb (String.eqb s "").
Definition truthyZ (n : Z) : bool := negb (n =? 0).

Definition getEmptyNotes (totalPages : Z) (specificPage : option Z) : DocumentNotes :=
  let emptyPages :=
    match specificPage with
    | Some p =>
        if truthyZ p then [mkPageNote p "" None]
        else (λ i, mkPageNote i "" None) <$> seqZ 1 totalPages
    | None => (λ i, mkPageNote i "" None) <$> seqZ 1 totalPages
    end in
  mkDocumentNotes (mkDocument emptyPages (mkMetadata totalPages)).

(** [Array.prototype.findIndex]; [None] is [-1]. *)
Fixpoint findIndex {A} (f : A → bool) (l : list A) : option nat :=
  match l with
  | [] => None
  | a :: l => if f a then Some 0%nat else S <$> findIndex f l
  end.

Definition setText (newText : string) (p : PageNote) : PageNote :=
  mkPageNote (number p) newText (layout p).

Section Notes.
Context {J : JSON}.

(** [notes[pageNum]] when truthy. *)
Definition storedNote (s : State) : option string :=
  match notes s !! pageNum s with
  | Some txt => if truthy txt then Some txt else None
  | None => None
  end.

(** [updateNoteJson].  The inner [try] turns a [SyntaxError] into a fresh
    structure.  A parsed value of another shape makes the member accesses
    that follow throw; that is the outer [catch], which returns the bare
    text. *)
Definition updateNoteJson (newText : string) (s : State) : string :=
  let noteObj : option DocumentNotes :=
    match storedNote s with
    | Some txt =>
        match parse txt with
        | Parsed d => Some d
        | SyntaxError => Some (getEmptyNotes (numPagesOr1 s) None)
        | WrongShape => None
        end
    | None => Some (getEmptyNotes (numPagesOr1 s) None)
    end in
  match noteObj with
  | Some noteObj =>
      let ps := pages (document noteObj) in
      let ps :=
        match findIndex (λ p, number p =? pageNum s) ps with
        | Some pageIndex => alter (setText newText) pageIndex ps
        | None => (ps ++ [mkPageNote (pageNum s) newText None])%list
        end in
      let total :=
        Z.max (total_pages (metadata (document noteObj))) (numPagesOr1 s) in
      stringify (mkDocumentNotes (mkDocument ps (mkMetadata total)))
  | None => newText
  end.

Definition handleNoteChange (newText : string) (s : State) : State :=
  if Z.of_nat (String.length newText) <=? MAX_NOTE_LENGTH then
    let updatedJson := updateNoteJson newText s in
    setNotes (<[pageNum s := updatedJson]> (notes s)) (setCurrentNote newText s)
  else s.

(** *** The note effects

    An effect reads the state of the render it belongs to ([snap]) and
    queues updates; [st] is the state the queued updates are applied to.
    The effect that reloads saved notes runs once, at mount, and reads
    [pdfNotes] from session storage; in a tab without saved notes it does
    nothing, and that is where the runs of this development start
    ([initialState]). *)

Definition hasPages (s : State) : bool :=
  match numPages s with
  | Some n => truthyZ n && (0 <? n)
  | None => false
  end.

(** Initialise the notes when the page count is known and no note exists. *)
Definition initNotesEffect (snap st : State) : State :=
  if hasPages snap && (size (notes snap) =? 0)%nat then
    let emptyNoteJson := stringify (getEmptyNotes 1 None) in
    let st := setCurrentNote "" st in
    let st := setNotes {[ 1 := emptyNoteJson ]} st in
    setSessionStorage
      (<["pdfNotes" := stringifyNotes {[ 1 := emptyNoteJson ]}]> (sessionStorage st)) st
  else st.

(** Show the note of the current page. *)
Definition pageNoteEffect (snap st : State) : State :=
  match storedNote snap with
  | Some txt =>
      let found :=
        match parse txt with
        | Parsed noteObj =>
            List.find (λ p, number p =? pageNum snap) (pages (document noteObj))
        | _ => None
        end in
      match found with
      | Some pageNote => setCurrentNote (text pageNote) st
      | None => setCurrentNote txt st
      end
  | None =>
      if hasPages snap then
        let emptyNotesObj := getEmptyNotes (numPagesOr1 snap) (Some (pageNum snap)) in
        match head (pages (document emptyNotesObj)) with
        | Some _ =>
            let st := setCurrentNote "" st in
            let updatedJson := updateNoteJson "" snap in
            setNotes (<[pageNum snap := updatedJson]> (notes st)) st
        | None => setCurrentNote "" st
        end
      else setCurrentNote "" st
  end.

(** Save the notes to session storage. *)
Definition saveNotesEffect (snap st : State) : State :=
  setSessionStorage
    (<["pdfNotes" := stringifyNotes (notes snap)]> (sessionStorage st)) st.

(** One commit: the three effects in source order, all reading the same
    render.  React skips an effect whose dependencies did not change;
    running it nevertheless repeats the updates of its last run. *)
Definition notesEffects (snap : State) : State :=
  saveNotesEffect snap (pageNoteEffect snap (initNotesEffect snap snap)).

(** Re-rendering until nothing changes takes two commits
    ([notesEffects_settled] below). *)
Definition settle (s : State) : State := notesEffects (notesEffects s).
End Notes.

(** ** Loading and rendering: the synchronous pieces *)

(** [error instanceof Error ? error.message : fallback]. *)
Definition errorMessage (fallback : string) (err : Thrown) : string :=
  match err with
  | ErrorObject _ message => message
  | NotAnError => fallback
  end.

(** The guard at the top of [loadPDF]. *)
Definition loadPDF_skips (s : State) : bool :=
  (bool_decide (is_Some (pdfDoc s)) && bool_decide (is_Some (pdfLoadSource s)))
  || isPageRendering s.

(** [loadPDF] up to [await loadingTask.promise]. *)
Definition loadPDF_begin (s : State) : State :=
  let s := setIsLoading true s in
  match pdfFile s with
  | Some _ => setPdfLoadSource (Some SrcFile) s
  | None => setFileName "example.pdf" (setPdfLoadSource (Some SrcDefault) s)
  end.

(** [loadPDF] after the document arrived. *)
Definition loadPDF_loaded (isCancelled : bool) (pdf : PDFDocumentProxy)
    (s : State) : State :=
  if isCancelled then s
  else setError None (setNumPages (Some (doc_numPages pdf)) (setPdfDoc (Some pdf) s)).

Definition loadPDF_catch (isCancelled : bool) (err : Thrown) (s : State) : State :=
  if isCancelled then s
  else setIsLoading false (setError (Some (errorMessage "Failed to load PDF" err)) s).

(** [renderPage] up to [await pdfDoc.getPage(pageNum)].  No cleanup can
    have run yet, so [isCancelled] is still [false] in the pan test. *)
Definition renderPage_begin (s : State) : State :=
  match pdfDoc s with
  | None => s
  | Some _ =>
      let s := setIsPageRendering true s in
      let s :=
        match canvasRef s with
        | Some canvas => if has2d canvas then s else setIsLoading true s
        | None => setIsLoading true s
        end in
      match renderTaskRef s with
      | Some task =>
          if negb (pageNum s =? pageNumber task)
          then setPanPosition (mkPoint 0 0) s
          else s
      | None => s
      end
  end.

(** [renderPage] after [await renderTask.promise] fulfilled. *)
Definition renderPage_done (isCancelled : bool) (s : State) : State :=
  if isCancelled then s
  else setIsPageRendering false (setIsLoading false s).

Definition renderPage_catch (isCancelled : bool) (err : Thrown) (s : State) : State :=
  if isCancelled then s
  else
    setIsPageRendering false
      (setIsLoading false
         (setError (Some (errorMessage "Failed to render PDF" err)) s)).

(** The error banner, [{error && (<div>Error: {error}</div>)}]: the text
    shown, if any. *)
Definition errorBanner (s : State) : option string :=
  match error s with
  | Some e => if truthy e then Some ("Error: " ++ e) else None
  | None => None
  end.

(** ** The component as a transition system *)

(** User operations and what the environment does to the view state: the
    container is laid out again; a run of [loadPDF] that was not cancelled
    fails, or delivers its document (a new object, so with a [doc_id] of
    its own).  Such a run is taken in one step.  The timer it sets calls
    the [fitToPage] of the render it started in, where [pdfDoc] is still
    [null], and is guarded by [isCancelled]: it changes nothing. *)
Inductive event :=
  | ClickNext | ClickPrev
  | ClickPageNumber
  | PageInput (value : string)
  | PageKeyDown (k : Key)
  | PageBlur
  | ClickZoomIn | ClickZoomOut | ClickFit
  | MouseDown (e : Point) | MouseMove (e : Point) | MouseUp | MouseLeave
  | SelectFile (files : option (list File))
  | EditNote (newText : string)
  | Resize (container : Container)
  | LoadFailed (err : Thrown)
  | Loaded (pdf : PDFDocumentProxy).

Section System.
Context {J : JSON}.

(** The handler of an event.  A button with [disabled={isLoading || ...}]
    does not fire while it is disabled; the page-number field is shown
    only while [isEditingPage]. *)
Definition handle (ev : event) (s : State) : State :=
  match ev with
  | ClickNext =>
      if isLoading s || (numPagesOr1 s <=? pageNum s) then s else goToNextPage s
  | ClickPrev => if isLoading s || (pageNum s <=? 1) then s else goToPrevPage s
  | ClickPageNumber => if isEditingPage s then s else startPageEdit s
  | PageInput value =>
      if isEditingPage s then handlePageInputChange value s else s
  | PageKeyDown k => if isEditingPage s then handlePageInputKeyDown k s else s
  | PageBlur => if isEditingPage s then submitPageChange s else s
  | ClickZoomIn => if isLoading s then s else zoomIn s
  | ClickZoomOut => if isLoading s then s else zoomOut s
  | ClickFit => if isLoading s then s else fitToPage s
  | MouseDown e => handleMouseDown e s
  | MouseMove e => handleMouseMove e s
  | MouseUp => handleMouseUp s
  | MouseLeave => handleMouseLeave s
  | SelectFile files => handleFileChange files s
  | EditNote newText => handleNoteChange newText s
  | Resize container => setContainerRef (Some container) s
  | LoadFailed err =>
      if loadPDF_skips s then s else loadPDF_catch false err (loadPDF_begin s)
  | Loaded pdf =>
      if loadPDF_skips s then s else loadPDF_loaded false pdf (loadPDF_begin s)
  end.

(** A handler runs, then the note effects re-render until nothing
    changes. *)
Definition step (ev : event) (s : State) : State := settle (handle ev s).

(** *** Render tasks and runs of the render effect *)

(** The promise of a render task. *)
Inductive Promise := Pending | Fulfilled | Rejected (err : Thrown).

(** [renderTask.cancel()]: a pending task rejects with
    [RenderingCancelledException]. *)
Definition cancel (p : Promise) : Promise :=
  match p with
  | Pending =>
      Rejected (ErrorObject "RenderingCancelledException" "Rendering cancelled")
  | _ => p
  end.

(** Where a run of [renderPage] is suspended. *)
Inductive Pc :=
  | AwaitGetPage
  | AwaitPrevious (task : nat)
  | AwaitRender (task : nat)
  | Returned.

(** One run of the render effect: its [isCancelled] flag and the
    [pdfDoc], [pageNum] and [scale] its closure captured. *)
Record Run := mkRun {
  isCancelled : bool;
  run_pdfDoc : PDFDocumentProxy;
  run_pageNum : Z;
  run_scale : Q;
  pc : Pc;
}.

Record System := mkSystem {
  view : State;
  tasks : list Promise;
  runs : list Run;
}.

(** The component after mount: the refs are attached and the note effects
    have run; the render effect has returned at once, there being no
    document, and left no run behind. *)
Definition initialSystem (container : Container) (canvas : Canvas) : System :=
  mkSystem
    (settle (setCanvasRef (Some canvas) (setContainerRef (Some container) initialState)))
    [] [].

(** The number of render tasks that have not settled. *)
Definition isPending (p : Promise) : bool :=
  match p with Pending => true | _ => false end.

Definition inFlight (sys : System) : nat :=
  length (List.filter isPending (tasks sys)).

(** The dependency list [[pdfDoc, pageNum, scale]] changed. *)
Definition renderDepsChanged (s s' : State) : bool :=
  negb (bool_decide ((doc_id <$> pdfDoc s) = (doc_id <$> pdfDoc s')))
  || negb (pageNum s =? pageNum s')
  || negb (Qeq_bool (scale s) (scale s')).

Definition setCancelled (r : Run) : Run :=
  mkRun true (run_pdfDoc r) (run_pageNum r) (run_scale r) (pc r).

Definition setPc (p : Pc) (r : Run) : Run :=
  mkRun (isCancelled r) (run_pdfDoc r) (run_pageNum r) (run_scale r) p.

(** The effect's cleanup: [isCancelled = true] in the latest run, and
    [cancel()] on whatever task the ref holds now. *)
Definition cleanup (sys : System) : System :=
  mkSystem (view sys)
    (match renderTaskRef (view sys) with
     | Some task => alter cancel (task_id task) (tasks sys)
     | None => tasks sys
     end)
    (alter setCancelled (pred (length (runs sys))) (runs sys)).

(** A new run of the effect, up to its first [await]. *)
Definition startRun (sys : System) : System :=
  match pdfDoc (view sys) with
  | Some doc =>
      mkSystem (renderPage_begin (view sys)) (tasks sys)
        (runs sys ++ [mkRun false doc (pageNum (view sys)) (scale (view sys))
                        AwaitGetPage])
  | None => sys
  end.

(** [page.render(renderContext)], stored in the ref with its page number;
    the run then waits for it.  Without a 2d context the run returns. *)
Definition startRender (i : nat) (r : Run) (sys : System) : System :=
  match canvasRef (view sys) with
  | Some canvas =>
      if has2d canvas then
        let renderTask := length (tasks sys) in
        mkSystem
          (setRenderTaskRef (Some (mkRenderTask renderTask (run_pageNum r))) (view sys))
          (tasks sys ++ [Pending])
          (<[i := setPc (AwaitRender renderTask) r]> (runs sys))
      else mkSystem (view sys) (tasks sys) (<[i := setPc Returned r]> (runs sys))
  | None => mkSystem (view sys) (tasks sys) (<[i := setPc Returned r]> (runs sys))
  end.

(** The [catch] of [renderPage]; the run ends. *)
Definition failRun (i : nat) (r : Run) (err : Thrown) (sys : System) : System :=
  mkSystem (renderPage_catch (isCancelled r) err (view sys)) (tasks sys)
    (<[i := setPc Returned r]> (runs sys)).

(** Run [i] continues after the promise it awaits has settled; while
    that promise is pending nothing happens. *)
Definition resume (i : nat) (sys : System) : System :=
  match runs sys !! i with
  | None => sys
  | Some r =>
      match pc r with
      | AwaitGetPage =>
          match getPage (run_pdfDoc r) (run_pageNum r) with
          | None => failRun i r invalidPageRequest sys
          | Some page =>
              match canvasRef (view sys) with
              | None =>
                  mkSystem (view sys) (tasks sys) (<[i := setPc Returned r]> (runs sys))
              | Some canvas =>
                  match renderTaskRef (view sys) with
                  | Some task =>
                      mkSystem (view sys) (tasks sys)
                        (<[i := setPc (AwaitPrevious (task_id task)) r]> (runs sys))
                  | None => startRender i r sys
                  end
              end
          end
      | AwaitPrevious t =>
          match tasks sys !! t with
          | Some Fulfilled => startRender i r sys
          | Some (Rejected (ErrorObject name message)) =>
              if negb (String.eqb name "RenderingCancelledException")
              then failRun i r (ErrorObject name message) sys
              else startRender i r sys
          | Some (Rejected NotAnError) => startRender i r sys
          | Some Pending | None => sys
          end
      | AwaitRender t =>
          match tasks sys !! t with
          | Some Fulfilled =>
              mkSystem (renderPage_done (isCancelled r) (view sys)) (tasks sys)
                (<[i := setPc Returned r]> (runs sys))
          | Some (Rejected err) => failRun i r err sys
          | Some Pending | None => sys
          end
      | Returned => sys
      end
  end.

(** The library settles a pending task. *)
Definition settleTask (t : nat) (outcome : Promise) (sys : System) : System :=
  match tasks sys !! t with
  | Some Pending => mkSystem (view sys) (<[t := outcome]> (tasks sys)) (runs sys)
  | _ => sys
  end.

Inductive sysEvent :=
  | Ev (ev : event)
  | Resume (i : nat)
  | RenderFulfilled (t : nat)
  | RenderRejected (t : nat) (err : Thrown).

(** One transition.  After a view event the render effect runs again
    when one of its dependencies changed: cleanup of the previous run,
    then the new run. *)
Definition sysStep (e : sysEvent) (sys : System) : System :=
  match e with
  | Ev ev =>
      let s' := step ev (view sys) in
      let sys' := mkSystem s' (tasks sys) (runs sys) in
      if renderDepsChanged (view sys) s' then startRun (cleanup sys') else sys'
  | Resume i => resume i sys
  | RenderFulfilled t => settleTask t Fulfilled sys
  | RenderRejected t err => settleTask t (Rejected err) sys
  end.

Definition sysRun (es : list sysEvent) (sys : System) : System :=
  foldl (λ sys e, sysStep e sys) sys es.
End System.

(** ** Notions used in the statements *)

(** The ways the page index is changed by the user. *)
Inductive NavOp := NavNext | NavPrev | NavGoTo (page : Z) | NavSubmit.

Definition navigate (op : NavOp) (s : State) : State :=
  match op with
  | NavNext => goToNextPage s
  | NavPrev => goToPrevPage s
  | NavGoTo page => goToPage page s
  | NavSubmit => submitPageChange s
  end.

Definition scaleInRange (s : State) : Prop := (0.5 <= scale s <= 5)%Q.

(** Writing the text of page [p] into a page list: the first entry of
    page [p] is updated, or a new entry is appended. *)
Definition upsertPage (p : Z) (newText : string) (ps : list PageNote) : list PageNote :=
  match findIndex (λ pn, number pn =? p) ps with
  | Some pageIndex => alter (setText newText) pageIndex ps
  | None => (ps ++ [mkPageNote p newText None])%list
  end.

Section NotesNotions.
Context {J : JSON}.

(** The stored note of the current page, if any, is not a JSON text of a
    foreign shape.  Every note the component writes is of this kind
    ([sysRun_notesWritten]). *)
Definition noteReadable (s : State) : Prop :=
  ∀ txt, storedNote s = Some txt → parse txt ≠ WrongShape.

Definition notesWritten (s : State) : Prop :=
  ∀ k txt, notes s !! k = Some txt → ∃ d, txt = stringify d.

(** What the page effect shows for a stored text. *)
Definition shownText (s : State) (txt : string) : string :=
  match parse txt with
  | Parsed noteObj =>
      match List.find (λ p, number p =? pageNum s) (pages (document noteObj)) with
      | Some pageNote => text pageNote
      | None => txt
      end
  | _ => txt
  end.

End NotesNotions.

(** The state without its note cells, and systems that agree on all but
    the note cells. *)
Definition forgetNotes (s : State) : State :=
  setSessionStorage ∅ (setNotes ∅ (setCurrentNote "" s)).

Definition sameLifecycle (sys1 sys2 : System) : Prop :=
  forgetNotes (view sys1) = forgetNotes (view sys2)
  ∧ tasks sys1 = tasks sys2
  ∧ runs sys1 = runs sys2.

(** A schedule on a two-page document: the first page is rendered; the
    user goes to page 2 and zooms in before [getPage(2)] has resolved; the
    two runs of the effect resume in turn. *)
Definition overlapSchedule : list sysEvent :=
  [Ev (Loaded (mkDoc 1 [(612%Q, 792%Q); (612%Q, 792%Q)]));
   Resume 0; RenderFulfilled 0; Resume 0;
   Ev ClickNext; Ev ClickZoomIn;
   Resume 1; Resume 2; Resume 1; Resume 2].

(** A decimal digit: the class [0-9] kept by the page input. *)
Definition isDecimalDigit (c : ascii) : bool :=
  let n := Z.of_N (N_of_ascii c) in (48 <=? n) && (n <=? 57).

Definition digitsOnly (txt : string) : Prop :=
  Forall (λ c, isDecimalDigit c = true) (list_ascii_of_string txt).

(** The mouse events of the page area. *)
Definition isMouseEvent (ev : event) : bool :=
  match ev with
  | MouseDown _ | MouseMove _ | MouseUp | MouseLeave => true
  | _ => false
  end.

(** A text within the note limit. *)
Definition withinLimit (txt : string) : Prop :=
  Z.of_nat (String.length txt) ≤ MAX_NOTE_LENGTH.

(** The update [updateNoteJson] makes to the structure it starts from:
    the text of page [p], and the larger of the two page totals. *)
Definition writeNote (p total : Z) (newText : string) (d : DocumentNotes) : DocumentNotes :=
  mkDocumentNotes
    (mkDocument (upsertPage p newText (pages (document d)))
       (mkMetadata (Z.max (total_pages (metadata (document d))) total))).

(** The entry of page [k] in a structured note. *)
Definition pageEntry (k : Z) (d : DocumentNotes) : option PageNote :=
  List.find (λ p, number p =? k) (pages (document d)).

(** The cells the note handlers and effects read and write. *)
Definition noteCells (s : State) :
    gmap Z string * string * gmap string string * Z * option Z :=
  (notes s, currentNote s, sessionStorage s, pageNum s, numPages s).

Section MoreNotesNotions.
Context {J : JSON}.

(** The structure [updateNoteJson] starts from: the parsed stored note, or
    a fresh one for all pages. *)
Definition baseNotes (s : State) : DocumentNotes :=
  match storedNote s with
  | Some txt =>
      match parse txt with
      | Parsed d => d
      | _ => getEmptyNotes (numPagesOr1 s) None
      end
  | None => getEmptyNotes (numPagesOr1 s) None
  end.

(** A stored note of page [k] as the component writes it: a stringified
    structure with an entry for [k], every text within the limit. *)
Definition noteEntryOk (k : Z) (txt : string) : Prop :=
  ∃ d pn, txt = stringify d
          ∧ pageEntry k d = Some pn
          ∧ Forall (λ p, withinLimit (text p)) (pages (document d)).

Definition notesBounded (s : State) : Prop :=
  (∀ k txt, notes s !! k = Some txt → noteEntryOk k txt)
  ∧ withinLimit (currentNote s).

(** The note shown is the text of the current page's entry. *)
Definition noteDisplayed (s : State) : Prop :=
  match notes s !! pageNum s with
  | Some txt =>
      ∃ d pn, txt = stringify d ∧ pageEntry (pageNum s) d = Some pn
              ∧ currentNote s = text pn
  | None => currentNote s = "" ∧ hasPages s = false
  end.

(** Session storage holds the notes as they are. *)
Definition storageMirrorsNotes (s : State) : Prop :=
  sessionStorage s !! "pdfNotes" = Some (stringifyNotes (notes s)).

End MoreNotesNotions.

(** No document, a page render flagged as in progress, and no run of the
    render effect left that could clear the flag. *)
Definition renderBlocked (sys : System) : Prop :=
  pdfDoc (view sys) = None
  ∧ isPageRendering (view sys) = true
  ∧ Forall (λ r, isCancelled r = true) (runs sys).

(** A run that is not cancelled is the latest one, and its closure holds
    the current document, page and scale. *)
Definition liveRunIsCurrent (sys : System) : Prop :=
  ∀ i r, runs sys !! i = Some r → isCancelled r = false →
    S i = length (runs sys)
    ∧ run_pageNum r = pageNum (view sys)
    ∧ (run_scale r == scale (view sys))%Q
    ∧ doc_id <$> pdfDoc (view sys) = Some (doc_id (run_pdfDoc r)).

Definition isNoteEdit (e : sysEvent) : bool :=
  match e with
  | Ev (EditNote _) => true
  | _ => false
  end.

(** A schedule that ends while the first page is being rendered: the
    document has arrived and the run of the render effect has started its
    render task, which is pending. *)
Definition renderingSchedule : list sysEvent :=
  [Ev (Loaded (mkDoc 1 [(612%Q, 792%Q); (612%Q, 792%Q)])); Resume 0].

(** A schedule on a two-page document that ends in an idle state on page
    1 whose ref holds a task recorded for page 2.  Page 1 is rendered and
    zoomed to 1.25; the user goes to page 2 and back before [getPage(2)]
    has resolved; the run for page 1 renders; the cancelled run for page 2
    waits for that task, then renders and stores its own task; the user
    drags the page by (40, 50). *)
Definition staleRefSchedule : list sysEvent :=
  [Ev (Loaded (mkDoc 1 [(612%Q, 792%Q); (612%Q, 792%Q)]));
   Resume 0; RenderFulfilled 0; Resume 0;
   Ev ClickZoomIn; Resume 1; Resume 1; RenderFulfilled 1; Resume 1;
   Ev ClickNext; Ev ClickPrev;
   Resume 3; Resume 3;
   Resume 2;
   RenderFulfilled 2; Resume 3;
   Resume 2;
   RenderFulfilled 3; Resume 2;
   Ev (MouseDown (mkPoint 10 10)); Ev (MouseMove (mkPoint 50 60)); Ev MouseUp].

(** ** A reference codec

    An instance of the [JSON] interface, to show that its two laws can be
    met and to run the model on concrete inputs.  A note is flattened to
    nested tuples, numbered by stdpp's [Countable], and the number is
    written in binary. *)
Module ReferenceCodec.

Fixpoint posToString (p : positive) : string :=
  match p with
  | xH => "."
  | xO q => String "0" (posToString q)
  | xI q => String "1" (posToString q)
  end.

Fixpoint stringToPos (s : string) : option positive :=
  match s with
  | String "0" r => xO <$> stringToPos r
  | String "1" r => xI <$> stringToPos r
  | String "." EmptyString => Some xH
  | _ => None
  end.

Definition QTuple : Type := Z * positive.
Definition BBoxTuple : Type := QTuple * QTuple * QTuple * QTuple.
Definition BlockTuple : Type := string * string * option BBoxTuple.
Definition PageTuple : Type := Z * string * option (list BlockTuple).
Definition DocTuple : Type := list PageTuple * Z.

Definition ofQ (q : Q) : QTuple := (Qnum q, Qden q).
Definition toQ (t : QTuple) : Q := Qmake t.1 t.2.

Definition ofBBox (b : BBox) : BBoxTuple :=
  (ofQ (x0 b), ofQ (y0 b), ofQ (x1 b), ofQ (y1 b)).
Definition toBBox (t : BBoxTuple) : BBox :=
  let '(a, b, c, d) := t in mkBBox (toQ a) (toQ b) (toQ c) (toQ d).

Definition ofBlock (b : Block) : BlockTuple :=
  (block_type b, block_text b, ofBBox <$> bbox b).
Definition toBlock (t : BlockTuple) : Block :=
  let '(ty, tx, bb) := t in mkBlock ty tx (toBBox <$> bb).

Definition ofPage (p : PageNote) : PageTuple :=
  (number p, text p, (λ l, ofBlock <$> blocks l) <$> layout p).
Definition toPage (t : PageTuple) : PageNote :=
  let '(n, tx, l) := t in mkPageNote n tx ((λ bs, mkLayout (toBlock <$> bs)) <$> l).

Definition ofDoc (d : DocumentNotes) : DocTuple :=
  (ofPage <$> pages (document d), total_pages (metadata (document d))).
Definition toDoc (t : DocTuple) : DocumentNotes :=
  mkDocumentNotes (mkDocument (toPage <$> t.1) (mkMetadata t.2)).

Definition refStringify (d : DocumentNotes) : string :=
  posToString (encode (ofDoc d)).

Definition refParse (s : string) : ParseResult DocumentNotes :=
  match stringToPos s with
  | Some p =>
      match decode p with
      | Some t => Parsed (toDoc t)
      | None => WrongShape
      end
  | None => SyntaxError
  end.

Definition refStringifyNotes (m : gmap Z string) : string :=
  posToString (encode (map_to_list m)).

Lemma stringToPos_posToString p : stringToPos (posToString p) = Some p.
Proof. induction p as [q IH|q IH|]; simpl; by rewrite ?IH. Qed.

Lemma posToString_truthy p : posToString p ≠ "".
Proof. by destruct p. Qed.

Lemma toQ_ofQ q : toQ (ofQ q) = q.
Proof. by destruct q. Qed.

Lemma toBBox_ofBBox b : toBBox (ofBBox b) = b.
Proof. destruct b; unfold ofBBox, toBBox; simpl. by rewrite !toQ_ofQ. Qed.

Lemma toBlock_ofBlock b : toBlock (ofBlock b) = b.
Proof.
  destruct b as [ty tx [bb|]]; unfold ofBlock, toBlock;
    cbn [block_type block_text bbox fmap option_fmap option_map]; [|done].
  by rewrite toBBox_ofBBox.
Qed.

Lemma toPage_ofPage p : toPage (ofPage p) = p.
Proof.
  destruct p as [n tx [[bs]|]]; unfold ofPage, toPage;
    cbn [number text layout blocks fmap option_fmap option_map]; [|done].
  do 2 f_equal. f_equal. rewrite <- list_fmap_compose.
  rewrite <- (list_fmap_id bs) at 2. apply list_fmap_ext.
  intros _ b _. apply toBlock_ofBlock.
Qed.

Lemma toDoc_ofDoc d : toDoc (ofDoc d) = d.
Proof.
  destruct d as [[ps [n]]]; unfold ofDoc, toDoc;
    cbn [document pages metadata total_pages fst snd]. do 2 f_equal.
  rewrite <- list_fmap_compose. rewrite <- (list_fmap_id ps) at 2.
  apply list_fmap_ext. intros _ p _. apply toPage_ofPage.
Qed.

Lemma refParse_refStringify d : refParse (refStringify d) = Parsed d.
Proof.
  unfold refParse, refStringify.
  by rewrite stringToPos_posToString, decode_encode, toDoc_ofDoc.
Qed.

Lemma refStringify_truthy d : refStringify d ≠ "".
Proof. apply posToString_truthy. Qed.

Definition codec : JSON :=
  {| stringify := refStringify;
     parse := refParse;
     stringifyNotes := refStringifyNotes;
     parse_stringify := refParse_refStringify;
     stringify_truthy := refStringify_truthy |}.

End ReferenceCodec.

(** * Properties *)

(** Boolean tests of the model, read back as propositions. *)
Ltac bool_to_prop :=
  repeat match goal with
  | H : (_ <? _) = true |- _ => apply Z.ltb_lt in H
  | H : (_ <? _) = false |- _ => apply Z.ltb_ge in H
  | H : (_ <=? _) = true |- _ => apply Z.leb_le in H
  | H : (_ <=? _) = false |- _ => apply Z.leb_gt in H
  | H : (_ =? _) = true |- _ => apply Z.eqb_eq in H
  | H : (_ =? _) = false |- _ => apply Z.eqb_neq in H
  | H : _ && _ = true |- _ => apply andb_true_iff in H; destruct H
  | H : _ && _ = false |- _ => apply andb_false_iff in H; destruct H
  | H : negb _ = true |- _ => apply negb_true_iff in H
  | H : negb _ = false |- _ => apply negb_false_iff in H
  end.

(** ** Navigation *)

Lemma numPagesOr1_known s n : numPages s = Some n → 1 ≤ n → numPagesOr1 s = n.
Proof.
  unfold numPagesOr1. intros -> Hn.
  destruct (Z.eqb_spec n 0); [lia | done].
Qed.

Lemma goToPage_pageNum page s :
  pageNum (goToPage page s) =
    if (1 <=? page) && (page <=? numPagesOr1 s) then page else pageNum s.
Proof. unfold goToPage. by case_match. Qed.

Lemma goToNextPage_pageNum s :
  pageNum (goToNextPage s) =
    if pageNum s <? numPagesOr1 s then pageNum s + 1 else pageNum s.
Proof. unfold goToNextPage. by case_match. Qed.

Lemma goToPrevPage_pageNum s :
  pageNum (goToPrevPage s) = if 1 <? pageNum s then pageNum s - 1 else pageNum s.
Proof. unfold goToPrevPage. by case_match. Qed.

Lemma submitPageChange_pageNum s :
  pageNum (submitPageChange s) =
    match parseInt (pageInputValue s) with
    | Some page =>
        if (1 <=? page) && (page <=? numPagesOr1 s) then page else pageNum s
    | None => pageNum s
    end.
Proof.
  unfold submitPageChange. destruct (parseInt _) as [page|]; [|done].
  cbn [pageNum setIsEditingPage]. apply goToPage_pageNum.
Qed.

Lemma navigate_numPages op s : numPages (navigate op s) = numPages s.
Proof.
  destruct op; simpl;
    unfold submitPageChange, goToNextPage, goToPrevPage, goToPage;
    repeat case_match; done.
Qed.

(** C3: the page index stays within [1, totalPages] under every navigation
    operation, where the total is [numPages], or 1 while [numPages] is
    unknown; next moves only below the total, previous only above 1,
    [goToPage] and the page input only to a page within the bounds. *)
Theorem navigation_keeps_page_in_range (op : NavOp) (s : State) :
  1 ≤ pageNum s ≤ numPagesOr1 s →
  1 ≤ pageNum (navigate op s) ≤ numPagesOr1 s
  ∧ numPages (navigate op s) = numPages s
  ∧ (∀ n, numPages s = Some n → 1 ≤ n → numPagesOr1 s = n)
  ∧ (numPages s = None → numPagesOr1 s = 1)
  ∧ pageNum (goToNextPage s) =
      (if pageNum s <? numPagesOr1 s then pageNum s + 1 else pageNum s)
  ∧ pageNum (goToPrevPage s) =
      (if 1 <? pageNum s then pageNum s - 1 else pageNum s)
  ∧ (∀ page, pageNum (goToPage page s) =
      if (1 <=? page) && (page <=? numPagesOr1 s) then page else pageNum s)
  ∧ pageNum (submitPageChange s) =
      match parseInt (pageInputValue s) with
      | Some page =>
          if (1 <=? page) && (page <=? numPagesOr1 s) then page else pageNum s
      | None => pageNum s
      end.
Proof.
  intros Hrange.
  split; [|split_and!].
  - destruct op as [| |page|]; cbn [navigate].
    + rewrite goToNextPage_pageNum. case_match; bool_to_prop; lia.
    + rewrite goToPrevPage_pageNum. case_match; bool_to_prop; lia.
    + rewrite goToPage_pageNum. case_match; bool_to_prop; lia.
    + rewrite submitPageChange_pageNum. repeat case_match; bool_to_prop; lia.
  - apply navigate_numPages.
  - apply numPagesOr1_known.
  - unfold numPagesOr1. by intros ->.
  - apply goToNextPage_pageNum.
  - apply goToPrevPage_pageNum.
  - intros page. apply goToPage_pageNum.
  - apply submitPageChange_pageNum.
Qed.

Lemma navigation_keeps_page_in_range_witness :
  1 ≤ pageNum (navigate NavSubmit
                 (setPageInputValue " 3" (setNumPages (Some 5) initialState))) ≤ 5.
Proof.
  refine (proj1 (navigation_keeps_page_in_range NavSubmit
                   (setPageInputValue " 3" (setNumPages (Some 5) initialState)) _)).
  vm_compute. split; discriminate.
Defined.

(** ** Zoom *)

Lemma zoomIn_in_range s : scaleInRange s → scaleInRange (zoomIn s).
Proof.
  unfold scaleInRange, zoomIn. cbn [scale setScale]. intros [Hlo Hhi]. split.
  - apply Q.min_glb; lra.
  - apply Q.le_min_r.
Qed.

Lemma zoomOut_in_range s : scaleInRange s → scaleInRange (zoomOut s).
Proof.
  unfold scaleInRange, zoomOut. cbn [scale setScale]. intros [Hlo Hhi]. split.
  - apply Q.le_max_r.
  - apply Q.max_lub; lra.
Qed.

Section ScaleFrame.
Context {J : JSON}.

Lemma notesEffects_scale s : scale (notesEffects s) = scale s.
Proof.
  unfold notesEffects, saveNotesEffect, pageNoteEffect, initNotesEffect.
  repeat case_match; reflexivity.
Qed.

Lemma settle_scale s : scale (settle s) = scale s.
Proof. unfold settle. by rewrite !notesEffects_scale. Qed.

Lemma handle_scale ev s :
  (ev = ClickFit → scaleInRange (fitToPage s)) →
  scaleInRange s → scaleInRange (handle ev s).
Proof.
  intros Hfit Hs.
  destruct ev; cbn [handle]; try done;
    try (case_match; try done);
    try (by apply Hfit);
    try apply zoomIn_in_range; try apply zoomOut_in_range; try done;
    unfold goToNextPage, goToPrevPage, startPageEdit, handlePageInputChange,
      handlePageInputKeyDown, submitPageChange, cancelPageEdit, goToPage,
      handleMouseDown, handleMouseMove, handleMouseUp, handleMouseLeave,
      handleFileChange, handleNoteChange, loadPDF_catch, loadPDF_loaded,
      loadPDF_begin;
    repeat case_match; done.
Qed.

Lemma renderPage_begin_scale s : scale (renderPage_begin s) = scale s.
Proof. unfold renderPage_begin. repeat case_match; reflexivity. Qed.

Lemma resume_scale i sys : scale (view (resume i sys)) = scale (view sys).
Proof.
  unfold resume, startRender, failRun, renderPage_catch, renderPage_done.
  repeat case_match; reflexivity.
Qed.

Lemma sysStep_scale e sys :
  (e = Ev ClickFit → scaleInRange (fitToPage (view sys))) →
  scaleInRange (view sys) → scaleInRange (view (sysStep e sys)).
Proof.
  intros Hfit Hs. unfold scaleInRange. destruct e as [ev|i|t|t err]; cbn [sysStep].
  - assert (scaleInRange (step ev (view sys))) as Hstep.
    { unfold scaleInRange, step. rewrite settle_scale.
      apply handle_scale; [|done]. intros ->. by apply Hfit. }
    case_match; [|done].
    unfold startRun, cleanup. cbn [view]. case_match; [|done].
    cbn [view]. by rewrite renderPage_begin_scale.
  - by rewrite resume_scale.
  - unfold settleTask. by repeat case_match.
  - unfold settleTask. by repeat case_match.
Qed.

Lemma sysRun_scale es sys :
  Ev ClickFit ∉ es → scaleInRange (view sys) → scaleInRange (view (sysRun es sys)).
Proof.
  revert sys. induction es as [|e es IH]; intros sys Hfit Hs; [done|].
  cbn [sysRun foldl]. apply not_elem_of_cons in Hfit as [Hne Hfit].
  apply IH; [done|]. apply sysStep_scale; [congruence | done].
Qed.

End ScaleFrame.

(** C2, as the code has it: [zoomIn] sets the scale to [min(scale + 0.25, 5)]
    and [zoomOut] to [max(scale - 0.25, 0.5)]; from the initial state every
    sequence of operations without a fit keeps the scale within [0.5, 5],
    and a single operation keeps it there unless it is a fit whose ratio
    lies outside.  ([fitToPage] stores the fitting ratio as it is.) *)
Theorem zoom_keeps_scale_in_range {J : JSON}
    (container : Container) (canvas : Canvas) (es : list sysEvent) :
  Ev ClickFit ∉ es →
  scaleInRange (view (sysRun es (initialSystem container canvas)))
  ∧ (∀ e sys, scaleInRange (view sys) →
        (e = Ev ClickFit → scaleInRange (fitToPage (view sys))) →
        scaleInRange (view (sysStep e sys)))
  ∧ (∀ s, scale (zoomIn s) = Qmin (scale s + 0.25) 5
          ∧ scale (zoomOut s) = Qmax (scale s - 0.25) 0.5
          ∧ (scale (zoomIn s) <= 5)%Q
          ∧ (0.5 <= scale (zoomOut s))%Q).
Proof.
  intros Hfit. split; [|split].
  - apply sysRun_scale; [done|]. unfold scaleInRange, initialSystem. cbn [view].
    rewrite settle_scale. cbn. lra.
  - intros e sys Hs He. by apply sysStep_scale.
  - intros s. unfold zoomIn, zoomOut. cbn [scale setScale]. split_and!; try done.
    + apply Q.le_min_r.
    + apply Q.le_max_r.
Qed.

Lemma zoom_keeps_scale_in_range_witness :
  scaleInRange
    (view (sysRun (J := ReferenceCodec.codec)
             [Ev (Loaded (mkDoc 1 [(612%Q, 792%Q)])); Resume 0; RenderFulfilled 0;
              Resume 0; Ev ClickZoomOut; Ev ClickZoomOut; Ev ClickZoomOut]
             (initialSystem (J := ReferenceCodec.codec)
                (mkContainer 612 842) (mkCanvas true)))).
Proof.
  refine (proj1 (zoom_keeps_scale_in_range (J := ReferenceCodec.codec) _ _ _ _)).
  intros Hin. repeat (apply elem_of_cons in Hin as [Hin|Hin]; [discriminate|]).
  by apply elem_of_nil in Hin.
Defined.

(** C2 as stated fails: on a page of 2000 by 2000 points in a container of
    612 by 842 pixels, [fitToPage] sets the scale to 612/2000, below 0.5. *)
Lemma zoom_range_counterexample :
  ¬ (∀ (J : JSON) (es : list sysEvent),
       scaleInRange
         (view (sysRun es (initialSystem (mkContainer 612 842) (mkCanvas true))))).
Proof.
  intros Hall.
  specialize (Hall ReferenceCodec.codec
                [Ev (Loaded (mkDoc 1 [(2000%Q, 2000%Q)])); Resume 0;
                 RenderFulfilled 0; Resume 0; Ev ClickFit]).
  destruct Hall as [Hlo _]. vm_compute in Hlo. by apply Hlo.
Qed.

(** ** Fit to page *)

(** C4, as the code has it: with a document, a container and the page,
    [fitToPage] sets the scale to
    [min(containerWidth / pageWidth, containerHeight / pageHeight)] for the
    page's natural size and resets the pan offset.  In exact arithmetic
    the page dimension with the smaller ratio then equals the container's
    and the other one does not exceed it.  The code computes the ratio and
    the scaled size in doubles, each rounded, and there the scaled
    dimension need not equal the container's. *)
Theorem fitToPage_matches_container (s : State) (doc : PDFDocumentProxy)
    (container : Container) (pageWidth pageHeight : Q) :
  pdfDoc s = Some doc →
  containerRef s = Some container →
  getPage doc (pageNum s) = Some (pageWidth, pageHeight) →
  (0 < pageWidth)%Q → (0 < pageHeight)%Q →
  let containerWidth := inject_Z (clientWidth container) in
  let containerHeight := inject_Z (clientHeight container) in
  let fitted := getViewport (pageWidth, pageHeight) (scale (fitToPage s)) in
  (scale (fitToPage s) ==
     Qmin (containerWidth / pageWidth) (containerHeight / pageHeight))%Q
  ∧ panPosition (fitToPage s) = mkPoint 0 0
  ∧ ((containerWidth / pageWidth <= containerHeight / pageHeight)%Q →
       (fst fitted == containerWidth)%Q)
  ∧ ((containerHeight / pageHeight <= containerWidth / pageWidth)%Q →
       (snd fitted == containerHeight)%Q)
  ∧ (fst fitted <= containerWidth)%Q ∧ (snd fitted <= containerHeight)%Q.
Proof.
  intros Hdoc Hcont Hpage Hw Hh cw ch fitted.
  assert (scale (fitToPage s) == Qmin (cw / pageWidth) (ch / pageHeight))%Q as Hscale.
  { unfold fitToPage. rewrite Hdoc, Hcont, Hpage.
    cbn [scale setScale setPanPosition getViewport fst snd].
    fold cw ch. by rewrite !Qmult_1_r. }
  assert (pageWidth * (cw / pageWidth) == cw)%Q as Hcw by (field; lra).
  assert (pageHeight * (ch / pageHeight) == ch)%Q as Hch by (field; lra).
  split; [done|]. split.
  { unfold fitToPage. by rewrite Hdoc, Hcont, Hpage. }
  subst fitted. cbn [getViewport fst snd]. rewrite Hscale. split_and!.
  - intros Hle. by rewrite Q.min_l.
  - intros Hle. by rewrite Q.min_r.
  - rewrite <- Hcw at 2. apply Qmult_le_l; [done | apply Q.le_min_l].
  - rewrite <- Hch at 2. apply Qmult_le_l; [done | apply Q.le_min_r].
Qed.

Lemma fitToPage_matches_container_witness :
  (scale (fitToPage
            (setContainerRef (Some (mkContainer 612 842))
               (setPdfDoc (Some (mkDoc 1 [(2000%Q, 1000%Q)])) initialState)))
   == Qmin (inject_Z 612 / 2000) (inject_Z 842 / 1000))%Q.
Proof.
  refine (proj1 (fitToPage_matches_container
                   (setContainerRef (Some (mkContainer 612 842))
                      (setPdfDoc (Some (mkDoc 1 [(2000%Q, 1000%Q)])) initialState))
                   (mkDoc 1 [(2000%Q, 1000%Q)]) (mkContainer 612 842) 2000 1000
                   eq_refl eq_refl eq_refl _ _)); reflexivity.
Defined.

Section FitInDoubles.
Import PrimFloat.

(** C4 fails in doubles: an A4 page (595.276 by 841.89 points) in a
    container of 612 by 842 pixels.  The height ratio is the smaller one
    and becomes the scale, and the page height at that scale is
    [841.89 * (842 / 841.89)], which is rounded to the double above 842:
    it is not the container's height, and it exceeds it. *)
Lemma fitToPage_rounding_counterexample :
  let page := (595.276, 841.89)%float in
  let sc := Doubles.newScale 612 842 page in
  let fitted := Doubles.getViewport page sc in
  ltb (842 / 841.89) (612 / 595.276) = true
  ∧ eqb sc (842 / 841.89) = true
  ∧ eqb (snd fitted) 842 = false
  ∧ ltb 842 (snd fitted) = true
  ∧ leb (fst fitted) 612 = true.
Proof. vm_compute. repeat split. Qed.

End FitInDoubles.

(** ** Upload *)

(** The state right after the handler: selecting a file of type
    [application/pdf] empties the notes map
    and the current note, removes [pdfNotes] from session storage, resets
    the page index to 1 and the pan offset to the origin, clears the error
    and drops the document handle; the new file is recorded as the one to
    load, and the load guard no longer sees a document. *)
Theorem handleFileChange_pdf_resets (s : State) (files : option (list File))
    (file : File) (others : list File) :
  files = Some (file :: others) →
  file_type file = "application/pdf" →
  let s' := handleFileChange files s in
  notes s' = ∅
  ∧ currentNote s' = ""
  ∧ sessionStorage s' !! "pdfNotes" = None
  ∧ pageNum s' = 1
  ∧ panPosition s' = mkPoint 0 0
  ∧ error s' = None
  ∧ pdfDoc s' = None
  ∧ pdfFile s' = Some file
  ∧ fileName s' = file_name file
  ∧ pdfLoadSource s' = Some SrcFile
  ∧ loadPDF_skips s' = isPageRendering s.
Proof.
  intros -> Htype s'. subst s'. unfold handleFileChange.
  cbn [mbind option_bind head]. rewrite Htype. cbn [String.eqb Ascii.eqb Bool.eqb].
  split_and!; try reflexivity.
  cbn [sessionStorage setPdfDoc setSessionStorage]. apply lookup_delete_eq.
Qed.

Lemma handleFileChange_pdf_resets_witness :
  notes (handleFileChange (Some [mkFile "paper.pdf" "application/pdf"])
           (setNotes {[ 2 := "old" ]}
              (setSessionStorage {[ "pdfNotes" := "saved" ]} initialState))) = ∅.
Proof.
  refine (proj1 (handleFileChange_pdf_resets
                   (setNotes {[ 2 := "old" ]}
                      (setSessionStorage {[ "pdfNotes" := "saved" ]} initialState))
                   (Some [mkFile "paper.pdf" "application/pdf"])
                   (mkFile "paper.pdf" "application/pdf") [] eq_refl eq_refl)).
Defined.

(** C10: selecting a file of another type sets the error to
    ['Please select a valid PDF file'] and changes nothing else. *)
Theorem handleFileChange_rejects_non_pdf (s : State) (files : option (list File))
    (file : File) (others : list File) :
  files = Some (file :: others) →
  file_type file ≠ "application/pdf" →
  let s' := handleFileChange files s in
  s' = setError (Some "Please select a valid PDF file") s
  ∧ error s' = Some "Please select a valid PDF file"
  ∧ pdfFile s' = pdfFile s
  ∧ fileName s' = fileName s
  ∧ pageNum s' = pageNum s
  ∧ panPosition s' = panPosition s
  ∧ notes s' = notes s
  ∧ currentNote s' = currentNote s
  ∧ pdfDoc s' = pdfDoc s
  ∧ sessionStorage s' = sessionStorage s
  ∧ scale s' = scale s
  ∧ numPages s' = numPages s
  ∧ pdfLoadSource s' = pdfLoadSource s
  ∧ isEditingPage s' = isEditingPage s
  ∧ isLoading s' = isLoading s
  ∧ renderTaskRef s' = renderTaskRef s.
Proof.
  intros -> Htype s'. subst s'. unfold handleFileChange.
  cbn [mbind option_bind head].
  destruct (String.eqb_spec (file_type file) "application/pdf") as [Heq|_]; [done|].
  split_and!; reflexivity.
Qed.

Lemma handleFileChange_rejects_non_pdf_witness :
  error (handleFileChange (Some [mkFile "photo.png" "image/png"]) initialState)
  = Some "Please select a valid PDF file".
Proof.
  refine (proj1 (proj2 (handleFileChange_rejects_non_pdf initialState
                   (Some [mkFile "photo.png" "image/png"])
                   (mkFile "photo.png" "image/png") [] eq_refl _))).
  discriminate.
Defined.

(** ** The render effect *)

(** The first lines of [renderPage]: when the effect runs with a stored
    render task that recorded another page, it resets the pan offset to the origin before it asks
    for the page; when the recorded page is the current one, as after a
    zoom, it leaves the pan offset as it is. *)
Theorem renderPage_resets_pan_on_page_change (s : State) (doc : PDFDocumentProxy)
    (task : RenderTask) :
  pdfDoc s = Some doc →
  renderTaskRef s = Some task →
  (pageNum s ≠ pageNumber task → panPosition (renderPage_begin s) = mkPoint 0 0)
  ∧ (pageNum s = pageNumber task →
       panPosition (renderPage_begin s) = panPosition s
       ∧ panPosition (renderPage_begin (zoomIn s)) = panPosition s
       ∧ panPosition (renderPage_begin (zoomOut s)) = panPosition s).
Proof.
  intros Hdoc Htask.
  assert (∀ s0, pdfDoc s0 = Some doc → renderTaskRef s0 = Some task →
            panPosition (renderPage_begin s0) =
              if pageNum s0 =? pageNumber task then panPosition s0 else mkPoint 0 0)
    as Hbegin.
  { intros s0 Hd Ht. unfold renderPage_begin. rewrite Hd.
    repeat case_match; simplify_eq/=; bool_to_prop; try done;
      repeat match goal with
      | H : renderTaskRef _ = _ |- _ => cbn in H; rewrite Ht in H; simplify_eq
      end; try done; try lia; by rewrite ?Z.eqb_refl in *. }
  split.
  - intros Hne. rewrite Hbegin by done. by destruct (Z.eqb_spec (pageNum s) (pageNumber task)).
  - intros Heq. rewrite !Hbegin by done.
    cbn [pageNum zoomIn zoomOut setScale panPosition]. by rewrite Heq, Z.eqb_refl.
Qed.

Lemma renderPage_resets_pan_on_page_change_witness :
  panPosition
    (renderPage_begin
       (setPanPosition (mkPoint 30 40)
          (setPageNum 2
             (setRenderTaskRef (Some (mkRenderTask 0 1))
                (setPdfDoc (Some (mkDoc 1 [(612%Q, 792%Q); (612%Q, 792%Q)]))
                   initialState)))))
  = mkPoint 0 0.
Proof.
  refine (proj1 (renderPage_resets_pan_on_page_change
                   (setPanPosition (mkPoint 30 40)
                      (setPageNum 2
                         (setRenderTaskRef (Some (mkRenderTask 0 1))
                            (setPdfDoc (Some (mkDoc 1 [(612%Q, 792%Q); (612%Q, 792%Q)]))
                               initialState))))
                   (mkDoc 1 [(612%Q, 792%Q); (612%Q, 792%Q)]) (mkRenderTask 0 1)
                   eq_refl eq_refl) _).
  discriminate.
Defined.

(** ** Failures *)

Lemma truthy_spec (txt : string) : truthy txt = true ↔ txt ≠ "".
Proof.
  unfold truthy. destruct (String.eqb_spec txt ""); split; try done.
Qed.

(** C9, as the code has it: when loading or rendering fails in an effect
    that was not cancelled, the error state becomes the message of the
    thrown [Error], or the fixed fallback for any other thrown value, and
    the loading flag is cleared; the banner shows the text when it is not
    the empty string, and for an empty message there is no banner.  A
    cancelled effect changes nothing. *)
Theorem failure_sets_error_state (err : Thrown) (s : State) :
  let loadText := errorMessage "Failed to load PDF" err in
  let renderText := errorMessage "Failed to render PDF" err in
  (error (loadPDF_catch false err s) = Some loadText
   ∧ isLoading (loadPDF_catch false err s) = false
   ∧ (loadText ≠ "" →
        errorBanner (loadPDF_catch false err s) = Some ("Error: " ++ loadText))
   ∧ (loadText = "" → errorBanner (loadPDF_catch false err s) = None))
  ∧ (error (renderPage_catch false err s) = Some renderText
     ∧ isLoading (renderPage_catch false err s) = false
     ∧ (renderText ≠ "" →
          errorBanner (renderPage_catch false err s) = Some ("Error: " ++ renderText))
     ∧ (renderText = "" → errorBanner (renderPage_catch false err s) = None))
  ∧ (∀ name message fallback, errorMessage fallback (ErrorObject name message) = message)
  ∧ (∀ fallback, errorMessage fallback NotAnError = fallback)
  ∧ loadPDF_catch true err s = s
  ∧ renderPage_catch true err s = s.
Proof.
  intros loadText renderText.
  assert (∀ txt s0, error s0 = Some txt →
            (txt ≠ "" → errorBanner s0 = Some ("Error: " ++ txt))
            ∧ (txt = "" → errorBanner s0 = None)) as Hbanner.
  { intros txt s0 Herr. unfold errorBanner. rewrite Herr. split.
    - intros Hne. apply truthy_spec in Hne. by rewrite Hne.
    - by intros ->. }
  split_and!; try reflexivity.
  - by apply (Hbanner loadText (loadPDF_catch false err s)).
  - by apply (Hbanner loadText (loadPDF_catch false err s)).
  - by apply (Hbanner renderText (renderPage_catch false err s)).
  - by apply (Hbanner renderText (renderPage_catch false err s)).
Qed.

Lemma failure_sets_error_state_witness :
  errorBanner (renderPage_catch false (ErrorObject "Error" "Invalid PDF structure.")
                 initialState)
  = Some "Error: Invalid PDF structure.".
Proof.
  refine (proj1 (proj2 (proj2 (proj1 (proj2
            (failure_sets_error_state (ErrorObject "Error" "Invalid PDF structure.")
               initialState))))) _).
  discriminate.
Defined.

(** C9 as stated fails: an [Error] whose message is the empty string sets
    the error state to the empty string, and the banner is not rendered. *)
Lemma error_banner_counterexample :
  ¬ (∀ (err : Thrown) (s : State),
       errorBanner (renderPage_catch false err s)
       = Some ("Error: " ++ errorMessage "Failed to render PDF" err)).
Proof.
  intros Hall. specialize (Hall (ErrorObject "Error" "") initialState).
  discriminate Hall.
Qed.

(** ** Notes *)

Section NotesProperties.
Context {J : JSON}.

Lemma stringify_is_truthy d : truthy (stringify d) = true.
Proof. apply truthy_spec, stringify_truthy. Qed.

Lemma storedNote_Some s txt :
  storedNote s = Some txt → notes s !! pageNum s = Some txt ∧ truthy txt = true.
Proof. unfold storedNote. repeat case_match; naive_solver. Qed.

Lemma storedNote_stringify s d :
  notes s !! pageNum s = Some (stringify d) → storedNote s = Some (stringify d).
Proof. unfold storedNote. intros ->. by rewrite stringify_is_truthy. Qed.

Lemma notesWritten_readable s : notesWritten s → noteReadable s.
Proof.
  intros Hw txt [Hlook _]%storedNote_Some. destruct (Hw _ _ Hlook) as [d ->].
  by rewrite parse_stringify.
Qed.

Lemma upsertPage_find p newText ps :
  ∃ pn, List.find (λ pn, number pn =? p) (upsertPage p newText ps) = Some pn
        ∧ text pn = newText.
Proof.
  unfold upsertPage. induction ps as [|a ps IH]; cbn [findIndex].
  - exists (mkPageNote p newText None). cbn. by rewrite Z.eqb_refl.
  - destruct (number a =? p) eqn:Ha.
    + exists (setText newText a). cbn. by rewrite Ha.
    + destruct (findIndex _ ps) as [i|]; cbn in *; by rewrite Ha.
Qed.

Lemma updateNoteJson_stores newText s :
  noteReadable s →
  ∃ d pn,
    updateNoteJson newText s = stringify d
    ∧ List.find (λ pn, number pn =? pageNum s) (pages (document d)) = Some pn
    ∧ text pn = newText.
Proof.
  intros Hread. unfold updateNoteJson.
  assert (∃ noteObj,
    match storedNote s with
    | Some txt =>
        match parse txt with
        | Parsed d => Some d
        | SyntaxError => Some (getEmptyNotes (numPagesOr1 s) None)
        | WrongShape => None
        end
    | None => Some (getEmptyNotes (numPagesOr1 s) None)
    end = Some noteObj) as [noteObj ->].
  { destruct (storedNote s) as [txt|] eqn:Hst; [|by eexists].
    specialize (Hread txt Hst). destruct (parse txt); by eauto. }
  destruct (upsertPage_find (pageNum s) newText (pages (document noteObj)))
    as (pn & Hfind & Htext).
  by eexists _, pn.
Qed.

Lemma handleNoteChange_accepts newText s :
  Z.of_nat (String.length newText) ≤ MAX_NOTE_LENGTH →
  handleNoteChange newText s =
    setNotes (<[pageNum s := updateNoteJson newText s]> (notes s))
      (setCurrentNote newText s).
Proof. unfold handleNoteChange. intros Hle%Z.leb_le. by rewrite Hle. Qed.

Lemma handleNoteChange_stored newText s :
  Z.of_nat (String.length newText) ≤ MAX_NOTE_LENGTH →
  noteReadable s →
  ∃ d pn,
    notes (handleNoteChange newText s) !! pageNum s = Some (stringify d)
    ∧ List.find (λ pn, number pn =? pageNum s) (pages (document d)) = Some pn
    ∧ text pn = newText.
Proof.
  intros Hle Hread. rewrite handleNoteChange_accepts by done.
  destruct (updateNoteJson_stores newText s Hread) as (d & pn & Hjson & Hfind & Htext).
  exists d, pn. cbn [notes setNotes setCurrentNote].
  by rewrite lookup_insert_eq, Hjson.
Qed.

(** C8: [handleNoteChange] takes a text of at most [MAX_NOTE_LENGTH] = 10000
    characters as the current note and stores its envelope for the current
    page; a longer text changes nothing; so the current note stays within
    the limit. *)
Theorem handleNoteChange_enforces_limit (newText : string) (s : State) :
  let s' := handleNoteChange newText s in
  MAX_NOTE_LENGTH = 10000
  ∧ (Z.of_nat (String.length newText) ≤ MAX_NOTE_LENGTH →
       currentNote s' = newText
       ∧ notes s' = <[pageNum s := updateNoteJson newText s]> (notes s)
       ∧ (noteReadable s →
            ∃ d pn, notes s' !! pageNum s = Some (stringify d)
                    ∧ List.find (λ pn, number pn =? pageNum s) (pages (document d))
                      = Some pn
                    ∧ text pn = newText))
  ∧ (MAX_NOTE_LENGTH < Z.of_nat (String.length newText) → s' = s)
  ∧ (Z.of_nat (String.length (currentNote s)) ≤ MAX_NOTE_LENGTH →
       Z.of_nat (String.length (currentNote s')) ≤ MAX_NOTE_LENGTH).
Proof.
  intros s'. subst s'.
  destruct (Z.leb_spec (Z.of_nat (String.length newText)) MAX_NOTE_LENGTH) as [Hle|Hgt].
  - split; [done|]. split; [|split; [lia|]].
    + intros _. split_and!.
      * by rewrite handleNoteChange_accepts.
      * by rewrite handleNoteChange_accepts.
      * by apply handleNoteChange_stored.
    + intros _. by rewrite handleNoteChange_accepts.
  - assert (handleNoteChange newText s = s) as ->.
    { unfold handleNoteChange. apply Z.leb_gt in Hgt. by rewrite Hgt. }
    split; [done|]. split; [lia|]. by split.
Qed.

(** *** The note effects *)

Lemma notesEffects_pageNum s : pageNum (notesEffects s) = pageNum s.
Proof.
  unfold notesEffects, saveNotesEffect, pageNoteEffect, initNotesEffect.
  repeat case_match; reflexivity.
Qed.

Lemma notesEffects_numPages s : numPages (notesEffects s) = numPages s.
Proof.
  unfold notesEffects, saveNotesEffect, pageNoteEffect, initNotesEffect.
  repeat case_match; reflexivity.
Qed.

Lemma notes_size_lookup (s : State) k txt :
  notes s !! k = Some txt → (size (notes s) =? 0)%nat = false.
Proof.
  intros Hk. apply Nat.eqb_neq. apply map_size_non_empty_iff.
  intros Hempty. by rewrite Hempty, lookup_empty in Hk.
Qed.

Lemma initNotesEffect_idle s :
  notes s ≠ ∅ ∨ hasPages s = false → initNotesEffect s s = s.
Proof.
  intros Hidle. unfold initNotesEffect.
  destruct (hasPages s) eqn:Hp; [|done]. destruct Hidle as [Hne|?]; [|done].
  apply map_size_non_empty_iff, Nat.eqb_neq in Hne. by rewrite Hne.
Qed.

(** With a stored note for the current page, a commit shows its text and
    leaves the notes as they are. *)
Lemma notesEffects_stored s txt :
  storedNote s = Some txt →
  notes (notesEffects s) = notes s
  ∧ currentNote (notesEffects s) = shownText s txt.
Proof.
  intros Hst. pose proof (storedNote_Some _ _ Hst) as [Hlook _].
  unfold notesEffects. rewrite initNotesEffect_idle.
  2:{ left. intros Hempty. by rewrite Hempty, lookup_empty in Hlook. }
  unfold saveNotesEffect, pageNoteEffect, shownText. rewrite Hst.
  repeat case_match; simplify_eq; done.
Qed.

(** A commit writes no note but that of the current page, once some note
    exists or while no page count is known. *)
Lemma notesEffects_other s k :
  notes s ≠ ∅ ∨ hasPages s = false →
  k ≠ pageNum s →
  notes (notesEffects s) !! k = notes s !! k.
Proof.
  intros Hidle Hk. unfold notesEffects. rewrite initNotesEffect_idle by done.
  unfold saveNotesEffect, pageNoteEffect.
  repeat case_match; cbn [notes setNotes setCurrentNote setSessionStorage];
    try done; by rewrite lookup_insert_ne.
Qed.

Lemma notesEffects_nonempty s : notes s ≠ ∅ → notes (notesEffects s) ≠ ∅.
Proof.
  intros Hne. unfold notesEffects. rewrite initNotesEffect_idle by auto.
  unfold saveNotesEffect, pageNoteEffect.
  repeat case_match; cbn [notes setNotes setCurrentNote setSessionStorage];
    try done; apply insert_non_empty.
Qed.

Lemma hasPages_notesEffects s : hasPages (notesEffects s) = hasPages s.
Proof. unfold hasPages. by rewrite notesEffects_numPages. Qed.

Lemma notesEffects_idle s :
  notes s ≠ ∅ ∨ hasPages s = false →
  notes (notesEffects s) ≠ ∅ ∨ hasPages (notesEffects s) = false.
Proof.
  intros [Hne|Hp]; [left; by apply notesEffects_nonempty|right].
  by rewrite hasPages_notesEffects.
Qed.

Lemma settle_pageNum s : pageNum (settle s) = pageNum s.
Proof. unfold settle. by rewrite !notesEffects_pageNum. Qed.

Lemma settle_numPages s : numPages (settle s) = numPages s.
Proof. unfold settle. by rewrite !notesEffects_numPages. Qed.

Lemma settle_other s k :
  notes s ≠ ∅ ∨ hasPages s = false →
  k ≠ pageNum s →
  notes (settle s) !! k = notes s !! k.
Proof.
  intros Hidle Hk. unfold settle.
  rewrite notesEffects_other; [|by apply notesEffects_idle|by rewrite notesEffects_pageNum].
  by apply notesEffects_other.
Qed.

(** When the current page has a note written by the component, settling
    shows the text of its entry for that page and keeps the notes. *)
Lemma settle_shows s d pn :
  notes s !! pageNum s = Some (stringify d) →
  List.find (λ p, number p =? pageNum s) (pages (document d)) = Some pn →
  notes (settle s) = notes s ∧ currentNote (settle s) = text pn.
Proof.
  intros Hlook Hfind.
  assert (∀ s0, notes s0 = notes s → pageNum s0 = pageNum s →
            notes (notesEffects s0) = notes s
            ∧ currentNote (notesEffects s0) = text pn) as Hcommit.
  { intros s0 Hn Hp.
    destruct (notesEffects_stored s0 (stringify d)) as [Hnotes Hcur].
    { apply storedNote_stringify. by rewrite Hn, Hp. }
    split; [congruence|]. rewrite Hcur. unfold shownText.
    by rewrite parse_stringify, Hp, Hfind. }
  unfold settle. destruct (Hcommit s eq_refl eq_refl) as [Hn1 _].
  apply Hcommit; [done | apply notesEffects_pageNum].
Qed.

Lemma navigate_notes op s : notes (navigate op s) = notes s.
Proof.
  destruct op; cbn [navigate];
    unfold submitPageChange, goToNextPage, goToPrevPage, goToPage;
    repeat case_match; done.
Qed.

(** A settled state with a page count has a note. *)
Lemma settled_idle s : notesEffects s = s → notes s ≠ ∅ ∨ hasPages s = false.
Proof.
  intros Hfix. destruct (hasPages s) eqn:Hp; [left|by right].
  intros Hempty. assert (notes (notesEffects s) ≠ ∅) as Hne; [|by rewrite Hfix in Hne].
  unfold notesEffects, saveNotesEffect, pageNoteEffect, initNotesEffect.
  rewrite Hp, Hempty, map_size_empty. unfold storedNote. rewrite Hempty, lookup_empty.
  cbn [andb Nat.eqb].
  case_match; cbn [notes setNotes setCurrentNote setSessionStorage].
  - apply insert_non_empty.
  - apply map_non_empty_singleton.
Qed.

(** *** Settling *)

Lemma hasPages_numPagesOr1 s : hasPages s = true → 1 ≤ numPagesOr1 s.
Proof.
  unfold hasPages, numPagesOr1, truthyZ. destruct (numPages s) as [n|]; [|done].
  intros H. bool_to_prop. destruct (Z.eqb_spec n 0); lia.
Qed.

Lemma head_getEmptyNotes s :
  hasPages s = true →
  is_Some (head (pages (document (getEmptyNotes (numPagesOr1 s) (Some (pageNum s)))))).
Proof.
  intros Hp%hasPages_numPagesOr1. unfold getEmptyNotes.
  destruct (truthyZ (pageNum s)); cbn [document pages]; [by eexists|].
  rewrite seqZ_cons by lia. by eexists.
Qed.

(** A commit that has nothing to initialise or create: it shows a text
    and saves the notes. *)
Lemma notesEffects_quiet s :
  is_Some (storedNote s) ∨ hasPages s = false →
  notesEffects s =
    setSessionStorage (<["pdfNotes" := stringifyNotes (notes s)]> (sessionStorage s))
      (setCurrentNote
         (match storedNote s with Some txt => shownText s txt | None => "" end) s).
Proof.
  intros Hq. unfold notesEffects. rewrite initNotesEffect_idle.
  2:{ destruct Hq as [[txt Hst]|?]; [left|by right].
      apply storedNote_Some in Hst as [Hlook _].
      intros Hempty. by rewrite Hempty, lookup_empty in Hlook. }
  unfold saveNotesEffect, pageNoteEffect, shownText.
  destruct (storedNote s) as [txt|].
  - repeat case_match; simplify_eq; done.
  - destruct Hq as [[? ?]|Hp]; [done|]. by rewrite Hp.
Qed.

Lemma notesEffects_becomes_quiet s :
  is_Some (storedNote (notesEffects s)) ∨ hasPages (notesEffects s) = false.
Proof.
  rewrite hasPages_notesEffects.
  destruct (storedNote s) as [txt|] eqn:Hst.
  { left. destruct (notesEffects_stored s txt Hst) as [Hn _].
    unfold storedNote in *. rewrite Hn, notesEffects_pageNum. by rewrite Hst. }
  destruct (hasPages s) eqn:Hp; [left|by right].
  destruct (head_getEmptyNotes s Hp) as [pn Hhead].
  assert (∃ d, updateNoteJson "" s = stringify d) as [d Hd].
  { unfold updateNoteJson. rewrite Hst. by eexists. }
  assert (notes (notesEffects s) !! pageNum s = Some (stringify d)) as Hlook.
  { unfold notesEffects, saveNotesEffect, pageNoteEffect. rewrite Hst, Hp, Hhead, Hd.
    cbn [notes setNotes setCurrentNote setSessionStorage]. apply lookup_insert_eq. }
  unfold storedNote. by rewrite notesEffects_pageNum, Hlook, stringify_is_truthy.
Qed.

Lemma notesEffects_idempotent s :
  is_Some (storedNote s) ∨ hasPages s = false →
  notesEffects (notesEffects s) = notesEffects s.
Proof.
  intros Hq. rewrite (notesEffects_quiet s Hq).
  set (c := match storedNote s with Some txt => shownText s txt | None => "" end).
  set (s1 := setSessionStorage _ (setCurrentNote c s)).
  assert (storedNote s1 = storedNote s) as Hst by done.
  assert (hasPages s1 = hasPages s) as Hp by done.
  rewrite (notesEffects_quiet s1) by (by rewrite Hst, Hp).
  rewrite Hst. fold c. unfold s1. destruct s. cbn.
  by rewrite insert_insert_eq.
Qed.

(** After two commits a further commit changes nothing. *)
Lemma notesEffects_settled s : notesEffects (settle s) = settle s.
Proof. apply notesEffects_idempotent, notesEffects_becomes_quiet. Qed.

(** *** Every stored note is one the component wrote *)

Lemma updateNoteJson_written newText s :
  noteReadable s → ∃ d, updateNoteJson newText s = stringify d.
Proof.
  intros Hread. destruct (updateNoteJson_stores newText s Hread) as (d & _ & Hd & _).
  by exists d.
Qed.

Lemma notesWritten_insert k d (m : gmap Z string) :
  (∀ j txt, m !! j = Some txt → ∃ d, txt = stringify d) →
  ∀ j txt, <[k := stringify d]> m !! j = Some txt → ∃ d, txt = stringify d.
Proof.
  intros Hm j txt. rewrite lookup_insert. case_decide; [|by apply Hm].
  intros [= <-]. by eexists.
Qed.

Lemma notesEffects_notesWritten s : notesWritten s → notesWritten (notesEffects s).
Proof.
  intros Hw. pose proof (notesWritten_readable s Hw) as Hread.
  destruct (updateNoteJson_written "" s Hread) as [d Hd].
  unfold notesWritten, notesEffects, saveNotesEffect, pageNoteEffect, initNotesEffect.
  rewrite Hd.
  repeat case_match; cbn [notes setNotes setCurrentNote setSessionStorage];
    try done.
  all: repeat first [apply notesWritten_insert | rewrite <- insert_empty].
  all: try done; intros k txt; by rewrite lookup_empty.
Qed.

Lemma handle_notesWritten ev s : notesWritten s → notesWritten (handle ev s).
Proof.
  intros Hw. pose proof (notesWritten_readable s Hw) as Hread.
  destruct ev; cbn [handle]; try done;
    try (case_match; try done).
  all: unfold goToNextPage, goToPrevPage, startPageEdit, handlePageInputChange,
      handlePageInputKeyDown, submitPageChange, cancelPageEdit, goToPage,
      zoomIn, zoomOut, fitToPage,
      handleMouseDown, handleMouseMove, handleMouseUp, handleMouseLeave,
      handleFileChange, loadPDF_catch, loadPDF_loaded, loadPDF_begin.
  all: try (repeat case_match; done).
  unfold handleNoteChange. case_match; [|done].
  destruct (updateNoteJson_written newText s Hread) as [d ->].
  unfold notesWritten. cbn [notes setNotes setCurrentNote].
  by apply notesWritten_insert.
Qed.

Lemma step_notesWritten ev s : notesWritten s → notesWritten (step ev s).
Proof.
  intros Hw. unfold step, settle.
  by do 2 apply notesEffects_notesWritten; apply handle_notesWritten.
Qed.

Lemma step_settled ev s : notesEffects (step ev s) = step ev s.
Proof. apply notesEffects_settled. Qed.

Lemma renderPage_begin_notes s : notes (renderPage_begin s) = notes s.
Proof. unfold renderPage_begin. repeat case_match; reflexivity. Qed.

Lemma resume_notes i sys : notes (view (resume i sys)) = notes (view sys).
Proof.
  unfold resume, startRender, failRun, renderPage_catch, renderPage_done.
  repeat case_match; reflexivity.
Qed.

Lemma sysStep_notesWritten e sys :
  notesWritten (view sys) → notesWritten (view (sysStep e sys)).
Proof.
  intros Hw. destruct e as [ev|i|t|t err]; cbn [sysStep].
  - pose proof (step_notesWritten ev _ Hw) as Hstep.
    case_match; [|done].
    unfold startRun, cleanup. cbn [view]. case_match; [|done].
    cbn [view]. unfold notesWritten. by rewrite renderPage_begin_notes.
  - unfold notesWritten. by rewrite resume_notes.
  - unfold settleTask. by repeat case_match.
  - unfold settleTask. by repeat case_match.
Qed.

(** In every state the component reaches from its mount, each stored
    note is a stringified [DocumentNotes]; in particular it is readable. *)
Lemma sysRun_notesWritten es container canvas :
  notesWritten (view (sysRun es (initialSystem container canvas))).
Proof.
  assert (∀ sys, notesWritten (view sys) → notesWritten (view (sysRun es sys))) as Hrun.
  { induction es as [|e es IH]; intros sys Hw; [done|].
    cbn [sysRun foldl]. by apply IH, sysStep_notesWritten. }
  apply Hrun. unfold initialSystem, settle. cbn [view].
  do 2 apply notesEffects_notesWritten. intros k txt. cbn. by rewrite lookup_empty.
Qed.

(** C5: with a document loaded, a note text [t] written on page [p]
    through [handleNoteChange] is shown again after going to another page
    [q] and back to [p], and the stored note of [p] is the same; going to
    a page changes the stored note of no page but the one gone to. *)
Theorem notes_survive_round_trip (s : State) (n p q : Z) (t : string) :
  numPages s = Some n → 0 < n →
  pageNum s = p → 1 ≤ p ≤ n → 1 ≤ q ≤ n → q ≠ p →
  Z.of_nat (String.length t) ≤ MAX_NOTE_LENGTH →
  noteReadable s →
  let written := settle (handleNoteChange t s) in
  let away := settle (goToPage q written) in
  let back := settle (goToPage p away) in
  currentNote written = t
  ∧ pageNum away = q
  ∧ pageNum back = p
  ∧ currentNote back = t
  ∧ notes back !! p = notes written !! p
  ∧ (∀ op s0 k, notesEffects s0 = s0 → k ≠ pageNum (navigate op s0) →
       notes (settle (navigate op s0)) !! k = notes s0 !! k).
Proof.
  intros Hnum Hn Hp Hpn Hqn Hqp Hlen Hread written away back.
  destruct (handleNoteChange_stored t s Hlen Hread) as (d & pn & Hlook0 & Hfind & Htext).
  assert (pageNum (handleNoteChange t s) = p) as Hp0.
  { unfold handleNoteChange. by case_match. }
  assert (numPages (handleNoteChange t s) = Some n) as Hnum0.
  { unfold handleNoteChange. by case_match. }
  rewrite Hp in Hlook0, Hfind.
  (* after the write *)
  destruct (settle_shows (handleNoteChange t s) d pn) as [Hnotes1 Hcur1];
    [by rewrite Hp0 | by rewrite Hp0 |].
  fold written in Hnotes1, Hcur1.
  assert (pageNum written = p) as Hp1 by (unfold written; by rewrite settle_pageNum).
  assert (numPages written = Some n) as Hnum1
    by (unfold written; by rewrite settle_numPages).
  assert (notes written !! p = Some (stringify d)) as Hlook1 by (by rewrite Hnotes1).
  (* going to a page in range *)
  assert (∀ s0 page, numPages s0 = Some n → 1 ≤ page ≤ n →
            pageNum (goToPage page s0) = page
            ∧ notes (goToPage page s0) = notes s0
            ∧ numPages (goToPage page s0) = Some n) as Hgo.
  { intros s0 page Hn0 Hpage.
    pose proof (navigate_notes (NavGoTo page) s0) as Hnn.
    pose proof (navigate_numPages (NavGoTo page) s0) as Hnp. cbn [navigate] in Hnn, Hnp.
    split; [|split; [done | congruence]].
    rewrite goToPage_pageNum, (numPagesOr1_known s0 n) by (done || lia).
    destruct (Z.leb_spec 1 page), (Z.leb_spec page n); cbn [andb]; lia. }
  destruct (Hgo written q Hnum1 Hqn) as (Hpq & Hnq & Hnumq).
  assert (notes (goToPage q written) ≠ ∅) as Hneq.
  { rewrite Hnq. intros Hempty. by rewrite Hempty, lookup_empty in Hlook1. }
  assert (pageNum away = q) as Hp2 by (unfold away; by rewrite settle_pageNum).
  assert (numPages away = Some n) as Hnum2 by (unfold away; by rewrite settle_numPages).
  assert (notes away !! p = Some (stringify d)) as Hlook2.
  { unfold away. rewrite settle_other; [by rewrite Hnq | by left | by rewrite Hpq]. }
  destruct (Hgo away p Hnum2 Hpn) as (Hpp & Hnp & Hnump).
  destruct (settle_shows (goToPage p away) d pn) as [Hnotes3 Hcur3];
    [by rewrite Hpp, Hnp | by rewrite Hpp |].
  fold back in Hnotes3, Hcur3.
  split_and!.
  - by rewrite Hcur1.
  - done.
  - unfold back. by rewrite settle_pageNum.
  - by rewrite Hcur3.
  - by rewrite Hnotes3, Hnp, Hlook2, Hlook1.
  - intros op s0 k Hfix Hk.
    rewrite settle_other; [by rewrite navigate_notes | | done].
    rewrite navigate_notes. unfold hasPages. rewrite navigate_numPages.
    apply (settled_idle s0 Hfix).
Qed.

End NotesProperties.

Lemma handleNoteChange_enforces_limit_witness :
  currentNote (handleNoteChange (J := ReferenceCodec.codec) "first draft"
                 initialState) = "first draft".
Proof.
  refine (proj1 (proj1 (proj2 (handleNoteChange_enforces_limit
                   (J := ReferenceCodec.codec) "first draft" initialState)) _)).
  vm_compute. discriminate.
Defined.

Lemma notes_survive_round_trip_witness :
  let s := setPageNum 2 (setNumPages (Some 3) initialState) in
  currentNote
    (settle (J := ReferenceCodec.codec)
       (goToPage 2
          (settle (J := ReferenceCodec.codec)
             (goToPage 3
                (settle (J := ReferenceCodec.codec)
                   (handleNoteChange (J := ReferenceCodec.codec) "see figure 4" s))))))
  = "see figure 4".
Proof.
  intros s.
  refine (proj1 (proj2 (proj2 (proj2
            (notes_survive_round_trip (J := ReferenceCodec.codec) s 3 2 3 "see figure 4"
               eq_refl _ eq_refl _ _ _ _ _))))).
  - lia.
  - lia.
  - lia.
  - lia.
  - vm_compute. discriminate.
  - intros txt Hst. vm_compute in Hst. discriminate Hst.
Defined.

(** ** The render lifecycle *)

(** The cleanup leaves no pending task in the ref. *)
Lemma cleanup_cancels_stored_task (sys : System) (task : RenderTask) :
  renderTaskRef (view sys) = Some task →
  tasks (cleanup sys) !! task_id task ≠ Some Pending.
Proof.
  intros Href. unfold cleanup. rewrite Href. cbn [tasks].
  rewrite list_lookup_alter_eq. by destruct (tasks sys !! task_id task) as [[]|].
Qed.

(** A run that waits for the task it found in the ref does not move while
    that task is pending. *)
Lemma resume_waits_for_previous (i t : nat) (r : Run) (sys : System) :
  runs sys !! i = Some r → pc r = AwaitPrevious t →
  tasks sys !! t = Some Pending →
  resume i sys = sys.
Proof. intros Hr Hpc Ht. unfold resume. by rewrite Hr, Hpc, Ht. Qed.

(** *** The lifecycle does not depend on the codec

    The note cells are written by the note handlers and effects only, and
    nothing else reads them. *)

Lemma renderTaskRef_forgetNotes s : renderTaskRef (forgetNotes s) = renderTaskRef s.
Proof. reflexivity. Qed.

Section CodecIndependence.
Context (J1 J2 : JSON).

Lemma forgetNotes_notesEffects {J : JSON} s :
  forgetNotes (notesEffects s) = forgetNotes s.
Proof.
  unfold notesEffects, saveNotesEffect, pageNoteEffect, initNotesEffect.
  repeat case_match; reflexivity.
Qed.

Lemma forgetNotes_settle {J : JSON} s : forgetNotes (settle s) = forgetNotes s.
Proof. unfold settle. by rewrite !forgetNotes_notesEffects. Qed.

Lemma forgetNotes_handle ev s1 s2 :
  forgetNotes s1 = forgetNotes s2 →
  forgetNotes (handle (J := J1) ev s1) = forgetNotes (handle (J := J2) ev s2).
Proof.
  destruct s1, s2. unfold forgetNotes. cbn. intros [=]. subst.
  destruct ev; cbn [handle];
    unfold goToNextPage, goToPrevPage, startPageEdit, handlePageInputChange,
      handlePageInputKeyDown, submitPageChange, cancelPageEdit, goToPage,
      zoomIn, zoomOut, fitToPage, numPagesOr1,
      handleMouseDown, handleMouseMove, handleMouseUp, handleMouseLeave,
      handleFileChange, handleNoteChange, loadPDF_skips, loadPDF_catch,
      loadPDF_loaded, loadPDF_begin;
    cbn; repeat case_match; reflexivity.
Qed.

Lemma forgetNotes_step ev s1 s2 :
  forgetNotes s1 = forgetNotes s2 →
  forgetNotes (step (J := J1) ev s1) = forgetNotes (step (J := J2) ev s2).
Proof.
  intros Hs. unfold step. rewrite !forgetNotes_settle. by apply forgetNotes_handle.
Qed.

Lemma sameLifecycle_step e sys1 sys2 :
  sameLifecycle sys1 sys2 →
  sameLifecycle (sysStep (J := J1) e sys1) (sysStep (J := J2) e sys2).
Proof.
  intros (Hview & Htasks & Hruns).
  destruct e as [ev|i|t|t err]; cbn [sysStep].
  - pose proof (forgetNotes_step ev _ _ Hview) as Hstep.
    destruct sys1 as [v1 ts1 rs1], sys2 as [v2 ts2 rs2]. cbn [view tasks runs] in *.
    subst. revert Hstep Hview.
    generalize (step (J := J1) ev v1), (step (J := J2) ev v2).
    intros [] [] [=] Hview. subst.
    destruct v1, v2. unfold forgetNotes in Hview. cbn in Hview.
    injection Hview as ->. subst.
    unfold sameLifecycle, renderDepsChanged, startRun, cleanup, renderPage_begin,
      forgetNotes.
    cbn. repeat case_match; simplify_eq/=; try done; congruence.
  - destruct sys1 as [v1 ts1 rs1], sys2 as [v2 ts2 rs2]. cbn [view tasks runs] in *.
    subst. destruct v1, v2. unfold forgetNotes in Hview. cbn in Hview.
    injection Hview as ->. subst.
    unfold sameLifecycle, resume, startRender, failRun, renderPage_catch,
      renderPage_done, forgetNotes.
    cbn. repeat case_match; simplify_eq/=; try done; congruence.
  - destruct sys1, sys2. cbn [view tasks runs] in *. subst.
    unfold sameLifecycle, settleTask. cbn. by repeat case_match.
  - destruct sys1, sys2. cbn [view tasks runs] in *. subst.
    unfold sameLifecycle, settleTask. cbn. by repeat case_match.
Qed.

Lemma sameLifecycle_run es sys1 sys2 :
  sameLifecycle sys1 sys2 →
  sameLifecycle (sysRun (J := J1) es sys1) (sysRun (J := J2) es sys2).
Proof.
  revert sys1 sys2. induction es as [|e es IH]; intros sys1 sys2 Hsame; [done|].
  cbn [sysRun foldl]. by apply IH, sameLifecycle_step.
Qed.

Lemma sameLifecycle_initial container canvas :
  sameLifecycle (initialSystem (J := J1) container canvas)
    (initialSystem (J := J2) container canvas).
Proof.
  unfold sameLifecycle, initialSystem. cbn [view tasks runs].
  by rewrite !forgetNotes_settle.
Qed.

End CodecIndependence.

(** C1 fails on the code: two runs of the effect that both found the same
    settled task in the ref each start a render task of their own, and
    neither task has settled. *)
Theorem render_tasks_overlap {J : JSON} :
  let sys :=
    sysRun overlapSchedule (initialSystem (mkContainer 612 842) (mkCanvas true)) in
  inFlight sys = 2%nat
  ∧ tasks sys = [Fulfilled; Pending; Pending]
  ∧ pc <$> runs sys = [Returned; AwaitRender 1; AwaitRender 2]
  ∧ isCancelled <$> runs sys = [true; true; false]
  ∧ renderTaskRef (view sys) = Some (mkRenderTask 2 2).
Proof.
  pose proof (sameLifecycle_run J ReferenceCodec.codec overlapSchedule _ _
                (sameLifecycle_initial J ReferenceCodec.codec
                   (mkContainer 612 842) (mkCanvas true))) as Hsame.
  revert Hsame.
  generalize (sysRun (J := J) overlapSchedule
                (initialSystem (mkContainer 612 842) (mkCanvas true))).
  intros sys0 (Hview & Htasks & Hruns) sys. subst sys.
  unfold inFlight.
  rewrite <- (renderTaskRef_forgetNotes (view sys0)), Hview, Htasks, Hruns.
  vm_compute. repeat split.
Qed.


(** * Further properties of the code *)

(** ** The page-number field *)

Lemma digitValue_decimal c :
  isDecimalDigit c = true →
  ∃ d, digitValue c = Some d ∧ 0 ≤ d < 10.
Proof.
  unfold isDecimalDigit, digitValue. cbv zeta. intros H. rewrite H.
  eexists. split; [done|]. bool_to_prop. lia.
Qed.

Lemma isWhiteSpace_decimal c : isDecimalDigit c = true → isWhiteSpace c = false.
Proof.
  unfold isDecimalDigit, isWhiteSpace. cbv zeta. intros H. bool_to_prop.
  lia.
Qed.

Lemma digitsOnly_cons c txt :
  digitsOnly (String c txt) ↔ isDecimalDigit c = true ∧ digitsOnly txt.
Proof.
  unfold digitsOnly. cbn. split.
  - by inversion 1.
  - intros [Hc Hd]. by constructor.
Qed.

(** On digits [parseDigits] fails only for the empty string without
    accumulator, and never yields a negative number. *)
Lemma parseDigits_digitsOnly txt acc :
  digitsOnly txt →
  match acc with Some a => 0 ≤ a | None => True end →
  match parseDigits 10 txt acc with
  | Some v => 0 ≤ v
  | None => acc = None ∧ txt = ""
  end.
Proof.
  revert acc. induction txt as [|c txt IH]; intros acc Hd Hacc.
  - cbn. by destruct acc.
  - apply digitsOnly_cons in Hd as [Hc Hd].
    destruct (digitValue_decimal c Hc) as (d & Hdv & Hrange).
    cbn [parseDigits]. rewrite Hdv.
    destruct (Z.ltb_spec d 10); [|lia].
    specialize (IH (Some (10 * default 0 acc + d)) Hd).
    destruct (parseDigits 10 txt _); [apply IH|destruct IH as [? _]];
      try done; destruct acc; cbn in *; lia.
Qed.

(** A string of digits has no white space, sign or radix prefix to skip. *)
Lemma parseInt_digitsOnly txt :
  digitsOnly txt → parseInt txt = parseDigits 10 txt None.
Proof.
  intros Hd. unfold parseInt.
  destruct txt as [|c txt]; [done|].
  apply digitsOnly_cons in Hd as [Hc Hd].
  cbn [trimStart]. rewrite (isWhiteSpace_decimal c Hc).
  assert (c ≠ "-"%char ∧ c ≠ "+"%char) as [Hm Hp].
  { split; intros ->; discriminate Hc. }
  assert ((let '(neg, s) :=
             match String c txt with
             | String "-" r => (true, r)
             | String "+" r => (false, r)
             | _ => (false, String c txt)
             end in
           let '(radix, s0) :=
             match s with
             | String "0" (String "x" r) | String "0" (String "X" r) => (16, r)
             | _ => (10, s)
             end in
           (λ v : Z, if neg then - v else v) <$> parseDigits radix s0 None)
          = (λ v : Z, v) <$> parseDigits 10 (String c txt) None) as ->.
  { destruct c as [[] [] [] [] [] [] [] []]; try done;
      destruct txt as [|c' txt]; try done;
      apply digitsOnly_cons in Hd as [Hc' _];
      destruct c' as [[] [] [] [] [] [] [] []]; try done; discriminate Hc'. }
  by destruct (parseDigits 10 (String c txt) None).
Qed.

Lemma filter_digitsOnly value :
  digitsOnly (string_of_list_ascii (List.filter isDecimalDigit (list_ascii_of_string value))).
Proof.
  unfold digitsOnly. rewrite list_ascii_of_string_of_list_ascii.
  apply Forall_forall. intros c Hin%list_elem_of_In.
  by apply filter_In in Hin as [_ Hc].
Qed.

Lemma filter_digitsOnly_id txt :
  digitsOnly txt →
  string_of_list_ascii (List.filter isDecimalDigit (list_ascii_of_string txt)) = txt.
Proof.
  unfold digitsOnly. intros Hd.
  rewrite <- (string_of_list_ascii_of_string txt) at 2. f_equal.
  induction Hd as [|c l Hc Hl IH]; [done|]. cbn. by rewrite Hc, IH.
Qed.

Lemma filter_digits_app a b :
  string_of_list_ascii (List.filter isDecimalDigit (list_ascii_of_string (a ++ b)))
  = string_of_list_ascii (List.filter isDecimalDigit (list_ascii_of_string a))
    ++ string_of_list_ascii (List.filter isDecimalDigit (list_ascii_of_string b)).
Proof.
  induction a as [|c a IH]; [done|].
  change (String c a ++ b) with (String c (a ++ b)).
  cbn [list_ascii_of_string List.filter].
  destruct (isDecimalDigit c); cbn [string_of_list_ascii]; by rewrite IH.
Qed.

(** X1: the page input stores the characters of what was typed that are
    decimal digits, in their order, and nothing else: character by
    character, a digit is kept and any other character is dropped.  A
    value of digits is kept as it is; the handler touches no other cell;
    and what [submitPageChange] then reads with [parseInt] is never
    negative, and is [NaN] only for the empty field. *)
Theorem page_input_keeps_digits (value : string) (s : State) :
  let s' := handlePageInputChange value s in
  list_ascii_of_string (pageInputValue s')
  = List.filter isDecimalDigit (list_ascii_of_string value)
  ∧ (∀ a b,
       pageInputValue (handlePageInputChange (a ++ b) s)
       = pageInputValue (handlePageInputChange a s)
         ++ pageInputValue (handlePageInputChange b s))
  ∧ (∀ c,
       pageInputValue (handlePageInputChange (String c "") s)
       = if isDecimalDigit c then String c "" else "")
  ∧ digitsOnly (pageInputValue s')
  ∧ (digitsOnly value → pageInputValue s' = value)
  ∧ handlePageInputChange (pageInputValue s') s' = s'
  ∧ s' = setPageInputValue (pageInputValue s') s
  ∧ (∀ page, parseInt (pageInputValue s') = Some page → 0 ≤ page)
  ∧ (parseInt (pageInputValue s') = None ↔ pageInputValue s' = "").
Proof.
  intros s'. subst s'.
  assert (pageInputValue (handlePageInputChange value s)
          = string_of_list_ascii
              (List.filter isDecimalDigit (list_ascii_of_string value))) as Hval by done.
  pose proof (filter_digitsOnly value) as Hd. rewrite <- Hval in Hd.
  pose proof (parseDigits_digitsOnly _ None Hd I) as Hparse.
  rewrite <- (parseInt_digitsOnly _ Hd) in Hparse.
  split_and!.
  - rewrite Hval. apply list_ascii_of_string_of_list_ascii.
  - intros a b. exact (filter_digits_app a b).
  - intros c. change (pageInputValue (handlePageInputChange (String c "") s))
      with (string_of_list_ascii (if isDecimalDigit c then [c] else [])).
    by destruct (isDecimalDigit c).
  - done.
  - intros Hv. rewrite Hval. by apply filter_digitsOnly_id.
  - unfold handlePageInputChange at 1. cbv zeta.
    change (List.filter _ (list_ascii_of_string ?v))
      with (List.filter isDecimalDigit (list_ascii_of_string v)).
    rewrite (filter_digitsOnly_id _ Hd). by destruct s.
  - done.
  - intros page Hp. by rewrite Hp in Hparse.
  - split.
    + intros Hn. rewrite Hn in Hparse. by destruct Hparse.
    + by intros ->.
Qed.

Lemma pretty_N_char_decimal d :
  (d < 10)%N →
  isDecimalDigit (pretty_N_char d) = true
  ∧ digitValue (pretty_N_char d) = Some (Z.of_N d).
Proof.
  intros Hd.
  assert (d = 0 ∨ d = 1 ∨ d = 2 ∨ d = 3 ∨ d = 4 ∨ d = 5 ∨ d = 6 ∨ d = 7
          ∨ d = 8 ∨ d = 9)%N as Hcases by lia.
  by repeat (destruct Hcases as [->|Hcases]); subst.
Qed.

Lemma digitsOnly_pretty_N_go x txt : digitsOnly txt → digitsOnly (pretty_N_go x txt).
Proof.
  revert txt. induction (N.lt_wf_0 x) as [x _ IH]; intros txt Hd.
  assert (x = 0 ∨ 0 < x)%N as [->|Hx] by lia; [by rewrite pretty_N_go_0|].
  rewrite pretty_N_go_step by done. apply IH; [by apply N.div_lt|].
  apply digitsOnly_cons. split; [|done].
  apply pretty_N_char_decimal. by apply N.mod_lt.
Qed.

(** Reading back the digits [pretty] wrote. *)
Lemma parseDigits_pretty_N_go x txt :
  parseDigits 10 (pretty_N_go x txt) None
  = parseDigits 10 txt (if decide (x = 0%N) then None else Some (Z.of_N x)).
Proof.
  revert txt. induction (N.lt_wf_0 x) as [x _ IH]; intros txt.
  assert (x = 0 ∨ 0 < x)%N as [->|Hx] by lia; [by rewrite pretty_N_go_0|].
  rewrite pretty_N_go_step by done. rewrite IH by (by apply N.div_lt).
  destruct (pretty_N_char_decimal (x `mod` 10)) as [_ Hv]; [by apply N.mod_lt|].
  cbn [parseDigits]. rewrite Hv.
  assert ((Z.of_N (x `mod` 10) <? 10) = true) as ->.
  { apply Z.ltb_lt. pose proof (N.mod_lt x 10). lia. }
  f_equal. rewrite (decide_False (P := x = 0%N)) by lia. f_equal.
  assert (x = 10 * (x `div` 10) + x `mod` 10)%N as Hdm by (by apply N.div_mod).
  clear IH Hv. revert Hdm.
  generalize (x `mod` 10)%N, (x `div` 10)%N. intros m q Hdm.
  case_decide as Hq; cbn [default id]; lia.
Qed.

Lemma parseInt_minus_digits txt :
  digitsOnly txt → parseInt (String "-" txt) = Z.opp <$> parseDigits 10 txt None.
Proof.
  intros Hd. unfold parseInt. cbn [trimStart].
  change (isWhiteSpace "-") with false. cbv iota.
  destruct txt as [|c txt]; [done|].
  apply digitsOnly_cons in Hd as [Hc Hd].
  destruct c as [[] [] [] [] [] [] [] []]; try done;
    destruct txt as [|c' txt]; try done;
    apply digitsOnly_cons in Hd as [Hc' _];
    destruct c' as [[] [] [] [] [] [] [] []]; try done; discriminate Hc'.
Qed.

Lemma parseInt_pretty (z : Z) : parseInt (pretty z) = Some z.
Proof.
  assert (∀ p, digitsOnly (pretty_N_go (N.pos p) "")
               ∧ parseDigits 10 (pretty_N_go (N.pos p) "") None = Some (Z.pos p))
    as Hpos.
  { intros p. split; [by apply digitsOnly_pretty_N_go, Forall_nil|].
    by rewrite parseDigits_pretty_N_go. }
  destruct z as [|p|p].
  - done.
  - destruct (Hpos p) as [Hd Hv].
    change (pretty (Z.pos p)) with (pretty_N_go (N.pos p) "").
    by rewrite parseInt_digitsOnly.
  - destruct (Hpos p) as [Hd Hv].
    change (pretty (Z.neg p)) with (String "-" (pretty_N_go (N.pos p) "")).
    rewrite parseInt_minus_digits by done. by rewrite Hv.
Qed.

(** X2: opening the page-number field writes the current page as a
    decimal numeral that [parseInt] reads back as the same number, so
    submitting the untouched field (Enter or blur) does what Escape does:
    the page stays and the field closes. *)
Theorem page_edit_round_trip (s : State) :
  parseInt (pageInputValue (startPageEdit s)) = Some (pageNum s)
  ∧ submitPageChange (startPageEdit s) = cancelPageEdit (startPageEdit s)
  ∧ handlePageInputKeyDown Enter (startPageEdit s)
    = handlePageInputKeyDown Escape (startPageEdit s)
  ∧ pageNum (submitPageChange (startPageEdit s)) = pageNum s
  ∧ isEditingPage (submitPageChange (startPageEdit s)) = false.
Proof.
  assert (parseInt (pageInputValue (startPageEdit s)) = Some (pageNum s)) as Hparse
    by apply parseInt_pretty.
  assert (submitPageChange (startPageEdit s) = cancelPageEdit (startPageEdit s)) as Heq.
  { unfold submitPageChange. rewrite Hparse. unfold goToPage, cancelPageEdit.
    case_match; [|done]. by destruct s. }
  split_and!; by rewrite ?Heq.
Qed.

(** ** Paging, zooming and fitting compose *)

Lemma setPageNum_undo p q s : p = pageNum s → setPageNum p (setPageNum q s) = s.
Proof. intros ->. by destruct s. Qed.

(** X3: inside the document next and previous undo each other, and at
    the last and the first page they do nothing. *)
Theorem next_and_prev_are_inverse (s : State) :
  (1 ≤ pageNum s < numPagesOr1 s → goToPrevPage (goToNextPage s) = s)
  ∧ (1 < pageNum s ≤ numPagesOr1 s → goToNextPage (goToPrevPage s) = s)
  ∧ (numPagesOr1 s ≤ pageNum s → goToNextPage s = s)
  ∧ (pageNum s ≤ 1 → goToPrevPage s = s).
Proof.
  unfold goToNextPage, goToPrevPage. split_and!; intros Hp.
  - destruct (Z.ltb_spec (pageNum s) (numPagesOr1 s)); [|lia].
    cbn [pageNum setPageNum].
    destruct (Z.ltb_spec 1 (pageNum s + 1)); [|lia].
    apply setPageNum_undo. lia.
  - destruct (Z.ltb_spec 1 (pageNum s)); [|lia].
    assert (numPagesOr1 (setPageNum (pageNum s - 1) s) = numPagesOr1 s) as -> by done.
    cbn [pageNum setPageNum].
    destruct (Z.ltb_spec (pageNum s - 1) (numPagesOr1 s)); [|lia].
    apply setPageNum_undo. lia.
  - by destruct (Z.ltb_spec (pageNum s) (numPagesOr1 s)); [lia|].
  - by destruct (Z.ltb_spec 1 (pageNum s)); [lia|].
Qed.

Section ZoomInDoubles.
Import PrimFloat.

Lemma zoomIn_quarter k x :
  Doubles.quarterScales !! k = Some x →
  Doubles.quarterScales !! Nat.min (S k) 18 = Some (Doubles.zoomIn x).
Proof.
  intros Hk.
  do 19 (destruct k as [|k]; [injection Hk as <-; vm_compute; reflexivity|]).
  discriminate Hk.
Qed.

Lemma zoomOut_quarter k x :
  Doubles.quarterScales !! k = Some x →
  Doubles.quarterScales !! Nat.pred k = Some (Doubles.zoomOut x).
Proof.
  intros Hk.
  do 19 (destruct k as [|k]; [injection Hk as <-; vm_compute; reflexivity|]).
  discriminate Hk.
Qed.

(** X4: in doubles, on the scales 0.5, 0.75, ..., 5 (the initial scale 1
    is one of them) zooming is exact: a zoom-in moves to the next of
    these scales and stops at 5, a zoom-out moves to the previous one and
    stops at 0.5, so [n] steps from the [k]-th of them lead to the
    [min(k + n, 18)]-th or the [(k - n)]-th, and a zoom-in and a zoom-out
    undo each other except at the bound.  Off these scales the sum is
    rounded: at 0.9, the scale a fit gives a page 680 wide in a container
    612 wide, a zoom-in followed by a zoom-out does not give 0.9 back. *)
Theorem zoom_steps_exact_on_quarters (k n : nat) (x : float) :
  Doubles.quarterScales !! k = Some x →
  Doubles.quarterScales !! Nat.min (k + n) 18 = Some (Nat.iter n Doubles.zoomIn x)
  ∧ Doubles.quarterScales !! (k - n)%nat = Some (Nat.iter n Doubles.zoomOut x)
  ∧ ((k < 18)%nat → Doubles.zoomOut (Doubles.zoomIn x) = x)
  ∧ ((0 < k)%nat → Doubles.zoomIn (Doubles.zoomOut x) = x)
  ∧ (let fit := Doubles.newScale 612 842 (680, 800)%float in
     eqb fit (9 / 10) = true
     ∧ eqb (Doubles.zoomOut (Doubles.zoomIn fit)) fit = false).
Proof.
  intros Hk. apply lookup_lt_Some in Hk as Hlt. cbn in Hlt. split_and!.
  - induction n as [|n IH].
    + rewrite Nat.add_0_r, Nat.min_l by lia. done.
    + rewrite Nat.iter_succ. apply zoomIn_quarter in IH.
      by replace (Nat.min (S (Nat.min (k + n) 18)) 18)
        with (Nat.min (k + S n) 18) in IH by lia.
  - induction n as [|n IH].
    + by rewrite Nat.sub_0_r.
    + rewrite Nat.iter_succ. apply zoomOut_quarter in IH.
      by replace (Nat.pred (k - n)) with (k - S n)%nat in IH by lia.
  - intros Hk18. pose proof (zoomIn_quarter _ _ Hk) as Hin.
    apply zoomOut_quarter in Hin.
    replace (Nat.pred (Nat.min (S k) 18)) with k in Hin by lia. congruence.
  - intros Hk0. pose proof (zoomOut_quarter _ _ Hk) as Hout.
    apply zoomIn_quarter in Hout.
    replace (Nat.min (S (Nat.pred k)) 18) with k in Hout by lia. congruence.
  - vm_compute. done.
Qed.

Lemma zoom_steps_exact_on_quarters_witness :
  Doubles.quarterScales !! Nat.min (2 + 20) 18
  = Some (Nat.iter 20 Doubles.zoomIn 1%float).
Proof.
  refine (proj1 (zoom_steps_exact_on_quarters 2 20 1%float _)).
  reflexivity.
Defined.

End ZoomInDoubles.

(** X5: a fit that finds its page forgets every earlier zoom, pan and
    fit: the result is the same state as a fit alone; without a document,
    without a container, or for a page the document does not have, a fit
    changes nothing. *)
Theorem fit_overrides_zoom_and_pan (s : State) (doc : PDFDocumentProxy)
    (container : Container) (page : Q * Q) :
  pdfDoc s = Some doc →
  containerRef s = Some container →
  getPage doc (pageNum s) = Some page →
  fitToPage (zoomIn s) = fitToPage s
  ∧ fitToPage (zoomOut s) = fitToPage s
  ∧ fitToPage (fitToPage s) = fitToPage s
  ∧ (∀ e, fitToPage (handleMouseMove e s) = fitToPage s)
  ∧ (∀ s0, pdfDoc s0 = None → fitToPage s0 = s0)
  ∧ (∀ s0, containerRef s0 = None → fitToPage s0 = s0)
  ∧ (∀ s0 doc0, pdfDoc s0 = Some doc0 → getPage doc0 (pageNum s0) = None →
       fitToPage s0 = s0).
Proof.
  intros Hdoc Hcont Hpage.
  assert (∀ s0, pdfDoc s0 = pdfDoc s → containerRef s0 = containerRef s →
            pageNum s0 = pageNum s →
            fitToPage s0
            = setPanPosition (mkPoint 0 0)
                (setScale
                   (Qmin (inject_Z (clientWidth container) / fst (getViewport page 1))
                      (inject_Z (clientHeight container) / snd (getViewport page 1)))
                   s0)) as Hfit.
  { intros s0 Hd Hc Hp. unfold fitToPage. by rewrite Hd, Hc, Hp, Hdoc, Hcont, Hpage. }
  split_and!.
  - rewrite (Hfit (zoomIn s)), (Hfit s) by done. by destruct s.
  - rewrite (Hfit (zoomOut s)), (Hfit s) by done. by destruct s.
  - rewrite (Hfit s) by done. rewrite (Hfit (setPanPosition _ _)) by done.
    by destruct s.
  - intros e. unfold handleMouseMove. case_match; [|done].
    rewrite (Hfit (setPanPosition _ s)), (Hfit s) by done. by destruct s.
  - intros s0 Hd. unfold fitToPage. by rewrite Hd.
  - intros s0 Hc. unfold fitToPage. rewrite Hc. by destruct (pdfDoc s0).
  - intros s0 doc0 Hd Hp. unfold fitToPage. rewrite Hd, Hp. by destruct (containerRef s0).
Qed.

Lemma fit_overrides_zoom_and_pan_witness :
  let s := setContainerRef (Some (mkContainer 612 842))
             (setPdfDoc (Some (mkDoc 1 [(2000%Q, 1000%Q)])) initialState) in
  fitToPage (zoomIn s) = fitToPage s.
Proof.
  intros s.
  refine (proj1 (fit_overrides_zoom_and_pan s (mkDoc 1 [(2000%Q, 1000%Q)])
                   (mkContainer 612 842) (2000%Q, 1000%Q) eq_refl eq_refl eq_refl)).
Defined.

(** ** Panning *)

(** X6: while zoomed in beyond 1, a drag moves the page by exactly the
    displacement of the pointer since the mouse went down, however many
    move events arrive in between; after the button is released or the
    pointer leaves, moves do nothing. *)
Theorem drag_follows_pointer (s : State) (e0 e1 : Point) :
  (1 < scale s)%Q →
  let dragged := handleMouseMove e1 (handleMouseDown e0 s) in
  panPosition dragged
  = mkPoint (x (panPosition s) + (x e1 - x e0)) (y (panPosition s) + (y e1 - y e0))
  ∧ (∀ e2, panPosition (handleMouseMove e2 dragged)
           = mkPoint (x (panPosition s) + (x e2 - x e0))
               (y (panPosition s) + (y e2 - y e0)))
  ∧ (∀ e2, handleMouseMove e2 (handleMouseUp dragged) = handleMouseUp dragged)
  ∧ (∀ e2, handleMouseMove e2 (handleMouseLeave dragged) = handleMouseLeave dragged)
  ∧ scale dragged = scale s.
Proof.
  intros Hzoom dragged. subst dragged. unfold handleMouseDown.
  destruct (Qlt_le_dec 1 (scale s)) as [_|Hle]; [|lra].
  unfold handleMouseMove.
  cbn [isPanning startPanPos panPosition setStartPanPos setIsPanning setPanPosition
         x y scale handleMouseUp handleMouseLeave].
  split_and!; try done; intros; f_equal; lia.
Qed.

Lemma drag_follows_pointer_witness :
  panPosition (handleMouseMove (mkPoint 130 80)
                 (handleMouseDown (mkPoint 100 100) (zoomIn initialState)))
  = mkPoint 30 (-20).
Proof.
  refine (proj1 (drag_follows_pointer (zoomIn initialState)
                   (mkPoint 100 100) (mkPoint 130 80) _)).
  reflexivity.
Defined.

Section PanProperties.
Context {J : JSON}.

Lemma handle_mouse_idle ev s :
  isMouseEvent ev = true → (scale s <= 1)%Q → isPanning s = false →
  handle ev s = s ∨ handle ev s = setIsPanning false s.
Proof.
  intros Hev Hscale Hpan. destruct ev; try discriminate Hev; cbn [handle].
  - left. unfold handleMouseDown. destruct (Qlt_le_dec 1 (scale s)); [lra|done].
  - left. unfold handleMouseMove. by rewrite Hpan.
  - by right.
  - by right.
Qed.

(** X7: at a scale of at most 1 the page cannot be dragged: from a state
    that is not panning, no sequence of mouse events changes the pan
    offset or starts a pan. *)
Theorem no_pan_unless_zoomed_in (evs : list event) (s : State) :
  (scale s <= 1)%Q → isPanning s = false →
  Forall (λ ev, isMouseEvent ev = true) evs →
  let s' := foldl (λ s ev, handle ev s) s evs in
  panPosition s' = panPosition s ∧ isPanning s' = false ∧ scale s' = scale s.
Proof.
  intros Hscale Hpan Hevs. revert s Hscale Hpan.
  induction Hevs as [|ev evs Hev _ IH]; intros s Hscale Hpan; [done|].
  cbn [foldl].
  assert (panPosition (handle ev s) = panPosition s
          ∧ isPanning (handle ev s) = false
          ∧ scale (handle ev s) = scale s) as (Hp & Hi & Hs).
  { by destruct (handle_mouse_idle ev s Hev Hscale Hpan) as [->| ->]. }
  destruct (IH (handle ev s)) as (Hp' & Hi' & Hs'); [by rewrite Hs|done|].
  cbv zeta in *. by rewrite Hp', Hs', Hp, Hs.
Qed.

End PanProperties.

Lemma no_pan_unless_zoomed_in_witness :
  panPosition
    (foldl (λ s ev, handle (J := ReferenceCodec.codec) ev s) initialState
       [MouseDown (mkPoint 5 5); MouseMove (mkPoint 50 60); MouseUp])
  = panPosition initialState.
Proof.
  refine (proj1 (no_pan_unless_zoomed_in (J := ReferenceCodec.codec)
                   [MouseDown (mkPoint 5 5); MouseMove (mkPoint 50 60); MouseUp]
                   initialState _ eq_refl _)).
  - discriminate.
  - by repeat constructor.
Defined.

(** ** The note structure *)

Lemma find_fmap_seqZ (k m : Z) (len : nat) :
  m ≤ k < m + Z.of_nat len →
  List.find (λ p, number p =? k)
    ((λ i, mkPageNote i "" None) <$> seqZ m (Z.of_nat len))
  = Some (mkPageNote k "" None).
Proof.
  revert m. induction len as [|len IH]; intros m Hk; [lia|].
  rewrite seqZ_cons by lia. cbn [fmap list_fmap List.find number].
  destruct (Z.eqb_spec m k) as [->|Hne]; [done|].
  replace (Z.pred (Z.of_nat (S len))) with (Z.of_nat len) by lia.
  apply IH. lia.
Qed.

(** X8: [getEmptyNotes(n)] lists the pages 1 to [n] in order, each with an
    empty text and its own entry, and records [n] as the total; for [n] of
    0 or less the list is empty; [getEmptyNotes(n, p)] lists page [p]
    alone, except that page 0 counts as no page given. *)
Theorem getEmptyNotes_shape (n : Z) :
  number <$> pages (document (getEmptyNotes n None)) = seqZ 1 n
  ∧ Forall (λ p, text p = "" ∧ layout p = None) (pages (document (getEmptyNotes n None)))
  ∧ total_pages (metadata (document (getEmptyNotes n None))) = n
  ∧ (∀ k, 1 ≤ k ≤ n → pageEntry k (getEmptyNotes n None) = Some (mkPageNote k "" None))
  ∧ (∀ k, ¬ 1 ≤ k ≤ n → pageEntry k (getEmptyNotes n None) = None)
  ∧ (n ≤ 0 → pages (document (getEmptyNotes n None)) = [])
  ∧ (∀ p, p ≠ 0 →
       pages (document (getEmptyNotes n (Some p))) = [mkPageNote p "" None]
       ∧ total_pages (metadata (document (getEmptyNotes n (Some p)))) = n)
  ∧ getEmptyNotes n (Some 0) = getEmptyNotes n None.
Proof.
  unfold getEmptyNotes, pageEntry. cbn [document pages metadata total_pages].
  split_and!; try done.
  - rewrite <- list_fmap_compose. rewrite <- (list_fmap_id (seqZ 1 n)) at 2.
    by apply list_fmap_ext.
  - apply Forall_fmap, Forall_forall. by intros.
  - intros k Hk. rewrite <- (Z2Nat.id n) by lia. apply find_fmap_seqZ. lia.
  - intros k Hk. destruct (List.find _ _) as [pn|] eqn:Hfind; [|done].
    apply find_some in Hfind as [Hin Heq]. apply Z.eqb_eq in Heq.
    apply list_elem_of_In, list_elem_of_fmap in Hin as (i & -> & Hi).
    apply elem_of_seqZ in Hi. cbn in Heq. lia.
  - intros Hn. by rewrite seqZ_nil.
  - intros p Hp. unfold truthyZ. by destruct (Z.eqb_spec p 0).
Qed.

Lemma upsertPage_step p newText a ps :
  upsertPage p newText (a :: ps)
  = if number a =? p then setText newText a :: ps else a :: upsertPage p newText ps.
Proof.
  unfold upsertPage. cbn [findIndex].
  destruct (number a =? p); [done|]. by destruct (findIndex _ ps).
Qed.

Lemma upsertPage_find_other p newText ps k :
  k ≠ p →
  List.find (λ pn, number pn =? k) (upsertPage p newText ps)
  = List.find (λ pn, number pn =? k) ps.
Proof.
  intros Hk. induction ps as [|a ps IH].
  - unfold upsertPage. cbn. by destruct (Z.eqb_spec p k); [congruence|].
  - rewrite upsertPage_step. destruct (Z.eqb_spec (number a) p) as [Ha|Ha].
    + cbn. by destruct (Z.eqb_spec (number a) k); [congruence|].
    + cbn. by rewrite IH.
Qed.

Lemma upsertPage_find_self p newText ps :
  List.find (λ pn, number pn =? p) (upsertPage p newText ps)
  = Some (match List.find (λ pn, number pn =? p) ps with
          | Some pn => setText newText pn
          | None => mkPageNote p newText None
          end).
Proof.
  induction ps as [|a ps IH].
  - unfold upsertPage. cbn. by rewrite Z.eqb_refl.
  - rewrite upsertPage_step. destruct (number a =? p) eqn:Ha; cbn; by rewrite Ha.
Qed.

Lemma upsertPage_length p newText ps :
  length (upsertPage p newText ps)
  = match List.find (λ pn, number pn =? p) ps with
    | Some _ => length ps
    | None => S (length ps)
    end.
Proof.
  induction ps as [|a ps IH]; [done|].
  rewrite upsertPage_step. cbn [List.find].
  destruct (number a =? p); [done|]. cbn [length]. rewrite IH.
  by destruct (List.find _ ps).
Qed.

Lemma upsertPage_upsertPage p t1 t2 ps :
  upsertPage p t2 (upsertPage p t1 ps) = upsertPage p t2 ps.
Proof.
  induction ps as [|a ps IH].
  - unfold upsertPage. cbn. by rewrite Z.eqb_refl.
  - rewrite !(upsertPage_step _ _ a). destruct (number a =? p) eqn:Ha.
    + rewrite upsertPage_step. cbn [number setText]. by rewrite Ha.
    + rewrite upsertPage_step, Ha. by rewrite IH.
Qed.

Lemma upsertPage_Forall (P : PageNote → Prop) p newText ps :
  (∀ pn, P pn → P (setText newText pn)) → P (mkPageNote p newText None) →
  Forall P ps → Forall P (upsertPage p newText ps).
Proof.
  intros Hset Hnew Hps. induction Hps as [|a ps Ha Hps IH].
  - unfold upsertPage. cbn. by repeat constructor.
  - rewrite upsertPage_step. destruct (number a =? p); constructor; auto.
Qed.

Section MoreNotesProperties.
Context {J : JSON}.

(** With a readable stored note, [updateNoteJson] stringifies the written
    structure. *)
Lemma updateNoteJson_writeNote newText s :
  noteReadable s →
  updateNoteJson newText s
  = stringify (writeNote (pageNum s) (numPagesOr1 s) newText (baseNotes s)).
Proof.
  intros Hread. unfold updateNoteJson, baseNotes.
  destruct (storedNote s) as [txt|] eqn:Hst; [|done].
  specialize (Hread txt Hst). by destruct (parse txt).
Qed.

Lemma baseNotes_stored s d :
  storedNote s = Some (stringify d) → baseNotes s = d.
Proof. unfold baseNotes. intros ->. by rewrite parse_stringify. Qed.

Lemma noteReadable_stored s d :
  storedNote s = Some (stringify d) → noteReadable s.
Proof. intros Hst txt. rewrite Hst. intros [= <-]. by rewrite parse_stringify. Qed.

(** X9: writing the text of the current page into a stored note keeps the
    entry of every other page, replaces the text of the current page's
    entry and keeps its layout (or appends a new entry when there was
    none), and never lowers the recorded page total. *)
Theorem updateNoteJson_keeps_other_pages (newText : string) (s : State)
    (d : DocumentNotes) :
  storedNote s = Some (stringify d) →
  ∃ d',
    updateNoteJson newText s = stringify d'
    ∧ (∀ k, k ≠ pageNum s → pageEntry k d' = pageEntry k d)
    ∧ pageEntry (pageNum s) d'
      = Some (match pageEntry (pageNum s) d with
              | Some pn => mkPageNote (number pn) newText (layout pn)
              | None => mkPageNote (pageNum s) newText None
              end)
    ∧ length (pages (document d'))
      = (match pageEntry (pageNum s) d with
         | Some _ => length (pages (document d))
         | None => S (length (pages (document d)))
         end)
    ∧ total_pages (metadata (document d'))
      = Z.max (total_pages (metadata (document d))) (numPagesOr1 s).
Proof.
  intros Hst. exists (writeNote (pageNum s) (numPagesOr1 s) newText d).
  rewrite updateNoteJson_writeNote by (by eapply noteReadable_stored).
  rewrite (baseNotes_stored s d Hst).
  unfold pageEntry, writeNote. cbn [document pages metadata total_pages].
  split_and!; try done.
  - intros k Hk. by apply upsertPage_find_other.
  - apply upsertPage_find_self.
  - apply upsertPage_length.
Qed.

(** X10: the last write wins: typing [t1] and then [t2] on a page leaves
    the same state as typing [t2] alone. *)
Theorem handleNoteChange_last_write_wins (t1 t2 : string) (s : State) :
  withinLimit t1 → withinLimit t2 → noteReadable s →
  handleNoteChange t2 (handleNoteChange t1 s) = handleNoteChange t2 s.
Proof.
  intros H1 H2 Hread.
  rewrite (handleNoteChange_accepts t1 s H1).
  set (j1 := updateNoteJson t1 s).
  set (s1 := setNotes (<[pageNum s := j1]> (notes s)) (setCurrentNote t1 s)).
  rewrite (handleNoteChange_accepts t2 s1 H2), (handleNoteChange_accepts t2 s H2).
  assert (storedNote s1
          = Some (stringify (writeNote (pageNum s) (numPagesOr1 s) t1 (baseNotes s))))
    as Hst1.
  { unfold storedNote, s1. cbn [notes pageNum setNotes setCurrentNote].
    rewrite lookup_insert_eq. unfold j1. rewrite updateNoteJson_writeNote by done.
    by rewrite stringify_is_truthy. }
  assert (updateNoteJson t2 s1 = updateNoteJson t2 s) as Hj.
  { rewrite (updateNoteJson_writeNote t2 s1) by (by eapply noteReadable_stored).
    rewrite (baseNotes_stored s1 _ Hst1), (updateNoteJson_writeNote t2 s) by done.
    assert (pageNum s1 = pageNum s ∧ numPagesOr1 s1 = numPagesOr1 s) as [-> ->] by done.
    unfold writeNote. cbn [document pages metadata total_pages].
    rewrite upsertPage_upsertPage. do 4 f_equal. lia. }
  rewrite Hj. unfold s1. cbn [notes pageNum setNotes setCurrentNote].
  rewrite insert_insert_eq. by destruct s.
Qed.

(** X11: a stored text that is not JSON is shown as it is by the page
    effect and left in place; the next write drops it and starts from a
    fresh structure for all pages. *)
Theorem unparsable_note_is_replaced (newText txt : string) (s : State) :
  storedNote s = Some txt → parse txt = SyntaxError →
  updateNoteJson newText s
  = stringify (writeNote (pageNum s) (numPagesOr1 s) newText
                 (getEmptyNotes (numPagesOr1 s) None))
  ∧ currentNote (notesEffects s) = txt
  ∧ notes (notesEffects s) = notes s.
Proof.
  intros Hst Hparse. split; [|split].
  - unfold updateNoteJson. by rewrite Hst, Hparse.
  - destruct (notesEffects_stored s txt Hst) as [_ ->].
    unfold shownText. by rewrite Hparse.
  - by destruct (notesEffects_stored s txt Hst) as [-> _].
Qed.

(** X12: the note effects cannot keep re-rendering: from any state, after
    two commits a further commit changes nothing, and one commit is
    enough once the current page has a stored note or while no page count
    is known. *)
Theorem note_effects_reach_fixed_point (s : State) :
  notesEffects (settle s) = settle s
  ∧ (is_Some (storedNote s) ∨ hasPages s = false →
       notesEffects (notesEffects s) = notesEffects s)
  ∧ (is_Some (storedNote (notesEffects s)) ∨ hasPages (notesEffects s) = false).
Proof.
  split; [|split].
  - apply notesEffects_idempotent, notesEffects_becomes_quiet.
  - apply notesEffects_idempotent.
  - apply notesEffects_becomes_quiet.
Qed.

End MoreNotesProperties.

Lemma updateNoteJson_keeps_other_pages_witness :
  let d := mkDocumentNotes
             (mkDocument [mkPageNote 1 "intro" None; mkPageNote 2 "old" None]
                (mkMetadata 2)) in
  let s := setPageNum 2
             (setNotes {[ 2 := ReferenceCodec.refStringify d ]} initialState) in
  ∃ d', updateNoteJson (J := ReferenceCodec.codec) "new" s
        = ReferenceCodec.refStringify d'
        ∧ pageEntry 1 d' = pageEntry 1 d.
Proof.
  intros d s.
  destruct (updateNoteJson_keeps_other_pages (J := ReferenceCodec.codec) "new" s d)
    as (d' & Hjson & Hother & _).
  - by vm_compute.
  - exists d'. split; [done|]. by apply Hother.
Defined.

Lemma handleNoteChange_last_write_wins_witness :
  handleNoteChange (J := ReferenceCodec.codec) "second"
    (handleNoteChange (J := ReferenceCodec.codec) "first" initialState)
  = handleNoteChange (J := ReferenceCodec.codec) "second" initialState.
Proof.
  refine (handleNoteChange_last_write_wins (J := ReferenceCodec.codec)
            "first" "second" initialState _ _ _).
  - by vm_compute.
  - by vm_compute.
  - intros txt Hst. by vm_compute in Hst.
Defined.

Lemma unparsable_note_is_replaced_witness :
  currentNote
    (notesEffects (J := ReferenceCodec.codec)
       (setNotes {[ 1 := "plain words" ]} initialState))
  = "plain words".
Proof.
  refine (proj1 (proj2 (unparsable_note_is_replaced (J := ReferenceCodec.codec)
                   "" "plain words" (setNotes {[ 1 := "plain words" ]} initialState)
                   _ _))).
  - by vm_compute.
  - by vm_compute.
Defined.

(** ** Note invariants of the running component *)

Section NoteInvariants.
Context {J : JSON}.

Lemma noteCells_renderPage_begin s : noteCells (renderPage_begin s) = noteCells s.
Proof. unfold renderPage_begin. repeat case_match; reflexivity. Qed.

Lemma noteCells_resume i sys : noteCells (view (resume i sys)) = noteCells (view sys).
Proof.
  unfold resume, startRender, failRun, renderPage_catch, renderPage_done.
  repeat case_match; reflexivity.
Qed.

(** What holds after mount and after every handler with its effects, and
    depends on the note cells only, holds in every state the component
    reaches. *)
Lemma sysRun_note_invariant (P : State → Prop) es container canvas :
  (∀ s s', noteCells s = noteCells s' → P s → P s') →
  (∀ s, P (settle s)) →
  P (view (sysRun es (initialSystem container canvas))).
Proof.
  intros Hcells Hsettle.
  assert (∀ sys, P (view sys) → P (view (sysRun es sys))) as Hrun.
  { induction es as [|e es IH]; intros sys HP; [done|].
    cbn [sysRun foldl]. apply IH. destruct e as [ev|i|t|t err]; cbn [sysStep].
    - case_match; [|apply Hsettle].
      unfold startRun, cleanup. cbn [view]. case_match; [|apply Hsettle].
      cbn [view]. eapply Hcells; [symmetry; apply noteCells_renderPage_begin|].
      apply Hsettle.
    - eapply Hcells; [symmetry; apply noteCells_resume|done].
    - unfold settleTask. by repeat case_match.
    - unfold settleTask. by repeat case_match. }
  apply Hrun, Hsettle.
Qed.

Lemma settle_storageMirrorsNotes s : storageMirrorsNotes (settle s).
Proof.
  unfold storageMirrorsNotes, settle.
  rewrite (notesEffects_quiet (notesEffects s)) by apply notesEffects_becomes_quiet.
  cbn [sessionStorage notes setSessionStorage setCurrentNote].
  apply lookup_insert_eq.
Qed.

(** X13: in every state the component reaches, session storage holds the
    stringified notes under [pdfNotes]: the save effect has caught up with
    every change, also right after an upload removed the key. *)
Theorem storage_always_mirrors_notes (es : list sysEvent)
    (container : Container) (canvas : Canvas) :
  storageMirrorsNotes (view (sysRun es (initialSystem container canvas)))
  ∧ (∀ files s, storageMirrorsNotes (step (SelectFile files) s)).
Proof.
  split.
  - apply (sysRun_note_invariant storageMirrorsNotes); [|apply settle_storageMirrorsNotes].
    unfold storageMirrorsNotes, noteCells. intros s s' [=]. congruence.
  - intros files s. apply settle_storageMirrorsNotes.
Qed.

(** *** Every stored note has its entry, every text is within the limit *)

Lemma withinLimit_empty : withinLimit "".
Proof. by vm_compute. Qed.

Lemma getEmptyNotes_bounded n :
  Forall (λ p, withinLimit (text p)) (pages (document (getEmptyNotes n None))).
Proof.
  unfold getEmptyNotes. cbn [document pages].
  apply Forall_fmap, Forall_forall. intros i _. apply withinLimit_empty.
Qed.

Lemma noteEntryOk_readable s :
  (∀ k txt, notes s !! k = Some txt → noteEntryOk k txt) → noteReadable s.
Proof.
  intros Hok txt [Hlook _]%storedNote_Some.
  destruct (Hok _ _ Hlook) as (d & _ & -> & _). by rewrite parse_stringify.
Qed.

Lemma baseNotes_bounded s :
  (∀ k txt, notes s !! k = Some txt → noteEntryOk k txt) →
  Forall (λ p, withinLimit (text p)) (pages (document (baseNotes s))).
Proof.
  intros Hok. unfold baseNotes.
  destruct (storedNote s) as [txt|] eqn:Hst; [|apply getEmptyNotes_bounded].
  apply storedNote_Some in Hst as [Hlook _].
  destruct (Hok _ _ Hlook) as (d & pn & -> & _ & Hb). by rewrite parse_stringify.
Qed.

(** The envelope written for the current page is a proper entry. *)
Lemma updateNoteJson_entryOk newText s :
  (∀ k txt, notes s !! k = Some txt → noteEntryOk k txt) →
  withinLimit newText →
  noteEntryOk (pageNum s) (updateNoteJson newText s).
Proof.
  intros Hok Hlen.
  rewrite updateNoteJson_writeNote by (by apply noteEntryOk_readable).
  eexists _, _. split; [done|]. unfold pageEntry, writeNote.
  cbn [document pages]. split; [apply upsertPage_find_self|].
  apply upsertPage_Forall; [done | done | by apply baseNotes_bounded].
Qed.

Lemma entries_insert (m : gmap Z string) k txt :
  (∀ j t, m !! j = Some t → noteEntryOk j t) → noteEntryOk k txt →
  ∀ j t, <[k := txt]> m !! j = Some t → noteEntryOk j t.
Proof.
  intros Hm Hk j t. rewrite lookup_insert. case_decide as Hj; [|by apply Hm].
  intros [= <-]. by subst.
Qed.

Lemma handle_notesBounded ev s : notesBounded s → notesBounded (handle ev s).
Proof.
  intros [Hok Hcur].
  destruct ev; cbn [handle]; try done;
    try (case_match; try done).
  all: unfold goToNextPage, goToPrevPage, startPageEdit, handlePageInputChange,
      handlePageInputKeyDown, submitPageChange, cancelPageEdit, goToPage,
      zoomIn, zoomOut, fitToPage,
      handleMouseDown, handleMouseMove, handleMouseUp, handleMouseLeave,
      loadPDF_catch, loadPDF_loaded, loadPDF_begin.
  all: try (repeat case_match; done).
  - unfold handleFileChange. repeat case_match; try done;
      (split; [intros k txt; cbn; by rewrite lookup_empty | apply withinLimit_empty]).
  - unfold handleNoteChange. case_match; [|done]. bool_to_prop.
    split; [|done]. cbn [notes setNotes setCurrentNote].
    apply entries_insert; [done|]. by apply updateNoteJson_entryOk.
Qed.

Lemma shownText_bounded s txt :
  notes s !! pageNum s = Some txt → noteEntryOk (pageNum s) txt →
  ∃ d pn, txt = stringify d ∧ pageEntry (pageNum s) d = Some pn
          ∧ shownText s txt = text pn ∧ withinLimit (text pn).
Proof.
  intros Hlook (d & pn & -> & Hentry & Hb).
  exists d, pn. unfold shownText. rewrite parse_stringify.
  unfold pageEntry in Hentry. rewrite Hentry. split_and!; try done.
  apply find_some in Hentry as [Hin _].
  rewrite Forall_forall in Hb. by apply Hb, list_elem_of_In.
Qed.

Lemma notesEffects_notesBounded s : notesBounded s → notesBounded (notesEffects s).
Proof.
  intros [Hok Hcur].
  pose proof (updateNoteJson_entryOk "" s Hok withinLimit_empty) as Hnew.
  assert (noteEntryOk 1 (stringify (getEmptyNotes 1 None))) as Hinit.
  { eexists _, _. split; [done|]. split; [done|]. apply getEmptyNotes_bounded. }
  assert (∀ txt, storedNote s = Some txt → withinLimit (shownText s txt)) as Hshown.
  { intros txt [Hlook _]%storedNote_Some.
    destruct (shownText_bounded s txt Hlook (Hok _ _ Hlook)) as (d & pn & _ & _ & -> & Hb).
    done. }
  unfold notesEffects, saveNotesEffect, pageNoteEffect, initNotesEffect.
  destruct (storedNote s) as [txt|] eqn:Hst.
  - specialize (Hshown txt eq_refl). unfold shownText in Hshown.
    repeat case_match; simplify_eq; split; try done;
      cbn [notes setNotes setCurrentNote setSessionStorage];
      rewrite <- insert_empty; apply entries_insert; try done;
      intros k t; by rewrite lookup_empty.
  - repeat case_match; split; try apply withinLimit_empty; try done;
      cbn [notes setNotes setCurrentNote setSessionStorage];
      repeat first [apply entries_insert; [|done] | rewrite <- insert_empty];
      try done; intros k t; by rewrite lookup_empty.
Qed.

Lemma settle_notesBounded s : notesBounded s → notesBounded (settle s).
Proof. intros Hb. unfold settle. by do 2 apply notesEffects_notesBounded. Qed.

Lemma sysRun_notesBounded es container canvas :
  notesBounded (view (sysRun es (initialSystem container canvas))).
Proof.
  assert (∀ s s', noteCells s = noteCells s' → notesBounded s → notesBounded s')
    as Hcells.
  { unfold notesBounded, noteCells. intros s s' [= Hn Hc _ _ _] [Hok Hcur].
    split; [by rewrite <- Hn | by rewrite <- Hc]. }
  assert (∀ sys, notesBounded (view sys) → notesBounded (view (sysRun es sys))) as Hrun.
  { induction es as [|e es IH]; intros sys HP; [done|].
    cbn [sysRun foldl]. apply IH. destruct e as [ev|i|t|t err]; cbn [sysStep].
    - assert (notesBounded (step ev (view sys))) as Hstep
        by (by apply settle_notesBounded, handle_notesBounded).
      case_match; [|done].
      unfold startRun, cleanup. cbn [view]. case_match; [|done].
      cbn [view]. eapply Hcells; [symmetry; apply noteCells_renderPage_begin|done].
    - eapply Hcells; [symmetry; apply noteCells_resume|done].
    - unfold settleTask. by repeat case_match.
    - unfold settleTask. by repeat case_match. }
  apply Hrun. unfold initialSystem. cbn [view]. apply settle_notesBounded.
  split; [|apply withinLimit_empty]. intros k txt. cbn. by rewrite lookup_empty.
Qed.

(** X14: in every state the component reaches, the note in the text area
    is within [MAX_NOTE_LENGTH], and every stored note is a stringified
    structure that has an entry for its own page and no text over the
    limit. *)
Theorem notes_stay_within_limit (es : list sysEvent)
    (container : Container) (canvas : Canvas) :
  let s := view (sysRun es (initialSystem container canvas)) in
  withinLimit (currentNote s)
  ∧ (∀ k txt, notes s !! k = Some txt →
       ∃ d pn, txt = stringify d
               ∧ pageEntry k d = Some pn
               ∧ Forall (λ p, withinLimit (text p)) (pages (document d))).
Proof.
  intros s. destruct (sysRun_notesBounded es container canvas) as [Hok Hcur].
  by split.
Qed.

Lemma settle_noteDisplayed s : notesBounded s → noteDisplayed (settle s).
Proof.
  intros Hb. apply notesEffects_notesBounded in Hb.
  set (s1 := notesEffects s) in *. destruct Hb as [Hok _].
  unfold noteDisplayed, settle. fold s1.
  rewrite (notesEffects_quiet s1) by apply notesEffects_becomes_quiet.
  cbn [notes pageNum currentNote setSessionStorage setCurrentNote].
  assert (hasPages (setSessionStorage
                      (<["pdfNotes" := stringifyNotes (notes s1)]> (sessionStorage s1))
                      (setCurrentNote
                         match storedNote s1 with
                         | Some txt => shownText s1 txt
                         | None => ""
                         end s1)) = hasPages s1) as -> by done.
  destruct (notes s1 !! pageNum s1) as [txt|] eqn:Hlook.
  - destruct (shownText_bounded s1 txt Hlook (Hok _ _ Hlook))
      as (d & pn & -> & Hentry & Hshown & _).
    exists d, pn. split; [done|]. split; [done|].
    by rewrite (storedNote_stringify s1 d Hlook).
  - assert (storedNote s1 = None) as Hst by (unfold storedNote; by rewrite Hlook).
    rewrite Hst. split; [done|].
    destruct (notesEffects_becomes_quiet s) as [[txt Hsome]|Hp]; [|done].
    fold s1 in Hsome. congruence.
Qed.

Lemma sysRun_noteDisplayed es container canvas :
  noteDisplayed (view (sysRun es (initialSystem container canvas))).
Proof.
  assert (∀ s s', noteCells s = noteCells s' → noteDisplayed s → noteDisplayed s')
    as Hcells.
  { unfold noteDisplayed, noteCells, hasPages. intros s s' [= Hn Hc _ Hp Hnp].
    by rewrite Hn, Hc, Hp, Hnp. }
  assert (∀ s s', noteCells s = noteCells s' → notesBounded s → notesBounded s')
    as Hcells'.
  { unfold notesBounded, noteCells. intros s s' [= Hn Hc _ _ _] [Hok Hcur].
    split; [by rewrite <- Hn | by rewrite <- Hc]. }
  assert (∀ sys, notesBounded (view sys) ∧ noteDisplayed (view sys) →
            notesBounded (view (sysRun es sys)) ∧ noteDisplayed (view (sysRun es sys)))
    as Hrun.
  { induction es as [|e es IH]; intros sys [Hb Hd]; [done|].
    cbn [sysRun foldl]. apply IH. destruct e as [ev|i|t|t err]; cbn [sysStep].
    - pose proof (handle_notesBounded ev _ Hb) as Hh.
      assert (notesBounded (step ev (view sys)) ∧ noteDisplayed (step ev (view sys)))
        as [Hb' Hd'] by (split; [by apply settle_notesBounded|by apply settle_noteDisplayed]).
      case_match; [|done].
      unfold startRun, cleanup. cbn [view]. case_match; [|done].
      cbn [view]. split.
      + eapply Hcells'; [symmetry; apply noteCells_renderPage_begin|done].
      + eapply Hcells; [symmetry; apply noteCells_renderPage_begin|done].
    - split.
      + eapply Hcells'; [symmetry; apply noteCells_resume|done].
      + eapply Hcells; [symmetry; apply noteCells_resume|done].
    - unfold settleTask. by repeat case_match.
    - unfold settleTask. by repeat case_match. }
  assert (notesBounded (setCanvasRef (Some canvas)
                          (setContainerRef (Some container) initialState))) as Hinit.
  { split; [|apply withinLimit_empty]. intros k txt. cbn. by rewrite lookup_empty. }
  apply Hrun. unfold initialSystem. cbn [view]. split.
  - by apply settle_notesBounded.
  - by apply settle_noteDisplayed.
Qed.

(** X15: in every state the component reaches, the text area shows the
    text of the current page's entry in the stored note of that page,
    never the raw JSON; the current page is without a stored note only
    while no page count is known, and the text area is then empty. *)
Theorem text_area_shows_stored_entry (es : list sysEvent)
    (container : Container) (canvas : Canvas) :
  let s := view (sysRun es (initialSystem container canvas)) in
  match notes s !! pageNum s with
  | Some txt =>
      ∃ d pn, txt = stringify d ∧ pageEntry (pageNum s) d = Some pn
              ∧ currentNote s = text pn
  | None => currentNote s = "" ∧ hasPages s = false
  end.
Proof. apply sysRun_noteDisplayed. Qed.

End NoteInvariants.

Section UploadProperties.
Context {J : JSON}.

Lemma writeNote_empty_texts p total d :
  Forall (λ pn, text pn = "") (pages (document d)) →
  Forall (λ pn, text pn = "") (pages (document (writeNote p total "" d))).
Proof.
  intros Hd. unfold writeNote. cbn [document pages]. by apply upsertPage_Forall.
Qed.

(** The first commit on a state without any note. *)
Lemma notesEffects_no_notes h :
  notes h = ∅ →
  notes (notesEffects h)
  = if hasPages h then <[pageNum h := updateNoteJson "" h]>
                         {[ 1 := stringify (getEmptyNotes 1 None) ]}
    else ∅.
Proof.
  intros Hempty.
  assert (storedNote h = None) as Hst
    by (unfold storedNote; by rewrite Hempty, lookup_empty).
  unfold notesEffects, saveNotesEffect, pageNoteEffect, initNotesEffect.
  rewrite Hst, Hempty, map_size_empty. destruct (hasPages h) eqn:Hp; cbn [andb Nat.eqb].
  - destruct (head_getEmptyNotes h Hp) as [pn ->]. done.
  - done.
Qed.

(** X16: once an uploaded PDF has been accepted and the effects have run,
    no note text of the previous document is left: the text area is empty,
    the page is 1, and the notes hold at most a fresh structure for page 1
    in which every text is empty (none at all while no page count is
    known). *)
Theorem upload_leaves_no_old_note (s : State) (file : File) (others : list File) :
  file_type file = "application/pdf" →
  let s' := step (SelectFile (Some (file :: others))) s in
  currentNote s' = ""
  ∧ pageNum s' = 1
  ∧ (∀ k txt, notes s' !! k = Some txt →
       k = 1 ∧ ∃ d, txt = stringify d ∧ Forall (λ pn, text pn = "") (pages (document d)))
  ∧ (hasPages s = false → notes s' = ∅)
  ∧ (hasPages s = true → is_Some (notes s' !! 1)).
Proof.
  intros Htype s'. subst s'. unfold step. cbn [handle].
  set (h := handleFileChange (Some (file :: others)) s).
  assert (notes h = ∅ ∧ pageNum h = 1 ∧ currentNote h = "" ∧ numPages h = numPages s)
    as (Hn & Hp & Hc & Hnp).
  { unfold h, handleFileChange. cbn [mbind option_bind head]. by rewrite Htype. }
  assert (hasPages h = hasPages s) as Hhp by (unfold hasPages; by rewrite Hnp).
  assert (storedNote h = None) as Hst
    by (unfold storedNote; by rewrite Hn, lookup_empty).
  assert (noteReadable h) as Hread by (intros txt; by rewrite Hst).
  pose proof (notesEffects_no_notes h Hn) as Hn1.
  set (h1 := notesEffects h) in *.
  assert (pageNum h1 = 1) as Hp1 by (unfold h1; by rewrite notesEffects_pageNum).
  unfold settle. fold h1. rewrite notesEffects_pageNum, Hp1.
  rewrite Hhp, Hp in Hn1.
  destruct (hasPages s) eqn:Hpages.
  - rewrite updateNoteJson_writeNote in Hn1 by done.
    rewrite insert_singleton_eq in Hn1.
    set (d := writeNote (pageNum h) (numPagesOr1 h) "" (baseNotes h)) in *.
    assert (notes h1 !! pageNum h1 = Some (stringify d)) as Hlook
      by (by rewrite Hn1, Hp1, lookup_singleton_eq).
    assert (Forall (λ pn, text pn = "") (pages (document d))) as Hd.
    { apply writeNote_empty_texts. unfold baseNotes. rewrite Hst.
      unfold getEmptyNotes. cbn [document pages].
      apply Forall_fmap, Forall_forall. by intros. }
    destruct (upsertPage_find (pageNum h) "" (pages (document (baseNotes h))))
      as (pn & Hfind & Htext).
    destruct (notesEffects_stored h1 (stringify d)) as [Hn2 Hc2];
      [by apply storedNote_stringify|].
    rewrite Hn2, Hc2, Hn1. split_and!; try done.
    + unfold shownText. rewrite parse_stringify, Hp1, <- Hp.
      unfold d, writeNote. cbn [document pages]. by rewrite Hfind.
    + intros k txt Hk. apply lookup_singleton_Some in Hk as [<- <-]. eauto.
  - assert (storedNote h1 = None) as Hst1
      by (unfold storedNote; by rewrite Hn1, lookup_empty).
    rewrite (notesEffects_quiet h1);
      [|right; unfold h1; by rewrite hasPages_notesEffects, Hhp].
    cbn [currentNote notes setSessionStorage setCurrentNote]. rewrite Hst1, Hn1.
    by split_and!.
Qed.

End UploadProperties.

Lemma upload_leaves_no_old_note_witness :
  currentNote
    (step (J := ReferenceCodec.codec)
       (SelectFile (Some [mkFile "next.pdf" "application/pdf"]))
       (setCurrentNote "remember this"
          (setNotes {[ 3 := "remember this" ]}
             (setPageNum 3 (setNumPages (Some 5) initialState)))))
  = "".
Proof.
  refine (proj1 (upload_leaves_no_old_note (J := ReferenceCodec.codec)
                   (setCurrentNote "remember this"
                      (setNotes {[ 3 := "remember this" ]}
                         (setPageNum 3 (setNumPages (Some 5) initialState))))
                   (mkFile "next.pdf" "application/pdf") [] eq_refl)).
Defined.

(** ** Runs of the render effect *)

Lemma setRenderTaskRef_same s : setRenderTaskRef (renderTaskRef s) s = s.
Proof. by destruct s. Qed.

(** What [resume] does to the runs: nothing, or a new program counter for
    run [i]. *)
Lemma resume_runs i sys :
  runs (resume i sys) = runs sys
  ∨ ∃ r p, runs sys !! i = Some r ∧ runs (resume i sys) = <[i := setPc p r]> (runs sys).
Proof.
  unfold resume, startRender, failRun.
  destruct (runs sys !! i) as [r|] eqn:Hr; [|by left].
  repeat case_match; cbn [runs]; eauto.
Qed.

Lemma resume_isCancelled i sys :
  isCancelled <$> runs (resume i sys) = isCancelled <$> runs sys.
Proof.
  destruct (resume_runs i sys) as [->|(r & p & Hr & ->)]; [done|].
  rewrite list_fmap_insert. cbn [isCancelled setPc].
  apply list_insert_id. by rewrite list_lookup_fmap, Hr.
Qed.

Lemma resume_cancelled_view i r sys :
  runs sys !! i = Some r → isCancelled r = true →
  ∃ ref, view (resume i sys) = setRenderTaskRef ref (view sys).
Proof.
  intros Hr Hc. unfold resume, startRender, failRun. rewrite Hr.
  unfold renderPage_catch, renderPage_done. rewrite Hc.
  repeat case_match; cbn [view]; eauto;
    exists (renderTaskRef (view sys)); by rewrite setRenderTaskRef_same.
Qed.

(** X17: a run whose cleanup has run changes no state cell when it
    resumes: not the loading flag, not the rendering flag, not the error;
    it can still call [page.render] and put its task into the ref.  No
    resumption changes the cancellation flag of any run. *)
Theorem cancelled_run_changes_only_the_ref (i : nat) (r : Run) (sys : System) :
  runs sys !! i = Some r → isCancelled r = true →
  (∃ ref, view (resume i sys) = setRenderTaskRef ref (view sys))
  ∧ isLoading (view (resume i sys)) = isLoading (view sys)
  ∧ isPageRendering (view (resume i sys)) = isPageRendering (view sys)
  ∧ error (view (resume i sys)) = error (view sys)
  ∧ isCancelled <$> runs (resume i sys) = isCancelled <$> runs sys.
Proof.
  intros Hr Hc. destruct (resume_cancelled_view i r sys Hr Hc) as [ref Hview].
  split; [by exists ref|]. rewrite Hview. split_and!; try done.
  apply resume_isCancelled.
Qed.

Lemma cancelled_run_changes_only_the_ref_witness :
  let sys :=
    mkSystem
      (setCanvasRef (Some (mkCanvas true))
         (setIsPageRendering true
            (setPdfDoc (Some (mkDoc 1 [(612%Q, 792%Q)])) initialState)))
      [] [mkRun true (mkDoc 1 [(612%Q, 792%Q)]) 1 1 AwaitGetPage] in
  isPageRendering (view (resume 0 sys)) = isPageRendering (view sys).
Proof.
  intros sys.
  refine (proj1 (proj2 (proj2 (cancelled_run_changes_only_the_ref 0
            (mkRun true (mkDoc 1 [(612%Q, 792%Q)]) 1 1 AwaitGetPage) sys
            eq_refl eq_refl)))).
Defined.

(** X18: when the task of a run that is not cancelled settles, the run
    clears the loading flag and the rendering flag and returns, whether
    the task was fulfilled (the error is left as it is) or rejected (the
    error becomes the message or the fallback). *)
Theorem live_run_clears_flags (i t : nat) (r : Run) (p : Promise) (sys : System) :
  runs sys !! i = Some r → pc r = AwaitRender t → isCancelled r = false →
  tasks sys !! t = Some p → p ≠ Pending →
  isLoading (view (resume i sys)) = false
  ∧ isPageRendering (view (resume i sys)) = false
  ∧ error (view (resume i sys))
    = match p with
      | Rejected err => Some (errorMessage "Failed to render PDF" err)
      | _ => error (view sys)
      end
  ∧ pc <$> runs (resume i sys) !! i = Some Returned
  ∧ tasks (resume i sys) = tasks sys.
Proof.
  intros Hr Hpc Hc Ht Hp. unfold resume, failRun. rewrite Hr, Hpc, Ht.
  unfold renderPage_done, renderPage_catch. rewrite Hc.
  apply lookup_lt_Some in Hr as Hlt.
  destruct p as [| |err]; [done|..]; cbn [view runs tasks];
    rewrite list_lookup_insert_eq by done; by split_and!.
Qed.

Lemma live_run_clears_flags_witness :
  let sys :=
    mkSystem
      (setIsPageRendering true
         (setPdfDoc (Some (mkDoc 1 [(612%Q, 792%Q)])) initialState))
      [Fulfilled] [mkRun false (mkDoc 1 [(612%Q, 792%Q)]) 1 1 (AwaitRender 0)] in
  isLoading (view (resume 0 sys)) = false.
Proof.
  intros sys.
  refine (proj1 (live_run_clears_flags 0 0
            (mkRun false (mkDoc 1 [(612%Q, 792%Q)]) 1 1 (AwaitRender 0)) Fulfilled sys
            eq_refl eq_refl eq_refl eq_refl _)).
  discriminate.
Defined.

Section RenderLifecycle.
Context {J : JSON}.

(** The note effects write note cells only. *)
Lemma settle_cell {A} (f : State → A) :
  (∀ s, f (forgetNotes s) = f s) → ∀ s, f (settle s) = f s.
Proof. intros Hf s. rewrite <- Hf, forgetNotes_settle. apply Hf. Qed.

Lemma handle_renderTaskRef ev s : renderTaskRef (handle ev s) = renderTaskRef s.
Proof.
  destruct ev; cbn [handle];
    unfold goToNextPage, goToPrevPage, startPageEdit, handlePageInputChange,
      handlePageInputKeyDown, submitPageChange, cancelPageEdit, goToPage,
      zoomIn, zoomOut, fitToPage,
      handleMouseDown, handleMouseMove, handleMouseUp, handleMouseLeave,
      handleFileChange, handleNoteChange, updateNoteJson, loadPDF_catch,
      loadPDF_loaded, loadPDF_begin;
    repeat case_match; reflexivity.
Qed.

Lemma step_renderTaskRef ev s : renderTaskRef (step ev s) = renderTaskRef s.
Proof. unfold step. rewrite (settle_cell renderTaskRef) by done. apply handle_renderTaskRef. Qed.

Lemma renderPage_begin_renderTaskRef s :
  renderTaskRef (renderPage_begin s) = renderTaskRef s.
Proof. unfold renderPage_begin. repeat case_match; reflexivity. Qed.

(** X20: when an event changes the document, the page or the scale, the
    effect's cleanup runs before the new run starts: the ref still holds
    the task it held, that task is no longer pending, and the run that was
    the latest is cancelled. *)
Theorem rerun_cancels_stored_task (ev : event) (sys : System) :
  renderDepsChanged (view sys) (step ev (view sys)) = true →
  let sys' := sysStep (Ev ev) sys in
  renderTaskRef (view sys') = renderTaskRef (view sys)
  ∧ (∀ task, renderTaskRef (view sys') = Some task →
       tasks sys' !! task_id task ≠ Some Pending)
  ∧ (∀ r, last (runs sys) = Some r →
       runs sys' !! pred (length (runs sys)) = Some (setCancelled r)).
Proof.
  intros Hch sys'. subst sys'. cbn [sysStep]. rewrite Hch.
  set (sys1 := mkSystem (step ev (view sys)) (tasks sys) (runs sys)).
  assert (renderTaskRef (view (startRun (cleanup sys1))) = renderTaskRef (view sys))
    as Href.
  { unfold startRun, cleanup. cbn [view].
    case_match; cbn [view]; rewrite ?renderPage_begin_renderTaskRef;
      apply step_renderTaskRef. }
  assert (tasks (startRun (cleanup sys1)) = tasks (cleanup sys1)) as Htasks.
  { unfold startRun. by case_match. }
  split_and!; [done|..].
  - intros task Htask. rewrite Htasks. apply cleanup_cancels_stored_task.
    rewrite Href in Htask. cbn [sys1 view]. by rewrite step_renderTaskRef.
  - intros r Hlast. rewrite last_lookup in Hlast.
    assert (alter setCancelled (pred (length (runs sys))) (runs sys)
              !! pred (length (runs sys)) = Some (setCancelled r)) as Hl.
    { by rewrite list_lookup_alter_eq, Hlast. }
    unfold startRun, cleanup. cbn [view sys1 runs].
    case_match; cbn [runs]; [|done]. by apply lookup_app_l_Some.
Qed.

End RenderLifecycle.

Lemma rerun_cancels_stored_task_witness :
  let sys :=
    sysRun (J := ReferenceCodec.codec)
      [Ev (Loaded (mkDoc 1 [(612%Q, 792%Q); (612%Q, 792%Q)])); Resume 0]
      (initialSystem (J := ReferenceCodec.codec) (mkContainer 612 842) (mkCanvas true)) in
  let sys' :=
    sysStep (J := ReferenceCodec.codec)
      (Ev (SelectFile (Some [mkFile "next.pdf" "application/pdf"]))) sys in
  renderTaskRef (view sys') = renderTaskRef (view sys).
Proof.
  intros sys.
  refine (proj1 (rerun_cancels_stored_task (J := ReferenceCodec.codec)
                   (SelectFile (Some [mkFile "next.pdf" "application/pdf"])) sys _)).
  vm_compute. reflexivity.
Defined.

(** ** Which run of the render effect may write *)

Section RunInvariants.
Context {J : JSON}.

Lemma resume_renderDeps i sys :
  pdfDoc (view (resume i sys)) = pdfDoc (view sys)
  ∧ pageNum (view (resume i sys)) = pageNum (view sys)
  ∧ scale (view (resume i sys)) = scale (view sys).
Proof.
  unfold resume, startRender, failRun, renderPage_catch, renderPage_done.
  repeat case_match; done.
Qed.

Lemma renderPage_begin_renderDeps s :
  pdfDoc (renderPage_begin s) = pdfDoc s
  ∧ pageNum (renderPage_begin s) = pageNum s
  ∧ scale (renderPage_begin s) = scale s.
Proof. unfold renderPage_begin. repeat case_match; done. Qed.

Lemma renderDepsChanged_false s s' :
  renderDepsChanged s s' = false →
  doc_id <$> pdfDoc s = doc_id <$> pdfDoc s'
  ∧ pageNum s = pageNum s'
  ∧ (scale s == scale s')%Q.
Proof.
  unfold renderDepsChanged. intros H.
  apply orb_false_elim in H as [H Hscale]. apply orb_false_elim in H as [Hdoc Hpage].
  apply negb_false_iff in Hscale, Hdoc, Hpage.
  apply bool_decide_eq_true in Hdoc. apply Z.eqb_eq in Hpage.
  apply Qeq_bool_iff in Hscale. done.
Qed.

(** After the cleanup no run is left that is not cancelled, if only the
    latest one was. *)
Lemma cleanup_runs_cancelled (rs : list Run) :
  (∀ i r, rs !! i = Some r → isCancelled r = false → S i = length rs) →
  Forall (λ r, isCancelled r = true) (alter setCancelled (pred (length rs)) rs).
Proof.
  intros Hlast. apply Forall_lookup. intros i r Hl.
  destruct (decide (i = pred (length rs))) as [->|Hne].
  - rewrite list_lookup_alter_eq in Hl.
    destruct (rs !! pred (length rs)); by simplify_eq/=.
  - rewrite list_lookup_alter_ne in Hl by done.
    destruct (isCancelled r) eqn:Hc; [done|].
    apply Hlast in Hl; [lia | done].
Qed.

Lemma liveRunIsCurrent_last sys :
  liveRunIsCurrent sys →
  ∀ i r, runs sys !! i = Some r → isCancelled r = false → S i = length (runs sys).
Proof. intros Hinv i r Hl Hc. by destruct (Hinv i r Hl Hc). Qed.

Lemma sysStep_liveRunIsCurrent e sys :
  liveRunIsCurrent sys → liveRunIsCurrent (sysStep e sys).
Proof.
  intros Hinv. destruct e as [ev|k|t|t err]; cbn [sysStep].
  - destruct (renderDepsChanged (view sys) (step ev (view sys))) eqn:Hch.
    + pose proof (cleanup_runs_cancelled _ (liveRunIsCurrent_last _ Hinv)) as Hall.
      rewrite Forall_lookup in Hall.
      unfold startRun, cleanup. cbn [view runs].
      destruct (pdfDoc (step ev (view sys))) as [doc|] eqn:Hdoc.
      * intros i r Hl Hc. cbn [runs view] in *.
        apply lookup_app_Some in Hl as [Hl|[Hlen Hl]].
        { apply Hall in Hl. congruence. }
        rewrite length_alter in Hlen, Hl.
        destruct (i - length (runs sys))%nat as [|n] eqn:Hi; [|done].
        cbn in Hl. injection Hl as <-. cbn [run_pageNum run_scale run_pdfDoc].
        destruct (renderPage_begin_renderDeps (step ev (view sys))) as (-> & -> & ->).
        rewrite length_app, length_alter. cbn [length]. rewrite Hdoc.
        split_and!; [lia | done | reflexivity | done].
      * intros i r Hl Hc. cbn [runs view] in *. apply Hall in Hl. congruence.
    + apply renderDepsChanged_false in Hch as (Hdoc & Hpage & Hscale).
      intros i r Hl Hc. cbn [runs view] in *.
      destruct (Hinv i r Hl Hc) as (Hlast & Hp & Hs & Hd).
      split_and!; [done | congruence | by rewrite Hs | congruence].
  - intros i r Hl Hc.
    destruct (resume_renderDeps k sys) as (-> & -> & ->).
    destruct (resume_runs k sys) as [Hruns|(r0 & p & Hr0 & Hruns)];
      rewrite Hruns in *; [by apply Hinv|].
    rewrite length_insert.
    destruct (decide (k = i)) as [->|Hne].
    + rewrite list_lookup_insert_eq in Hl by (by eapply lookup_lt_Some).
      injection Hl as <-. by apply (Hinv i r0).
    + rewrite list_lookup_insert_ne in Hl by done. by apply Hinv.
  - unfold settleTask. by repeat case_match.
  - unfold settleTask. by repeat case_match.
Qed.

Lemma sysRun_liveRunIsCurrent es sys :
  liveRunIsCurrent sys → liveRunIsCurrent (sysRun es sys).
Proof.
  revert sys. induction es as [|e es IH]; intros sys Hinv; [done|].
  cbn [sysRun foldl]. by apply IH, sysStep_liveRunIsCurrent.
Qed.

Lemma initialSystem_liveRunIsCurrent container canvas :
  liveRunIsCurrent (initialSystem container canvas).
Proof. intros i r Hl. by cbn in Hl. Qed.

(** X21: in every state the component reaches, a run of the render effect
    that is not cancelled is the latest run, and the document, the page
    and the scale in its closure are the current ones: a run with stale
    values can no longer write the loading flag, the rendering flag or the
    error. *)
Theorem live_run_is_latest_and_current (es : list sysEvent)
    (container : Container) (canvas : Canvas) (i : nat) (r : Run) :
  let sys := sysRun es (initialSystem container canvas) in
  runs sys !! i = Some r → isCancelled r = false →
  S i = length (runs sys)
  ∧ run_pageNum r = pageNum (view sys)
  ∧ (run_scale r == scale (view sys))%Q
  ∧ doc_id <$> pdfDoc (view sys) = Some (doc_id (run_pdfDoc r)).
Proof.
  intros sys. apply sysRun_liveRunIsCurrent, initialSystem_liveRunIsCurrent.
Qed.

End RunInvariants.

Lemma live_run_is_latest_and_current_witness :
  let sys :=
    sysRun (J := ReferenceCodec.codec)
      [Ev (Loaded (mkDoc 1 [(612%Q, 792%Q); (612%Q, 792%Q)])); Resume 0;
       RenderFulfilled 0; Resume 0; Ev ClickNext]
      (initialSystem (J := ReferenceCodec.codec) (mkContainer 612 842) (mkCanvas true)) in
  run_pageNum
    (mkRun false (mkDoc 1 [(612%Q, 792%Q); (612%Q, 792%Q)]) 2 1 AwaitGetPage)
  = pageNum (view sys).
Proof.
  intros sys.
  refine (proj1 (proj2 (live_run_is_latest_and_current (J := ReferenceCodec.codec)
            [Ev (Loaded (mkDoc 1 [(612%Q, 792%Q); (612%Q, 792%Q)])); Resume 0;
             RenderFulfilled 0; Resume 0; Ev ClickNext]
            (mkContainer 612 842) (mkCanvas true) 1
            (mkRun false (mkDoc 1 [(612%Q, 792%Q); (612%Q, 792%Q)]) 2 1 AwaitGetPage)
            _ eq_refl))).
  vm_compute. reflexivity.
Defined.

(** ** An upload while a page is being rendered *)

Section UploadWhileRendering.
Context {J : JSON}.

Lemma handle_renderBlocked ev s :
  pdfDoc s = None → isPageRendering s = true →
  pdfDoc (handle ev s) = None ∧ isPageRendering (handle ev s) = true.
Proof.
  intros Hdoc Hflag.
  destruct ev; cbn [handle];
    unfold loadPDF_skips; rewrite ?Hflag, ?orb_true_r;
    unfold goToNextPage, goToPrevPage, startPageEdit, handlePageInputChange,
      handlePageInputKeyDown, submitPageChange, cancelPageEdit, goToPage,
      zoomIn, zoomOut, fitToPage,
      handleMouseDown, handleMouseMove, handleMouseUp, handleMouseLeave,
      handleFileChange, handleNoteChange, updateNoteJson;
    rewrite ?Hdoc; repeat case_match; done.
Qed.

Lemma step_renderBlocked ev s :
  pdfDoc s = None → isPageRendering s = true →
  pdfDoc (step ev s) = None ∧ isPageRendering (step ev s) = true.
Proof.
  intros Hdoc Hflag. unfold step.
  rewrite (settle_cell pdfDoc), (settle_cell isPageRendering) by done.
  by apply handle_renderBlocked.
Qed.

Lemma Forall_cancelled_alter k (rs : list Run) :
  Forall (λ r, isCancelled r = true) rs →
  Forall (λ r, isCancelled r = true) (alter setCancelled k rs).
Proof.
  intros Hall. apply Forall_lookup. intros i r Hl.
  rewrite Forall_lookup in Hall.
  destruct (decide (i = k)) as [->|Hne].
  - rewrite list_lookup_alter_eq in Hl. destruct (rs !! k); by simplify_eq/=.
  - rewrite list_lookup_alter_ne in Hl by done. by eapply Hall.
Qed.

Lemma sysStep_renderBlocked e sys : renderBlocked sys → renderBlocked (sysStep e sys).
Proof.
  intros (Hdoc & Hflag & Hall). destruct e as [ev|k|t|t err]; cbn [sysStep].
  - destruct (step_renderBlocked ev (view sys) Hdoc Hflag) as [Hdoc' Hflag'].
    case_match; [|done].
    unfold startRun, cleanup. cbn [view]. rewrite Hdoc'.
    split_and!; [done | done |]. cbn [runs]. by apply Forall_cancelled_alter.
  - unfold renderBlocked.
    destruct (resume_renderDeps k sys) as (-> & _ & _).
    assert (Forall (λ r, isCancelled r = true) (runs (resume k sys))) as Hall'.
    { apply Forall_fmap with (f := isCancelled) (P := λ b, b = true).
      rewrite resume_isCancelled. by apply Forall_fmap. }
    split_and!; [done | | done].
    destruct (runs sys !! k) as [r|] eqn:Hr.
    + rewrite Forall_lookup in Hall.
      destruct (resume_cancelled_view k r sys Hr (Hall _ _ Hr)) as [ref ->]. done.
    + unfold resume. by rewrite Hr.
  - unfold settleTask. by repeat case_match.
  - unfold settleTask. by repeat case_match.
Qed.

Lemma sysRun_renderBlocked es sys : renderBlocked sys → renderBlocked (sysRun es sys).
Proof.
  revert sys. induction es as [|e es IH]; intros sys Hinv; [done|].
  cbn [sysRun foldl]. by apply IH, sysStep_renderBlocked.
Qed.

Lemma handleFileChange_pdfDoc file others s :
  file_type file = "application/pdf" →
  pdfDoc (step (SelectFile (Some (file :: others))) s) = None
  ∧ isPageRendering (step (SelectFile (Some (file :: others))) s) = isPageRendering s.
Proof.
  intros Htype. unfold step.
  rewrite (settle_cell pdfDoc), (settle_cell isPageRendering) by done.
  cbn [handle]. unfold handleFileChange. cbn. by rewrite Htype.
Qed.

(** The upload itself: no document, the flag still set, no run left that
    could clear it. *)
Lemma upload_renderBlocked sys file others :
  liveRunIsCurrent sys →
  isPageRendering (view sys) = true →
  file_type file = "application/pdf" →
  renderBlocked (sysStep (Ev (SelectFile (Some (file :: others)))) sys).
Proof.
  intros Hinv Hflag Htype.
  destruct (handleFileChange_pdfDoc file others (view sys) Htype) as [Hdoc Hflag'].
  cbn [sysStep].
  destruct (renderDepsChanged _ _) eqn:Hch.
  - unfold startRun, cleanup. cbn [view]. rewrite Hdoc.
    unfold renderBlocked. cbn [view runs].
    split_and!; [done | by rewrite Hflag' |].
    apply cleanup_runs_cancelled, liveRunIsCurrent_last, Hinv.
  - apply renderDepsChanged_false in Hch as (Hsame & _ & _).
    unfold renderBlocked. cbn [view runs].
    split_and!; [done | by rewrite Hflag' |].
    apply Forall_lookup. intros i r Hl.
    destruct (isCancelled r) eqn:Hc; [done|].
    destruct (Hinv i r Hl Hc) as (_ & _ & _ & Hd).
    rewrite Hdoc in Hsame. rewrite Hsame in Hd. done.
Qed.

Lemma sysStep_upload_view sys file others :
  file_type file = "application/pdf" →
  view (sysStep (Ev (SelectFile (Some (file :: others)))) sys)
  = step (SelectFile (Some (file :: others))) (view sys).
Proof.
  intros Htype.
  destruct (handleFileChange_pdfDoc file others (view sys) Htype) as [Hdoc _].
  cbn [sysStep]. destruct (renderDepsChanged _ _); [|done].
  unfold startRun, cleanup. cbn [view]. by rewrite Hdoc.
Qed.

(** X22: a PDF chosen while a page is being rendered is never loaded.
    The upload clears the document, so the cleanup cancels the run that
    would have cleared the rendering flag; with the flag set [loadPDF]
    returns at once, and with no document no new run of [renderPage]
    starts.  From then on, whatever happens, there is no document and the
    flag stays set. *)
Theorem upload_during_render_blocks (es0 es : list sysEvent)
    (container : Container) (canvas : Canvas) (file : File) (others : list File) :
  let sys := sysRun es0 (initialSystem container canvas) in
  isPageRendering (view sys) = true →
  file_type file = "application/pdf" →
  let sys' := sysRun es (sysStep (Ev (SelectFile (Some (file :: others)))) sys) in
  pdfDoc (view sys') = None
  ∧ isPageRendering (view sys') = true
  ∧ Forall (λ r, isCancelled r = true) (runs sys').
Proof.
  intros sys Hflag Htype.
  apply sysRun_renderBlocked, upload_renderBlocked; [|done..].
  apply sysRun_liveRunIsCurrent, initialSystem_liveRunIsCurrent.
Qed.

(** C6 fails on the code: a PDF selected while the first page is being
    rendered.  The handler does clear the notes and reset the page, the
    pan offset and the error, records the file and drops the document; but
    the rendering flag is set, so [loadPDF] returns at its guard, and the
    only run of [renderPage] that could clear the flag has just been
    cancelled.  Whatever happens afterwards, the new file is not loaded:
    there is no document, the flag stays set and [loadPDF] keeps
    returning at the guard. *)
Theorem upload_while_rendering_never_loads (es : list sysEvent) :
  let next := mkFile "next.pdf" "application/pdf" in
  let sys :=
    sysRun renderingSchedule (initialSystem (mkContainer 612 842) (mkCanvas true)) in
  let sys' := sysStep (Ev (SelectFile (Some [next]))) sys in
  (isPageRendering (view sys) = true ∧ tasks sys = [Pending])
  ∧ (pdfFile (view sys') = Some next
     ∧ pdfLoadSource (view sys') = Some SrcFile
     ∧ pageNum (view sys') = 1
     ∧ panPosition (view sys') = mkPoint 0 0
     ∧ error (view sys') = None
     ∧ pdfDoc (view sys') = None
     ∧ loadPDF_skips (view sys') = true)
  ∧ (pdfDoc (view (sysRun es sys')) = None
     ∧ isPageRendering (view (sysRun es sys')) = true
     ∧ loadPDF_skips (view (sysRun es sys')) = true
     ∧ Forall (λ r, isCancelled r = true) (runs (sysRun es sys'))).
Proof.
  intros next sys sys'. subst sys' sys.
  pose proof (sysRun_liveRunIsCurrent renderingSchedule _
                (initialSystem_liveRunIsCurrent (mkContainer 612 842) (mkCanvas true)))
    as Hinv.
  pose proof (sameLifecycle_run J ReferenceCodec.codec renderingSchedule _ _
                (sameLifecycle_initial J ReferenceCodec.codec
                   (mkContainer 612 842) (mkCanvas true))) as Hsame.
  revert Hinv Hsame.
  generalize (sysRun (J := J) renderingSchedule
                (initialSystem (mkContainer 612 842) (mkCanvas true))).
  intros sys Hinv (Hview & Htasks & _).
  assert (isPageRendering (view sys) = true) as Hflag.
  { change (isPageRendering (forgetNotes (view sys)) = true).
    rewrite Hview. vm_compute. reflexivity. }
  assert (renderBlocked (sysStep (Ev (SelectFile (Some [next]))) sys)) as Hblocked.
  { apply upload_renderBlocked; [exact Hinv | exact Hflag | reflexivity]. }
  assert (∀ sys0, renderBlocked sys0 → loadPDF_skips (view sys0) = true) as Hskips.
  { intros sys0 (_ & Hf & _). unfold loadPDF_skips. rewrite Hf. apply orb_true_r. }
  assert (view (sysStep (Ev (SelectFile (Some [next]))) sys)
          = step (SelectFile (Some [next])) (view sys)) as Hview'.
  { apply sysStep_upload_view. reflexivity. }
  split_and!.
  - exact Hflag.
  - rewrite Htasks. vm_compute. reflexivity.
  - rewrite Hview'. unfold step. rewrite (settle_cell pdfFile) by reflexivity.
    reflexivity.
  - rewrite Hview'. unfold step. rewrite (settle_cell pdfLoadSource) by reflexivity.
    reflexivity.
  - rewrite Hview'. unfold step. rewrite (settle_cell pageNum) by reflexivity.
    reflexivity.
  - rewrite Hview'. unfold step. rewrite (settle_cell panPosition) by reflexivity.
    reflexivity.
  - rewrite Hview'. unfold step. rewrite (settle_cell error) by reflexivity.
    reflexivity.
  - apply Hblocked.
  - apply Hskips, Hblocked.
  - apply (sysRun_renderBlocked es _ Hblocked).
  - apply (sysRun_renderBlocked es _ Hblocked).
  - apply Hskips, sysRun_renderBlocked, Hblocked.
  - apply (sysRun_renderBlocked es _ Hblocked).
Qed.

End UploadWhileRendering.

(** C7 fails on the code.  [renderPage] compares the page number with
    the page recorded on the task in the ref, and a cancelled run still
    starts its render and records its page there.  At the end of
    [staleRefSchedule] the component is idle on page 1 at scale 1.25, the
    page dragged by (40, 50), and the ref holds a task recorded for
    page 2.  A zoom-in, which changes the scale only, resets the pan
    offset; going to page 2 keeps it. *)
Theorem pan_reset_follows_stale_task {J : JSON} :
  let sys :=
    sysRun staleRefSchedule (initialSystem (mkContainer 612 842) (mkCanvas true)) in
  let zoomed := sysStep (Ev ClickZoomIn) sys in
  let turned := sysStep (Ev ClickNext) sys in
  (pageNum (view sys) = 1
   ∧ renderTaskRef (view sys) = Some (mkRenderTask 3 2)
   ∧ panPosition (view sys) = mkPoint 40 50
   ∧ isLoading (view sys) = false
   ∧ isPageRendering (view sys) = false
   ∧ inFlight sys = 0%nat)
  ∧ (pageNum (view zoomed) = pageNum (view sys)
     ∧ (scale (view sys) < scale (view zoomed))%Q
     ∧ panPosition (view zoomed) = mkPoint 0 0)
  ∧ (pageNum (view turned) = 2
     ∧ (scale (view turned) == scale (view sys))%Q
     ∧ panPosition (view turned) = mkPoint 40 50).
Proof.
  intros sys zoomed turned. subst zoomed turned sys.
  pose proof (sameLifecycle_run J ReferenceCodec.codec staleRefSchedule _ _
                (sameLifecycle_initial J ReferenceCodec.codec
                   (mkContainer 612 842) (mkCanvas true))) as Hsame.
  pose proof (sameLifecycle_step J ReferenceCodec.codec (Ev ClickZoomIn) _ _ Hsame)
    as Hzoomed.
  pose proof (sameLifecycle_step J ReferenceCodec.codec (Ev ClickNext) _ _ Hsame)
    as Hturned.
  revert Hsame Hzoomed Hturned.
  generalize (sysRun (J := J) staleRefSchedule
                (initialSystem (mkContainer 612 842) (mkCanvas true))).
  intros sys (Hview & Htasks & _).
  generalize (sysStep (J := J) (Ev ClickZoomIn) sys),
    (sysStep (J := J) (Ev ClickNext) sys).
  intros zoomed turned (Hzoomed & _ & _) (Hturned & _ & _).
  unfold inFlight. rewrite Htasks.
  change (pageNum (view sys)) with (pageNum (forgetNotes (view sys))).
  change (scale (view sys)) with (scale (forgetNotes (view sys))).
  change (panPosition (view sys)) with (panPosition (forgetNotes (view sys))).
  change (renderTaskRef (view sys)) with (renderTaskRef (forgetNotes (view sys))).
  change (isLoading (view sys)) with (isLoading (forgetNotes (view sys))).
  change (isPageRendering (view sys)) with (isPageRendering (forgetNotes (view sys))).
  change (pageNum (view zoomed)) with (pageNum (forgetNotes (view zoomed))).
  change (scale (view zoomed)) with (scale (forgetNotes (view zoomed))).
  change (panPosition (view zoomed)) with (panPosition (forgetNotes (view zoomed))).
  change (pageNum (view turned)) with (pageNum (forgetNotes (view turned))).
  change (scale (view turned)) with (scale (forgetNotes (view turned))).
  change (panPosition (view turned)) with (panPosition (forgetNotes (view turned))).
  rewrite Hview, Hzoomed, Hturned. clear.
  vm_compute. repeat split.
Qed.

Lemma upload_during_render_blocks_witness :
  let sys' :=
    sysRun (J := ReferenceCodec.codec)
      [Resume 0; RenderFulfilled 0; Resume 0;
       Ev (Loaded (mkDoc 2 [(612%Q, 792%Q)]))]
      (sysStep (J := ReferenceCodec.codec)
         (Ev (SelectFile (Some [mkFile "next.pdf" "application/pdf"])))
         (sysRun (J := ReferenceCodec.codec)
            [Ev (Loaded (mkDoc 1 [(612%Q, 792%Q)])); Resume 0]
            (initialSystem (J := ReferenceCodec.codec)
               (mkContainer 612 842) (mkCanvas true)))) in
  pdfDoc (view sys') = None
  ∧ isPageRendering (view sys') = true
  ∧ Forall (λ r, isCancelled r = true) (runs sys').
Proof.
  refine (upload_during_render_blocks (J := ReferenceCodec.codec)
            [Ev (Loaded (mkDoc 1 [(612%Q, 792%Q)])); Resume 0]
            [Resume 0; RenderFulfilled 0; Resume 0;
             Ev (Loaded (mkDoc 2 [(612%Q, 792%Q)]))]
            (mkContainer 612 842) (mkCanvas true)
            (mkFile "next.pdf" "application/pdf") [] _ eq_refl).
  vm_compute. reflexivity.
Defined.

(** ** Note edits and the render effect *)

Section NoteEditsAndRendering.
Context {J : JSON}.

Lemma renderDepsChanged_forgetNotes s s' :
  forgetNotes s' = forgetNotes s → renderDepsChanged s s' = false.
Proof.
  intros Hsame.
  assert (pdfDoc s' = pdfDoc s) as Hdoc by exact (f_equal pdfDoc Hsame).
  assert (pageNum s' = pageNum s) as Hpage by exact (f_equal pageNum Hsame).
  assert (scale s' = scale s) as Hscale by exact (f_equal scale Hsame).
  unfold renderDepsChanged. rewrite Hdoc, Hpage, Hscale.
  rewrite bool_decide_eq_true_2 by done. rewrite Z.eqb_refl.
  by rewrite (proj2 (Qeq_bool_iff _ _) (Qeq_refl _)).
Qed.

Lemma forgetNotes_editNote newText s :
  forgetNotes (step (EditNote newText) s) = forgetNotes s.
Proof.
  unfold step. rewrite forgetNotes_settle. cbn [handle].
  unfold handleNoteChange, updateNoteJson. repeat case_match; reflexivity.
Qed.

Lemma sysStep_editNote newText sys :
  sameLifecycle (sysStep (Ev (EditNote newText)) sys) sys.
Proof.
  cbn [sysStep].
  rewrite (renderDepsChanged_forgetNotes _ _ (forgetNotes_editNote newText (view sys))).
  unfold sameLifecycle. cbn [view tasks runs]. split_and!; [|done..].
  apply forgetNotes_editNote.
Qed.

Lemma sameLifecycle_trans sys1 sys2 sys3 :
  sameLifecycle sys1 sys2 → sameLifecycle sys2 sys3 → sameLifecycle sys1 sys3.
Proof. intros (? & ? & ?) (? & ? & ?). unfold sameLifecycle. split_and!; congruence. Qed.

Lemma sysRun_without_note_edits es sys1 sys2 :
  sameLifecycle sys1 sys2 →
  sameLifecycle (sysRun es sys1)
    (sysRun (List.filter (λ e, negb (isNoteEdit e)) es) sys2).
Proof.
  revert sys1 sys2. induction es as [|e es IH]; intros sys1 sys2 Hsame; [done|].
  cbn [sysRun foldl List.filter].
  destruct (isNoteEdit e) eqn:Hedit; cbn [negb].
  - apply IH. destruct e as [[]| | |]; try done.
    eapply sameLifecycle_trans; [apply sysStep_editNote | done].
  - cbn [foldl]. apply IH. by apply sameLifecycle_step.
Qed.

(** X23: typing in the note field never starts, cancels or resumes a
    render.  Whatever the events, dropping the note edits from them leads
    to the same render tasks, the same runs of the render effect and the
    same view state outside the three note cells. *)
Theorem note_edits_do_not_touch_rendering (es : list sysEvent) (sys : System) :
  let sys1 := sysRun es sys in
  let sys2 := sysRun (List.filter (λ e, negb (isNoteEdit e)) es) sys in
  tasks sys1 = tasks sys2
  ∧ runs sys1 = runs sys2
  ∧ forgetNotes (view sys1) = forgetNotes (view sys2)
  ∧ inFlight sys1 = inFlight sys2.
Proof.
  intros sys1 sys2.
  destruct (sysRun_without_note_edits es sys sys) as (Hview & Htasks & Hruns); [done|].
  fold sys1 sys2 in Hview, Htasks, Hruns.
  unfold inFlight. rewrite Htasks. done.
Qed.

End NoteEditsAndRendering.

(** ** Loading a document *)

Section Loading.
Context {J : JSON}.


(** The runs and tasks after a view event can be read off the handler
    alone: the note effects that follow it write note cells only. *)
Lemma sysStep_Ev_sameLifecycle ev sys v ts rs :
  sameLifecycle sys (mkSystem v ts rs) →
  sameLifecycle (sysStep (Ev ev) sys)
    (if renderDepsChanged v (handle ev v)
     then startRun (cleanup (mkSystem (handle ev v) ts rs))
     else mkSystem (handle ev v) ts rs).
Proof.
  intros (Hview & Htasks & Hruns). cbn [view tasks runs] in *. cbn [sysStep].
  assert (forgetNotes (step ev (view sys)) = forgetNotes (handle ev v)) as Hstep.
  { unfold step. rewrite forgetNotes_settle. by apply forgetNotes_handle. }
  destruct sys as [v0 ts0 rs0]. cbn [view tasks runs] in *. subst.
  revert Hstep Hview. generalize (step ev v0), (handle ev v).
  intros [] [] [=] Hview. subst.
  destruct v0, v. unfold forgetNotes in Hview. cbn in Hview.
  injection Hview as ->. subst.
  unfold sameLifecycle, renderDepsChanged, startRun, cleanup, renderPage_begin,
    forgetNotes.
  cbn. repeat case_match; simplify_eq/=; try done; congruence.
Qed.

(** X25: the first render.  After mount the document arrives, the run of
    the render effect gets page 1 and starts its render task, the task is
    fulfilled and the run resumes: the document is shown on page 1, the
    loading flag and the rendering flag are cleared, there is no error,
    no render task is pending and the ref holds the task with page
    number 1. *)
Theorem first_render_completes (container : Container) (canvas : Canvas)
    (doc : PDFDocumentProxy) :
  has2d canvas = true → 1 ≤ doc_numPages doc →
  let sys :=
    sysRun [Ev (Loaded doc); Resume 0; RenderFulfilled 0; Resume 0]
      (initialSystem container canvas) in
  pdfDoc (view sys) = Some doc
  ∧ pageNum (view sys) = 1
  ∧ numPages (view sys) = Some (doc_numPages doc)
  ∧ isLoading (view sys) = false
  ∧ isPageRendering (view sys) = false
  ∧ error (view sys) = None
  ∧ renderTaskRef (view sys) = Some (mkRenderTask 0 1)
  ∧ tasks sys = [Fulfilled]
  ∧ pc <$> runs sys = [Returned]
  ∧ inFlight sys = 0%nat.
Proof.
  intros Hcanvas Hpages sys.
  destruct doc as [id [|sz sizes]]; [unfold doc_numPages in Hpages; cbn in Hpages; lia|].
  destruct canvas as [b]. cbn in Hcanvas. subst b.
  assert (sameLifecycle (initialSystem container (mkCanvas true))
            (mkSystem
               (setCanvasRef (Some (mkCanvas true))
                  (setContainerRef (Some container) initialState)) [] [])) as Hsame.
  { unfold sameLifecycle, initialSystem. cbn [view tasks runs].
    by rewrite forgetNotes_settle. }
  apply (sysStep_Ev_sameLifecycle (Loaded (mkDoc id (sz :: sizes)))) in Hsame.
  apply (sameLifecycle_step J J (Resume 0)) in Hsame.
  apply (sameLifecycle_step J J (RenderFulfilled 0)) in Hsame.
  apply (sameLifecycle_step J J (Resume 0)) in Hsame.
  unfold sys, sysRun. cbn [foldl]. clear sys Hpages. revert Hsame.
  generalize (sysStep (Resume 0) (sysStep (RenderFulfilled 0) (sysStep (Resume 0)
                (sysStep (Ev (Loaded (mkDoc id (sz :: sizes))))
                   (initialSystem container (mkCanvas true)))))).
  intros sys (Hview & Htasks & Hruns).
  unfold inFlight. rewrite Htasks, Hruns.
  change (pdfDoc (view sys)) with (pdfDoc (forgetNotes (view sys))).
  change (pageNum (view sys)) with (pageNum (forgetNotes (view sys))).
  change (numPages (view sys)) with (numPages (forgetNotes (view sys))).
  change (isLoading (view sys)) with (isLoading (forgetNotes (view sys))).
  change (isPageRendering (view sys)) with (isPageRendering (forgetNotes (view sys))).
  change (error (view sys)) with (error (forgetNotes (view sys))).
  change (renderTaskRef (view sys)) with (renderTaskRef (forgetNotes (view sys))).
  rewrite Hview. clear. vm_compute. repeat split.
Qed.

End Loading.

Lemma first_render_completes_witness :
  let sys :=
    sysRun (J := ReferenceCodec.codec)
      [Ev (Loaded (mkDoc 1 [(612%Q, 792%Q)])); Resume 0; RenderFulfilled 0; Resume 0]
      (initialSystem (J := ReferenceCodec.codec) (mkContainer 612 842) (mkCanvas true)) in
  isPageRendering (view sys) = false.
Proof.
  refine (proj1 (proj2 (proj2 (proj2 (proj2
            (first_render_completes (J := ReferenceCodec.codec)
               (mkContainer 612 842) (mkCanvas true) (mkDoc 1 [(612%Q, 792%Q)])
               eq_refl _)))))).
  vm_compute. discriminate.
Defined.
